(** * Dicom_viewer: a shallow embedding of the volume pipeline

    The development follows the Python sources of the viewer back end:
    [utils/hu_utils.py], [services/volume_cropper.py],
    [services/planning_mapper.py], [services/mpr_generator.py],
    [services/dicom_loader.py], [services/stl_generator.py],
    [routes/reconstruction.py] and [routes/cine.py].

    Conventions.
    - Python [int] is [Z]; Python [float] (and the numpy float arrays) are
      exact rationals [Q]: binary64 and float32 rounding is not modelled.
      The outcomes of the concrete scenarios evaluated below depend only on
      dyadic values that binary64 represents exactly.
    - A raised exception is the left injection of [result]; the exception
      classes are the constructors of [exn].
    - numpy volumes are nested lists indexed [z][y][x] together with their
      shape (numpy keeps the shape even when an axis is empty).
    - The file system, pydicom, SimpleITK and VTK are collaborators: their
      operations are fields of interface records and the state they act on
      is passed explicitly. *)

From Stdlib Require Import ZArith QArith Qround Qabs Lqa Lia Ascii.
From stdpp Require Import gmap strings list pretty.

#[local] Open Scope Z_scope.

(** ** Python runtime fragments *)

Module Py.

Inductive exn : Type :=
| ValueError (msg : string)
| RuntimeError (msg : string)
| IndexError (msg : string)
| KeyError (key : string)
| AttributeError (attr : string)
| FileNotFoundError (path : string)
| ZeroDivisionError
| TypeError (msg : string)
| InvalidDicomError (path : string)
| OSError (msg : string)
| HTTPException (status_code : Z) (detail : string).

Definition result (A : Type) : Type := exn + A.

Definition raise {A} (e : exn) : result A := inl e.

#[global] Instance result_ret : MRet result := λ A a, inr a.
#[global] Instance result_bind : MBind result :=
  λ A B f m, match m with inl e => inl e | inr a => f a end.

#[global] Instance result_fmap : FMap result :=
  λ A B f m, match m with inl e => inl e | inr a => inr (f a) end.

Definition is_ok {A} (r : result A) : bool :=
  match r with inr _ => true | inl _ => false end.

(** [str(e)] for the exceptions that carry a message. *)
Definition str_exn (e : exn) : string :=
  match e with
  | ValueError m | RuntimeError m | IndexError m => m
  | KeyError k => k
  | AttributeError a => a
  | FileNotFoundError p => p
  | ZeroDivisionError => "division by zero"
  | TypeError m => m
  | InvalidDicomError p => p
  | OSError m => m
  | HTTPException _ d => d
  end.

Definition Qlt_bool (a b : Q) : bool := negb (Qle_bool b a).

(** [max(a, b)] and [min(a, b)] on floats: the first argument wins ties. *)
Definition fmax (a b : Q) : Q := if Qlt_bool a b then b else a.
Definition fmin (a b : Q) : Q := if Qlt_bool b a then b else a.

(** [int(x)] on a float: truncation toward zero. *)
Definition int_of_float (x : Q) : Z :=
  if Qle_bool 0 x then Qfloor x else Qceiling x.

(** [a / b] on numbers: true division, [ZeroDivisionError] on [b = 0]. *)
Definition truediv (a b : Q) : result Q :=
  if Qeq_bool b 0 then raise ZeroDivisionError else mret (a / b)%Q.

(** [xs[i]] on a list, negative indices counted from the end. *)
Definition getitem {A} (xs : list A) (i : Z) : result A :=
  let n := Z.of_nat (length xs) in
  let j := if i <? 0 then i + n else i in
  if (j <? 0) || (n <=? j) then raise (IndexError "list index out of range")
  else match xs !! Z.to_nat j with
       | Some x => mret x
       | None => raise (IndexError "list index out of range")
       end.

(** [xs[a:b]] with the bounds normalised as Python's [slice.indices]. *)
Definition slice_bound (n i : Z) : Z :=
  if i <? 0 then Z.max 0 (i + n) else Z.min n i.

Definition slice {A} (xs : list A) (a b : Z) : list A :=
  let n := Z.of_nat (length xs) in
  let lo := slice_bound n a in
  let hi := slice_bound n b in
  take (Z.to_nat (hi - lo)) (drop (Z.to_nat lo) xs).

(** [min(xs, key=...)] and [max(xs, key=...)]: the first extremal element
    wins, [ValueError] on an empty sequence. *)
Fixpoint min_from {A} (key : A → Q) (best : A) (rest : list A) : A :=
  match rest with
  | [] => best
  | x :: rest' =>
      if Qlt_bool (key x) (key best) then min_from key x rest'
      else min_from key best rest'
  end.

Fixpoint max_from {A} (key : A → Q) (best : A) (rest : list A) : A :=
  match rest with
  | [] => best
  | x :: rest' =>
      if Qlt_bool (key best) (key x) then max_from key x rest'
      else max_from key best rest'
  end.

Definition min_key {A} (xs : list A) (key : A → Q) : result A :=
  match xs with
  | [] => raise (ValueError "min() arg is an empty sequence")
  | x :: rest => mret (min_from key x rest)
  end.

Definition max_key {A} (xs : list A) (key : A → Q) : result A :=
  match xs with
  | [] => raise (ValueError "max() arg is an empty sequence")
  | x :: rest => mret (max_from key x rest)
  end.

(** The length of [xs[a:b]] for a sequence of length [n]. *)
Definition slice_length (n : nat) (a b : Z) : nat :=
  Z.to_nat (slice_bound (Z.of_nat n) b - slice_bound (Z.of_nat n) a).

(** [sorted(xs)] and [sorted(xs, key=...)]: a stable ascending sort, for
    a strict order [lt] on the elements or on their keys. *)
Fixpoint insert_with {A} (lt : A → A → bool) (x : A) (sorted : list A)
  : list A :=
  match sorted with
  | [] => [x]
  | y :: rest =>
      if lt x y then x :: y :: rest else y :: insert_with lt x rest
  end.

Definition sorted_with {A} (lt : A → A → bool) (xs : list A) : list A :=
  foldl (λ acc x, insert_with lt x acc) [] xs.

Definition sorted_by {A} (key : A → Q) (xs : list A) : list A :=
  sorted_with (λ a b, Qlt_bool (key a) (key b)) xs.

(** A list in ascending order of its keys: no element is above a later one. *)
Fixpoint ascending {A} (key : A → Q) (l : list A) : Prop :=
  match l with
  | [] => True
  | x :: rest => Forall (λ y, (key x <= key y)%Q) rest ∧ ascending key rest
  end.

(** [d[k] = v] and [d.get(k)] on a dict kept in insertion order. *)
Definition dict_set {A} (k : string) (v : A) (d : list (string * A))
  : list (string * A) :=
  if existsb (λ kv, String.eqb kv.1 k) d then
    map (λ kv, if String.eqb kv.1 k then (k, v) else kv) d
  else d ++ [(k, v)].

Definition dict_get {A} (k : string) (d : list (string * A)) : option A :=
  snd <$> find (λ kv, String.eqb kv.1 k) d.

(** [img[i][j]] on a nested list, [None] outside the raster. *)
Definition pixel {A} (img : list (list A)) (i j : nat) : option A :=
  match img !! i with
  | Some row => row !! j
  | None => None
  end.

(** [range(n)]. *)
Definition range (n : nat) : list nat := seq 0 n.

(** [s.replace(old, new)] for single characters. *)
Fixpoint replace_char (old new : Ascii.ascii) (s : string) : string :=
  match s with
  | EmptyString => EmptyString
  | String c rest =>
      String (if Ascii.eqb c old then new else c) (replace_char old new rest)
  end.

(** [s.lower()] and [s.endswith(suffix)] on ASCII strings. *)
Definition lower_char (c : Ascii.ascii) : Ascii.ascii :=
  let n := Ascii.nat_of_ascii c in
  if (65 <=? n)%nat && (n <=? 90)%nat then Ascii.ascii_of_nat (n + 32) else c.

Fixpoint lower (s : string) : string :=
  match s with
  | EmptyString => EmptyString
  | String c rest => String (lower_char c) (lower rest)
  end.

Definition endswith (s suffix : string) : bool :=
  let n := String.length s in
  let m := String.length suffix in
  (m <=? n)%nat && String.eqb (String.substring (n - m) m s) suffix.

(** [os.path.join(a, b)]: an absolute [b] replaces [a]. *)
Definition path_join (a b : string) : string :=
  if String.prefix "/" b then b
  else if String.eqb a "" || endswith a "/" then a +:+ b
  else a +:+ "/" +:+ b.

(** Run [f] over a list, stopping at the first exception. *)
Fixpoint mapM {A B} (f : A → result B) (xs : list A) : result (list B) :=
  match xs with
  | [] => mret []
  | x :: rest => y ← f x; ys ← mapM f rest; mret (y :: ys)
  end.

(** [s.zfill(width)] for the digits of a non-negative number. *)
Definition zfill (width : nat) (s : string) : string :=
  String.concat "" (replicate (width - String.length s) "0") +:+ s.

(** [str(b)] for a [bool]. *)
Definition str_bool (b : bool) : string := if b then "True" else "False".

End Py.

Import Py.

(** ** [utils/hu_utils.py] *)

Module HuUtils.

(** numpy [clip] on one value: [minimum(maximum(x, lower), upper)]. *)
Definition clip (x lower upper : Q) : Q := fmin (fmax x lower) upper.

(** [astype(np.uint8)] on a float: truncate, then wrap to 8 bits. *)
Definition to_uint8 (x : Q) : Z := (Py.int_of_float x) mod 256.

(** The body of [apply_window] on one pixel, after the width guard:
    the value before the final cast, and the cast value. *)
Definition window_level (center width x : Q) : Q :=
  let lower := (center - width / 2)%Q in
  let upper := (center + width / 2)%Q in
  let windowed := clip x lower upper in
  let windowed := ((windowed - lower) / (upper - lower))%Q in
  (windowed * 255)%Q.

Definition window_pixel (center width x : Q) : Z :=
  to_uint8 (window_level center width x).

Definition apply_window (image : list (list Q)) (center width : Q)
  : result (list (list Z)) :=
  if Qle_bool width 0 then raise (ValueError "Window width must be > 0")
  else mret (map (map (window_pixel center width)) image).

End HuUtils.

(** ** numpy volumes *)

(** A 3D array with axes (slice, row, column): the shape and the voxels. *)
Record Volume : Type := mkVolume {
  z_size : nat;
  y_size : nat;
  x_size : nat;
  voxels : list (list (list Q))
}.

(** The voxels agree with the shape. *)
Definition well_shaped (v : Volume) : Prop :=
  length (voxels v) = z_size v ∧
  Forall (λ sl, length sl = y_size v ∧ Forall (λ row, length row = x_size v) sl)
         (voxels v).

(** ** [services/volume_cropper.py] *)

Module VolumeCropper.

Record Fov : Type := mkFov { x_min : Z; x_max : Z; y_min : Z; y_max : Z }.

Record Geometry : Type := mkGeometry {
  num_slices : nat;
  height : nat;
  width : nat;
  geo_slice_start : Z;
  geo_slice_end : Z;
  geo_fov : option Fov
}.

(** [volume[a:b, :, :]] *)
Definition slice_axis0 (volume : Volume) (a b : Z) : Volume :=
  let kept := Py.slice (voxels volume) a b in
  {| z_size := length kept;
     y_size := y_size volume;
     x_size := x_size volume;
     voxels := kept |}.

(** The [ndim != 3] guard never fires: a [Volume] is three-dimensional. *)
Definition crop_volume_z (volume : Volume) (slice_start slice_end : Z)
  : result Volume :=
  let z_max := Z.of_nat (z_size volume) - 1 in
  let slice_start := Z.max 0 slice_start in
  let slice_end := Z.min z_max slice_end in
  if slice_start >? slice_end then
    raise (ValueError "slice_start must be <= slice_end")
  else mret (slice_axis0 volume slice_start (slice_end + 1)).

(** [volume[:, a:b, c:d]] *)
Definition slice_axes12 (volume : Volume) (a b c d : Z) : Volume :=
  {| z_size := z_size volume;
     y_size := Py.slice_length (y_size volume) a b;
     x_size := Py.slice_length (x_size volume) c d;
     voxels := map (λ sl, map (λ row, Py.slice row c d) (Py.slice sl a b))
                   (voxels volume) |}.

Definition crop_volume_xy (volume : Volume) (fov : Fov) : result Volume :=
  let height := Z.of_nat (y_size volume) in
  let width := Z.of_nat (x_size volume) in
  let x_min := Z.max 0 (x_min fov) in
  let x_max := Z.min (width - 1) (x_max fov) in
  let y_min := Z.max 0 (y_min fov) in
  let y_max := Z.min (height - 1) (y_max fov) in
  if (x_min >=? x_max) || (y_min >=? y_max) then
    raise (ValueError "Invalid FOV crop range")
  else mret (slice_axes12 volume y_min (y_max + 1) x_min (x_max + 1)).

(** [fov] is accepted and only copied into the geometry. *)
Definition crop_volume (volume : Volume) (slice_start slice_end : Z)
    (fov : option Fov) : result (Volume * Geometry) :=
  z_cropped ← crop_volume_z volume slice_start slice_end;
  let final_volume := z_cropped in
  mret (final_volume,
        {| num_slices := z_size final_volume;
           height := y_size final_volume;
           width := x_size final_volume;
           geo_slice_start := slice_start;
           geo_slice_end := slice_end;
           geo_fov := fov |}).

End VolumeCropper.

(** ** [services/planning_mapper.py] *)

Module PlanningMapper.

Definition map_scout_pixels_to_z_mm
    (z_pixel_start z_pixel_end scout_height_px : Z) (z_min_mm z_max_mm : Q)
  : result (Q * Q) :=
  if scout_height_px <=? 0 then
    raise (ValueError "Scout height must be positive")
  else
    let z_start_ratio := (inject_Z z_pixel_start / inject_Z scout_height_px)%Q in
    let z_end_ratio := (inject_Z z_pixel_end / inject_Z scout_height_px)%Q in
    let z_start_mm := (z_min_mm + z_start_ratio * (z_max_mm - z_min_mm))%Q in
    let z_end_mm := (z_min_mm + z_end_ratio * (z_max_mm - z_min_mm))%Q in
    mret (z_start_mm, z_end_mm).

(** The inner helper of [map_z_mm_to_slice_indices]; [range] is never
    empty where it is called. *)
Definition find_closest_index (z_positions_sorted : list Q) (z_mm : Q) : nat :=
  match Py.range (length z_positions_sorted) with
  | [] => 0%nat
  | i0 :: rest =>
      Py.min_from (λ i, Qabs (nth i z_positions_sorted 0%Q - z_mm)) i0 rest
  end.

Definition map_z_mm_to_slice_indices (z_start_mm z_end_mm : Q)
    (z_positions : list Q) : result (nat * nat) :=
  match z_positions with
  | [] => raise (ValueError "z_positions list is empty")
  | _ =>
      let z_positions_sorted := Py.sorted_by (λ z, z) z_positions in
      let start_idx := find_closest_index z_positions_sorted z_start_mm in
      let end_idx := find_closest_index z_positions_sorted z_end_mm in
      let slice_start := Nat.min start_idx end_idx in
      let slice_end := Nat.max start_idx end_idx in
      mret (slice_start, slice_end)
  end.

Record Plan : Type := mkPlan {
  z_start_mm : Q;
  z_end_mm : Q;
  slice_start : nat;
  slice_end : nat
}.

Definition generate_planning_geometry
    (z_pixel_start z_pixel_end scout_height_px : Z) (z_positions : list Q)
  : result Plan :=
  z_min_mm ← Py.min_key z_positions (λ z, z);
  z_max_mm ← Py.max_key z_positions (λ z, z);
  '(z_start_mm, z_end_mm) ←
    map_scout_pixels_to_z_mm z_pixel_start z_pixel_end scout_height_px
                             z_min_mm z_max_mm;
  '(slice_start, slice_end) ←
    map_z_mm_to_slice_indices z_start_mm z_end_mm z_positions;
  mret {| z_start_mm := z_start_mm; z_end_mm := z_end_mm;
          slice_start := slice_start; slice_end := slice_end |}.

End PlanningMapper.

(** ** [services/mpr_generator.py] *)

(** [utils/image_utils.py]: the PNG encoder is a collaborator (PIL). *)
Class ImageCodec : Type := { array_to_base64_png : list (list Z) → string }.

Module MprGenerator.

Record MprMetadata : Type := mkMprMetadata {
  axial_slices : nat;
  sagittal_slices : nat;
  coronal_slices : nat;
  volume_shape : list nat
}.

(** [volume[i, :, :]], [volume[:, i, :]] and [volume[:, :, i]] for an index
    already checked against the shape. *)
Definition take_axial (volume : Volume) (i : nat) : list (list Q) :=
  nth i (voxels volume) [].
Definition take_sagittal (volume : Volume) (i : nat) : list (list Q) :=
  map (λ sl, nth i sl []) (voxels volume).
Definition take_coronal (volume : Volume) (i : nat) : list (list Q) :=
  map (λ sl, map (λ row, nth i row 0%Q) sl) (voxels volume).

(** [np.flipud] *)
Definition flipud (img : list (list Q)) : list (list Q) := reverse img.

Definition out_of_range_msg (name : string) (slice_index : Z) (size : nat)
  : string :=
  name +:+ " slice index " +:+ pretty slice_index +:+ " out of range [0, "
       +:+ pretty (Z.of_nat size - 1) +:+ "]".

Definition generate_mpr_slice `{ImageCodec} (volume : Volume)
    (orientation : string) (slice_index : Z) (window_center window_width : Q)
  : result string :=
  slice_img ←
    (if String.eqb orientation "axial" then
       if (slice_index <? 0) || (Z.of_nat (z_size volume) <=? slice_index)
       then raise (ValueError
              (out_of_range_msg "Axial" slice_index (z_size volume)))
       else mret (take_axial volume (Z.to_nat slice_index))
     else if String.eqb orientation "sagittal" then
       if (slice_index <? 0) || (Z.of_nat (y_size volume) <=? slice_index)
       then raise (ValueError
              (out_of_range_msg "Sagittal" slice_index (y_size volume)))
       else mret (flipud (take_sagittal volume (Z.to_nat slice_index)))
     else if String.eqb orientation "coronal" then
       if (slice_index <? 0) || (Z.of_nat (x_size volume) <=? slice_index)
       then raise (ValueError
              (out_of_range_msg "Coronal" slice_index (x_size volume)))
       else mret (flipud (take_coronal volume (Z.to_nat slice_index)))
     else raise (ValueError ("Invalid orientation: " +:+ orientation)));
  windowed ← HuUtils.apply_window slice_img window_center window_width;
  mret (array_to_base64_png windowed).

Definition get_mpr_metadata (volume : Volume) : result MprMetadata :=
  mret {| axial_slices := z_size volume;
          sagittal_slices := y_size volume;
          coronal_slices := x_size volume;
          volume_shape := [z_size volume; y_size volume; x_size volume] |}.

End MprGenerator.

(** ** [services/dicom_loader.py] *)

Module DicomLoader.

(** A multi-valued or single decimal attribute (window centre, width). *)
Inductive DecimalValue : Type :=
| Single (x : Q)
| MultiValue (xs : list Q).

(** The attributes of a decoded slice file that the back end reads; an
    absent tag is [None] and reading it raises [AttributeError]. *)
Record Dataset : Type := mkDataset {
  ImagePositionPatient : option (list Q);
  Rows : option Z;
  Columns : option Z;
  PixelSpacing : option (list Q);
  SliceThickness : option Q;
  ImageOrientationPatient : option (list Q);
  RescaleSlope : option Q;
  RescaleIntercept : option Q;
  WindowCenter : option DecimalValue;
  WindowWidth : option DecimalValue;
  pixel_array : list (list Q)
}.

(** A directory listing in [os.listdir] order: file name and what
    [pydicom.dcmread] yields for it ([None]: the read raises). *)
Definition Listing : Type := list (string * option Dataset).

Record Series : Type := mkSeries {
  volume : Volume;
  datasets : list Dataset;
  z_positions : list Q;
  pixel_spacing : list Q;
  slice_thickness : Q;
  orientation : list Q;
  origin : list Q;
  rows : Z;
  cols : Z
}.

(** [ds.<name>] *)
Definition attr {A} (name : string) (field : option A) : result A :=
  match field with
  | Some x => mret x
  | None => raise (AttributeError name)
  end.

(** [getattr(ds, name, default)] with the default already evaluated. *)
Definition getattr {A} (field : option A) (default : A) : A :=
  match field with
  | Some x => x
  | None => default
  end.

Definition is_dcm (name : string) : bool := Py.endswith (Py.lower name) ".dcm".

Definition get_z_position (ds : Dataset) : result Q :=
  ipp ← attr "ImagePositionPatient" (ImagePositionPatient ds);
  Py.getitem ipp 2.

(** [datasets.sort(key=get_z_position)]: the keys are computed first, in
    list order, then the list is sorted stably. *)
Definition sort_by_z (datasets : list Dataset) : result (list Dataset) :=
  keys ← Py.mapM get_z_position datasets;
  mret (map snd (Py.sorted_by fst (zip keys datasets))).

(** numpy broadcasting of a 2D array into a [rows] x [cols] slot. *)
Definition broadcast_row (cols : nat) (row : list Q) : result (list Q) :=
  if (length row =? cols)%nat then mret row
  else match row with
       | [x] => mret (replicate cols x)
       | _ => raise (ValueError "could not broadcast input array")
       end.

Definition broadcast_to (rows cols : nat) (arr : list (list Q))
  : result (list (list Q)) :=
  arr' ← Py.mapM (broadcast_row cols) arr;
  if (length arr' =? rows)%nat then mret arr'
  else match arr' with
       | [row] => mret (replicate rows row)
       | _ => raise (ValueError "could not broadcast input array")
       end.

Definition load_dicom_series (case_path : string) (dir : option Listing)
  : result Series :=
  match dir with
  | None => raise (FileNotFoundError ("CT case folder not found: " +:+ case_path))
  | Some listing =>
      let dicom_files := filter (λ f, is_dcm f.1 = true) listing in
      if (length dicom_files =? 0)%nat then
        raise (RuntimeError ("No DICOM files found in " +:+ case_path))
      else
        (* unreadable files are skipped *)
        let datasets := omap snd dicom_files in
        if (length datasets =? 0)%nat then
          raise (RuntimeError "No readable DICOM files found")
        else
          datasets ← sort_by_z datasets;
          z_positions ← Py.mapM get_z_position datasets;
          ref_ds ← Py.getitem datasets 0;
          rows ← attr "Rows" (Rows ref_ds);
          cols ← attr "Columns" (Columns ref_ds);
          pixel_spacing ← attr "PixelSpacing" (PixelSpacing ref_ds);
          (* the default argument of [getattr] is evaluated before the
             call, whether or not the tag is present *)
          z1 ← Py.getitem z_positions 1;
          z0 ← Py.getitem z_positions 0;
          let slice_thickness :=
            getattr (SliceThickness ref_ds) (Qabs (z1 - z0)) in
          orientation ←
            attr "ImageOrientationPatient" (ImageOrientationPatient ref_ds);
          origin ← attr "ImagePositionPatient" (ImagePositionPatient ref_ds);
          let rescale_slope := getattr (RescaleSlope ref_ds) 1%Q in
          let rescale_intercept := getattr (RescaleIntercept ref_ds) 0%Q in
          if (rows <? 0) || (cols <? 0) then
            raise (ValueError "negative dimensions are not allowed")
          else
            slices ←
              Py.mapM
                (λ ds,
                   broadcast_to (Z.to_nat rows) (Z.to_nat cols)
                     (map (map (λ px, px * rescale_slope + rescale_intercept)%Q)
                          (pixel_array ds)))
                datasets;
            mret {| volume := {| z_size := length datasets;
                                 y_size := Z.to_nat rows;
                                 x_size := Z.to_nat cols;
                                 voxels := slices |};
                    datasets := datasets;
                    z_positions := z_positions;
                    pixel_spacing := pixel_spacing;
                    slice_thickness := slice_thickness;
                    orientation := orientation;
                    origin := origin;
                    rows := rows;
                    cols := cols |}
  end.

End DicomLoader.

(** ** [services/stl_generator.py] *)

(** The VTK filters used by the mesh extractor.  [tempfile_name] is the
    name [tempfile.NamedTemporaryFile] hands out for a suffix, given the
    names already taken. *)
Class Vtk : Type := {
  PolyData : Type;
  GetNumberOfPoints : PolyData → nat;
  vtkFlyingEdges3D : Volume → Q → PolyData;
  vtkDecimatePro : PolyData → Q → PolyData;
  vtkWindowedSincPolyDataFilter : PolyData → Z → PolyData;
  vtkCleanPolyData : PolyData → PolyData;
  vtkPolyDataNormals : PolyData → PolyData;
  tempfile_name : string → gset string → string
}.

Module StlGenerator.

Section WithVtk.
Context `{Vtk}.

(** The files written so far and the module-level [_temp_files]. *)
Record State : Type := mkState {
  stl_files : gmap string PolyData;
  temp_files : gset string
}.

(** The statements inside the [try] block of [generate_stl]. *)
Definition generate_stl_body (vtk_image : Volume) (hu : Z) (name : string)
    (smooth : bool) (smoothing_iterations : Z) (st : State)
  : result string * State :=
  let polydata := vtkFlyingEdges3D vtk_image (inject_Z hu) in
  if (GetNumberOfPoints polydata =? 0)%nat then
    (raise (ValueError ("No surface found at HU threshold " +:+ pretty hu
                        +:+ ". Try adjusting the threshold.")), st)
  else
    let polydata :=
      if hu <? 0 then vtkDecimatePro polydata 0.75
      else vtkDecimatePro polydata 0.50 in
    let polydata :=
      if smooth then
        vtkWindowedSincPolyDataFilter polydata
          (if smoothing_iterations >? 10 then smoothing_iterations else 15)
      else polydata in
    let polydata := vtkPolyDataNormals (vtkCleanPolyData polydata) in
    let tmp := tempfile_name ("_" +:+ name +:+ ".stl") (temp_files st) in
    (mret tmp,
     {| stl_files := <[tmp := polydata]> (stl_files st);
        temp_files := {[tmp]} ∪ temp_files st |}).

(** [generate_stl]: every exception of the body, the [ValueError] of the
    empty surface included, reaches the [except Exception] clause and
    is raised again as [RuntimeError]. *)
Definition generate_stl (vtk_image : Volume) (hu : Z) (name : string)
    (smooth : bool) (smoothing_iterations : Z) (st : State)
  : result string * State :=
  match generate_stl_body vtk_image hu name smooth smoothing_iterations st with
  | (inl e, st') =>
      (raise (RuntimeError ("Failed to generate STL: " +:+ Py.str_exn e)), st')
  | (inr path, st') => (mret path, st')
  end.

(** [cleanup_stl_file]: only a file that [generate_stl] registered is
    removed. *)
Definition cleanup_stl_file (stl_path : string) (st : State) : State :=
  if bool_decide (stl_path ∈ dom (stl_files st))
     && bool_decide (stl_path ∈ temp_files st) then
    {| stl_files := delete stl_path (stl_files st);
       temp_files := temp_files st ∖ {[stl_path]} |}
  else st.

(** [cleanup_temp_files], run at exit: every registered file that is still
    there is removed; the set itself is left as it is. *)
Definition cleanup_temp_files (st : State) : State :=
  {| stl_files := filter (λ kv, kv.1 ∉ temp_files st) (stl_files st);
     temp_files := temp_files st |}.

End WithVtk.

End StlGenerator.

(** ** [config.py] and the interpreter *)

(** The two roots are computed from the location of the source tree. *)
Class Config : Type := { DATA_ROOT : string; PLANNING_ROOT : string }.

(** A JSON number as Python reads it, and [str] on it; the shortest
    round-trip rendering of a float is the interpreter's. *)
Inductive Number : Type :=
| PyInt (n : Z)
| PyFloat (x : Q).

Class Interpreter : Type := { float_repr : Q → string }.

Definition number_value (n : Number) : Q :=
  match n with
  | PyInt n => inject_Z n
  | PyFloat x => x
  end.

Definition str_number `{Interpreter} (n : Number) : string :=
  match n with
  | PyInt n => pretty n
  | PyFloat x => float_repr x
  end.

(** ** [routes/reconstruction.py] *)

(** A SimpleITK image: size and spacing in (x, y, z) order, origin, and
    the voxels in numpy order. *)
Record Image : Type := mkImage {
  GetSize : Z * Z * Z;
  GetSpacing : Q * Q * Q;
  GetOrigin : Q * Q * Q;
  GetArrayFromImage : Volume
}.

(** The SimpleITK filters: each yields the voxels of its output image.
    [writer_fails] tells for which paths a write raises. *)
Class Sitk : Type := {
  CurvatureFlow_voxels : Image → Q → Z → Volume;
  Laplacian_voxels : Image → Volume;
  Resample_voxels : Image → Z * Z * Z → Q * Q * Q → Q * Q * Q → Volume;
  writer_fails : string → bool
}.

Module Reconstruction.

Record PlanFile : Type := mkPlanFile {
  plan_z_start_mm : Q;
  plan_z_end_mm : Q;
  plan_slice_start : Z;
  plan_slice_end : Z;
  plan_fov : option VolumeCropper.Fov
}.

(** One written slice file of a derived series. *)
Record DicomSlice : Type := mkDicomSlice {
  tag_modality : string;
  tag_instance_number : Z;
  tag_pixel_spacing : Q * Q;
  tag_slice_thickness : Q;
  tag_orientation : list Z;
  tag_position : Q * Q * Q;
  slice_pixels : list (list Z)
}.

(** The steps of the pipeline, recorded as they run. *)
Inductive Event : Type :=
| EvLoadBase (case_id : string)
| EvCrop (slice_start slice_end : Z)
| EvKernel (kernel : string)
| EvResample (thickness : Q)
| EvEnhance
| EvWriteImage (path : string)
| EvWriteSlice (path : string).

(** The part of the file system the routes touch, by kind of entry, and
    the trace of pipeline steps. *)
Record World : Type := mkWorld {
  case_dirs : gmap string DicomLoader.Listing;
  plan_files : gmap string PlanFile;
  nii_files : gmap string Image;
  series_dirs : gmap string (list (string * DicomSlice));
  dirs : gset string;
  trace : list Event
}.

(** [os.path.exists] *)
Definition path_exists (w : World) (path : string) : bool :=
  bool_decide (path ∈ dom (nii_files w)) ||
  bool_decide (path ∈ dom (plan_files w)) ||
  bool_decide (path ∈ dom (series_dirs w)) ||
  bool_decide (path ∈ dom (case_dirs w)) ||
  bool_decide (path ∈ dirs w).

(** Computations that read and write the world and may raise; the world
    reached when an exception is raised is kept. *)
Definition M (A : Type) : Type := World → result A * World.

Definition ret {A} (a : A) : M A := λ w, (inr a, w).
Definition bind {A B} (m : M A) (k : A → M B) : M B :=
  λ w, match m w with
       | (inl e, w') => (inl e, w')
       | (inr a, w') => k a w'
       end.
Definition lift {A} (r : result A) : M A := λ w, (r, w).
Definition get : M World := λ w, (inr w, w).
Definition emit (ev : Event) : M unit :=
  λ w, (inr tt, {| case_dirs := case_dirs w; plan_files := plan_files w;
                   nii_files := nii_files w; series_dirs := series_dirs w;
                   dirs := dirs w; trace := trace w ++ [ev] |}).

#[global] Instance M_ret : MRet M := @ret.
#[global] Instance M_bind : MBind M := λ A B k m, bind m k.

(** [os.makedirs(path, exist_ok=True)] *)
Definition makedirs (path : string) : M unit :=
  λ w, (inr tt, {| case_dirs := case_dirs w; plan_files := plan_files w;
                   nii_files := nii_files w; series_dirs := series_dirs w;
                   dirs := {[path]} ∪ dirs w; trace := trace w |}).

(** A computation that leaves the written volumes, the plans and the case
    folders alone, whatever its outcome. *)
Definition keeps_artifacts {A} (m : M A) : Prop :=
  ∀ w, nii_files (m w).2 = nii_files w ∧
       plan_files (m w).2 = plan_files w ∧
       case_dirs (m w).2 = case_dirs w.

Section WithCollaborators.
Context `{Config} `{Interpreter} `{Sitk}.

(** [sitk.GetImageFromArray] *)
Definition GetImageFromArray (volume : Volume) : Image :=
  {| GetSize := (Z.of_nat (x_size volume), Z.of_nat (y_size volume),
                 Z.of_nat (z_size volume));
     GetSpacing := (1, 1, 1)%Q;
     GetOrigin := (0, 0, 0)%Q;
     GetArrayFromImage := volume |}.

Definition SetSpacing (image : Image) (spacing : Q * Q * Q) : Image :=
  {| GetSize := GetSize image; GetSpacing := spacing;
     GetOrigin := GetOrigin image;
     GetArrayFromImage := GetArrayFromImage image |}.

Definition SetOrigin (image : Image) (origin : Q * Q * Q) : Image :=
  {| GetSize := GetSize image; GetSpacing := GetSpacing image;
     GetOrigin := origin;
     GetArrayFromImage := GetArrayFromImage image |}.

Definition GetDepth (image : Image) : Z := (GetSize image).2.

(** The filters keep the geometry of their input. *)
Definition with_voxels (image : Image) (voxels : Volume) : Image :=
  {| GetSize := GetSize image; GetSpacing := GetSpacing image;
     GetOrigin := GetOrigin image; GetArrayFromImage := voxels |}.

Definition CurvatureFlow (image : Image) (time_step : Q) (iterations : Z)
  : Image := with_voxels image (CurvatureFlow_voxels image time_step iterations).

Definition Laplacian (image : Image) : Image :=
  with_voxels image (Laplacian_voxels image).

(** [sitk.Resample(image, size, transform, interpolator, origin,
    spacing, direction, default, pixel_id)] *)
Definition Resample (image : Image) (new_size : Z * Z * Z)
    (origin new_spacing : Q * Q * Q) : Image :=
  {| GetSize := new_size; GetSpacing := new_spacing; GetOrigin := origin;
     GetArrayFromImage := Resample_voxels image new_size origin new_spacing |}.

(** [a - k * b] on images, voxel by voxel. *)
Definition minus_scaled (a : Image) (k : Q) (b : Image) : Image :=
  with_voxels a
    {| z_size := z_size (GetArrayFromImage a);
       y_size := y_size (GetArrayFromImage a);
       x_size := x_size (GetArrayFromImage a);
       voxels :=
         zip_with (zip_with (zip_with (λ x y, x - k * y)%Q))
                  (voxels (GetArrayFromImage a))
                  (voxels (GetArrayFromImage b)) |}.

Definition dicom_names (listing : DicomLoader.Listing)
  : list (string * option DicomLoader.Dataset) :=
  filter (λ f, DicomLoader.is_dcm f.1 = true) listing.

(** [pydicom.dcmread] on a listed file. *)
Definition dcmread (file : string * option DicomLoader.Dataset)
  : result DicomLoader.Dataset :=
  match file.2 with
  | Some ds => mret ds
  | None => raise (InvalidDicomError file.1)
  end.

Definition shape2 (arr : list (list Q)) : nat * nat :=
  (length arr, match arr with [] => 0%nat | row :: _ => length row end).

(** [np.stack] of 2D arrays. *)
Definition np_stack (arrays : list (list (list Q))) : result Volume :=
  match arrays with
  | [] => raise (ValueError "need at least one array to stack")
  | first :: _ =>
      if forallb (λ arr, bool_decide (shape2 arr = shape2 first)) arrays
      then mret {| z_size := length arrays;
                   y_size := (shape2 first).1;
                   x_size := (shape2 first).2;
                   voxels := arrays |}
      else raise (ValueError "all input arrays must have the same shape")
  end.

Definition triple (xs : list Q) : result (Q * Q * Q) :=
  match xs with
  | [a; b; c] => mret (a, b, c)
  | _ => raise (RuntimeError "vector of the wrong dimension")
  end.

Definition load_base_volume (case_id : string) : M Image :=
  emit (EvLoadBase case_id);;
  w ← get;
  let case_path := Py.path_join DATA_ROOT case_id in
  listing ← lift (match case_dirs w !! case_path with
                  | Some l => mret l
                  | None => raise (FileNotFoundError case_path)
                  end);
  let dicom_files := dicom_names listing in
  if (length dicom_files =? 0)%nat then
    lift (raise (RuntimeError "No DICOM files found"))
  else
    datasets ← lift (Py.mapM dcmread dicom_files);
    datasets ← lift (DicomLoader.sort_by_z datasets);
    ds0 ← lift (Py.getitem datasets 0);
    pixel_spacing ←
      lift (DicomLoader.attr "PixelSpacing" (DicomLoader.PixelSpacing ds0));
    ds1 ← lift (Py.getitem datasets 1);
    z1 ← lift (DicomLoader.get_z_position ds1);
    z0 ← lift (DicomLoader.get_z_position ds0);
    let slice_thickness := Qabs (z1 - z0) in
    origin ← lift (DicomLoader.attr "ImagePositionPatient"
                     (DicomLoader.ImagePositionPatient ds0));
    volume ← lift (np_stack
      (map (λ ds,
              map (map (λ px,
                 px * DicomLoader.getattr (DicomLoader.RescaleSlope ds) 1
                 + DicomLoader.getattr (DicomLoader.RescaleIntercept ds) 0)%Q)
                  (DicomLoader.pixel_array ds))
           datasets));
    let image := GetImageFromArray volume in
    ps1 ← lift (Py.getitem pixel_spacing 1);
    ps0 ← lift (Py.getitem pixel_spacing 0);
    let image := SetSpacing image (ps1, ps0, slice_thickness) in
    origin ← lift (triple origin);
    ret (SetOrigin image origin).

Definition apply_kernel (image : Image) (kernel : string) : Image :=
  let kernel := Py.lower kernel in
  if String.eqb kernel "soft" then CurvatureFlow image 0.125 5
  else if String.eqb kernel "abdomen" then
    let smooth := CurvatureFlow image 0.125 3 in
    minus_scaled smooth 0.25 (Laplacian smooth)
  else if String.eqb kernel "bone" then
    minus_scaled image 0.7 (Laplacian image)
  else if String.eqb kernel "lung" then
    minus_scaled image 0.4 (Laplacian image)
  else image.

Definition resample_slice_thickness (image : Image) (new_thickness : Q)
  : result Image :=
  let '(sx, sy, sz) := GetSpacing image in
  let '(nx, ny, nz) := GetSize image in
  let new_spacing := (sx, sy, new_thickness) in
  x ← Py.truediv (inject_Z nx * sx) sx;
  y ← Py.truediv (inject_Z ny * sy) sy;
  z ← Py.truediv (inject_Z nz * sz) new_thickness;
  let new_size := (Py.int_of_float x, Py.int_of_float y, Py.int_of_float z) in
  mret (Resample image new_size (GetOrigin image) new_spacing).

Definition enhance_z_resolution (image : Image) : Image :=
  let lap := Laplacian image in
  minus_scaled image 0.15 lap.

(** [sitk.Cast(..., sitk.sitkInt16)] on one voxel. *)
Definition to_int16 (x : Q) : Z :=
  (Py.int_of_float x + 32768) mod 65536 - 32768.

Definition set_series (out_dir : string) (files : list (string * DicomSlice))
  : M unit :=
  λ w, (inr tt, {| case_dirs := case_dirs w; plan_files := plan_files w;
                   nii_files := nii_files w;
                   series_dirs := <[out_dir := files]> (series_dirs w);
                   dirs := dirs w; trace := trace w |}).

(** One round of the loop of [save_as_dicom_series]. *)
Definition save_slice (image : Image) (out_dir : string) (z : nat) : M unit :=
  let spacing := GetSpacing image in
  let origin := GetOrigin image in
  let slice_img :=
    map (map to_int16) (nth z (voxels (GetArrayFromImage image)) []) in
  let ipp_z := (origin.2 + inject_Z (Z.of_nat z) * spacing.2)%Q in
  let name := "IM_" +:+ Py.zfill 4 (pretty z) +:+ ".dcm" in
  let output_file := Py.path_join out_dir name in
  if writer_fails output_file then
    lift (raise (RuntimeError ("cannot write " +:+ output_file)))
  else
    w ← get;
    emit (EvWriteSlice output_file);;
    set_series out_dir
      (Py.dict_set name
         {| tag_modality := "CT";
            tag_instance_number := Z.of_nat z + 1;
            tag_pixel_spacing := (spacing.1.1, spacing.1.2);
            tag_slice_thickness := spacing.2;
            tag_orientation := [1; 0; 0; 0; 1; 0];
            tag_position := (origin.1.1, origin.1.2, ipp_z);
            slice_pixels := slice_img |}
         (default [] (series_dirs w !! out_dir))).

Fixpoint for_each {A} (f : A → M unit) (xs : list A) : M unit :=
  match xs with
  | [] => ret tt
  | x :: rest => f x;; for_each f rest
  end.

Definition save_as_dicom_series (image : Image) (out_dir : string) : M unit :=
  makedirs out_dir;;
  w ← get;
  (* the directory holds what an earlier run left there *)
  set_series out_dir (default [] (series_dirs w !! out_dir));;
  for_each (save_slice image out_dir)
           (Py.range (Z.to_nat (GetDepth image))).

(** [sitk.WriteImage] *)
Definition WriteImage (image : Image) (path : string) : M unit :=
  emit (EvWriteImage path);;
  if writer_fails path then
    lift (raise (RuntimeError ("cannot write " +:+ path)))
  else
    λ w, (inr tt, {| case_dirs := case_dirs w; plan_files := plan_files w;
                     nii_files := <[path := image]> (nii_files w);
                     series_dirs := series_dirs w;
                     dirs := dirs w; trace := trace w |}).

(** The request body: [case_id] and [slice_thickness_mm] are read with
    [payload[...]], the other keys with [payload.get]. *)
Record Payload : Type := mkPayload {
  payload_case_id : option string;
  payload_slice_thickness_mm : option Number;
  payload_kernel : option string;
  payload_use_planning : option bool;
  payload_planning : option PlanFile
}.

Record Descriptor : Type := mkDescriptor {
  desc_type : string;
  desc_case_id : string;
  desc_recon_id : string;
  desc_volume_url : string;
  desc_dicom_series_url : string;
  desc_kernel : string;
  desc_slice_thickness_mm : Number;
  desc_planning_ref : option PlanFile;
  desc_used_planning : bool
}.

Definition key {A} (name : string) (field : option A) : result A :=
  match field with
  | Some x => mret x
  | None => raise (KeyError name)
  end.

Definition recon_id_of (thickness : Number) (kernel : string) : string :=
  "ST_" +:+ str_number thickness +:+ "_K_" +:+ kernel.

Definition safe_case_id_of (case_id : string) : string :=
  Py.replace_char "/"%char "_"%char case_id.

Definition recon_dir_of (case_id : string) : string :=
  Py.path_join (Py.path_join PLANNING_ROOT (safe_case_id_of case_id)) "recon".

Definition output_path_of (case_id : string) (thickness : Number)
    (kernel : string) : string :=
  Py.path_join (recon_dir_of case_id) (recon_id_of thickness kernel +:+ ".nii").

Definition plan_path_of (case_id : string) : string :=
  Py.path_join PLANNING_ROOT (safe_case_id_of case_id +:+ ".json").

(** The plan file of the case, when its path exists, is a plan that
    [json.load] reads. *)
Definition plan_readable (w : World) (case_id : string) : Prop :=
  path_exists w (plan_path_of case_id) = true →
  is_Some (plan_files w !! plan_path_of case_id).

(** [w'] is [w] after plans were saved again or added: no plan file is
    gone and nothing else has changed. *)
Definition plans_rewritten (w w' : World) : Prop :=
  dom (plan_files w) ⊆ dom (plan_files w') ∧
  case_dirs w' = case_dirs w ∧ nii_files w' = nii_files w ∧
  series_dirs w' = series_dirs w ∧ dirs w' = dirs w ∧ trace w' = trace w.

Definition descriptor (case_id : string) (thickness : Number)
    (kernel : string) (use_planning : bool) (planning_data : option PlanFile)
  : Descriptor :=
  {| desc_type := "reconstruction";
     desc_case_id := case_id;
     desc_recon_id := recon_id_of thickness kernel;
     desc_volume_url := output_path_of case_id thickness kernel;
     desc_dicom_series_url :=
       "/storage/plans/" +:+ safe_case_id_of case_id +:+ "/recon/"
         +:+ recon_id_of thickness kernel +:+ "/";
     desc_kernel := kernel;
     desc_slice_thickness_mm := thickness;
     desc_planning_ref := planning_data;
     desc_used_planning :=
       use_planning && bool_decide (is_Some planning_data) |}.

(** The planning branch: crop, then move the z-origin. *)
Definition apply_planning (case_id : string) (image : Image)
    (planning_data : PlanFile) : M Image :=
  emit (EvCrop (plan_slice_start planning_data)
               (plan_slice_end planning_data));;
  let volume_np := GetArrayFromImage image in
  cropped ← lift (VolumeCropper.crop_volume volume_np
                    (plan_slice_start planning_data)
                    (plan_slice_end planning_data)
                    (plan_fov planning_data));
  let cropped_np := cropped.1 in
  let original_spacing := GetSpacing image in
  let original_origin := GetOrigin image in
  w ← get;
  let case_path := Py.path_join DATA_ROOT case_id in
  listing ← lift (match case_dirs w !! case_path with
                  | Some l => mret l
                  | None => raise (FileNotFoundError case_path)
                  end);
  let dicom_files := dicom_names listing in
  z_positions ←
    (if (length dicom_files =? 0)%nat then ret []
     else
       datasets ← lift (Py.mapM dcmread dicom_files);
       datasets ← lift (DicomLoader.sort_by_z datasets);
       lift (Py.mapM DicomLoader.get_z_position datasets));
  new_origin_z ←
    (if negb (length z_positions =? 0)%nat &&
        (plan_slice_start planning_data <? Z.of_nat (length z_positions))
     then lift (Py.getitem z_positions (plan_slice_start planning_data))
     else ret (original_origin.2
               + inject_Z (plan_slice_start planning_data)
                 * original_spacing.2)%Q);
  let image := GetImageFromArray cropped_np in
  let image := SetSpacing image original_spacing in
  ret (SetOrigin image
         (original_origin.1.1, original_origin.1.2, new_origin_z)).

Definition apply_reconstruction (payload : Payload) : M Descriptor :=
  case_id ← lift (key "case_id" (payload_case_id payload));
  thickness ←
    lift (key "slice_thickness_mm" (payload_slice_thickness_mm payload));
  let kernel := default "soft" (payload_kernel payload) in
  let use_planning := default true (payload_use_planning payload) in
  let planning_data := payload_planning payload in
  let plan_path := plan_path_of case_id in
  w ← get;
  planning_data ←
    (if use_planning && negb (bool_decide (is_Some planning_data))
        && path_exists w plan_path
     then lift (match plan_files w !! plan_path with
                | Some plan => mret (Some plan)
                | None => raise (OSError plan_path)
                end)
     else ret planning_data);
  let recon_id := recon_id_of thickness kernel in
  let recon_dir := recon_dir_of case_id in
  makedirs recon_dir;;
  let output_path := output_path_of case_id thickness kernel in
  w ← get;
  if path_exists w output_path then
    ret (descriptor case_id thickness kernel use_planning planning_data)
  else
    image ← load_base_volume case_id;
    image ←
      match planning_data with
      | Some plan =>
          if use_planning then apply_planning case_id image plan
          else ret image
      | None => ret image
      end;
    emit (EvKernel kernel);;
    let image := apply_kernel image kernel in
    emit (EvResample (number_value thickness));;
    image ← lift (resample_slice_thickness image (number_value thickness));
    emit EvEnhance;;
    let image := enhance_z_resolution image in
    WriteImage image output_path;;
    let dicom_out_dir := Py.path_join recon_dir recon_id in
    save_as_dicom_series image dicom_out_dir;;
    w ← get;
    let dicom_files :=
      filter (λ f, DicomLoader.is_dcm f.1 = true)
             (default [] (series_dirs w !! dicom_out_dir)) in
    if (length dicom_files =? 0)%nat then
      lift (raise (RuntimeError
              ("Failed to create DICOM files in " +:+ dicom_out_dir)))
    else
      ret (descriptor case_id thickness kernel use_planning planning_data).

End WithCollaborators.

End Reconstruction.

(** ** [services/study_manager.py] and [services/dicom_metadata.py] *)

Module StudyManager.

(** [_STUDY_CACHE], and [get_study] over the directory the path names. *)
Definition get_study (case_id case_path : string)
    (dir : option DicomLoader.Listing)
    (study_cache : gmap string DicomLoader.Series)
  : result DicomLoader.Series * gmap string DicomLoader.Series :=
  match study_cache !! case_id with
  | Some study => (mret study, study_cache)
  | None =>
      match DicomLoader.load_dicom_series case_path dir with
      | inl e => (inl e, study_cache)
      | inr study => (mret study, <[case_id := study]> study_cache)
      end
  end.

Definition clear_study (case_id : string)
    (study_cache : gmap string DicomLoader.Series)
  : gmap string DicomLoader.Series :=
  delete case_id study_cache.

End StudyManager.

Module DicomMetadata.
Import DicomLoader.

(** The geometry and window entries of the metadata dictionary (the
    identifiers of patient and study are not modelled). *)
Record Metadata : Type := mkMetadata {
  meta_rows : Z;
  meta_cols : Z;
  meta_num_slices : nat;
  meta_pixel_spacing : list Q;
  meta_slice_thickness : Q;
  meta_z_spacing : Q;
  meta_image_orientation : list Q;
  meta_image_position : list Q;
  meta_z_positions : list Q;
  window_center : Q;
  window_width : Q
}.

Definition get_window_value (value : option DecimalValue) (default : Q)
  : result Q :=
  match value with
  | None => mret default
  | Some (MultiValue xs) => Py.getitem xs 0
  | Some (Single x) => mret x
  end.

Definition extract_series_metadata (dicom_data : Series) : result Metadata :=
  ref_ds ← Py.getitem (datasets dicom_data) 0;
  rows ← attr "Rows" (Rows ref_ds);
  cols ← attr "Columns" (Columns ref_ds);
  pixel_spacing ← attr "PixelSpacing" (PixelSpacing ref_ds);
  image_orientation ←
    attr "ImageOrientationPatient" (ImageOrientationPatient ref_ds);
  image_position ← attr "ImagePositionPatient" (ImagePositionPatient ref_ds);
  window_center ← get_window_value (WindowCenter ref_ds) 40;
  window_width ← get_window_value (WindowWidth ref_ds) 400;
  z_spacing ←
    (if (1 <? length (z_positions dicom_data))%nat then
       z1 ← Py.getitem (z_positions dicom_data) 1;
       z0 ← Py.getitem (z_positions dicom_data) 0;
       mret (Qabs (z1 - z0))
     else mret (slice_thickness dicom_data));
  mret {| meta_rows := rows; meta_cols := cols;
          meta_num_slices := length (datasets dicom_data);
          meta_pixel_spacing := pixel_spacing;
          meta_slice_thickness := slice_thickness dicom_data;
          meta_z_spacing := z_spacing;
          meta_image_orientation := image_orientation;
          meta_image_position := image_position;
          meta_z_positions := z_positions dicom_data;
          window_center := window_center;
          window_width := window_width |}.

End DicomMetadata.

(** ** [routes/cine.py] *)

(** What [pydicom.dcmread] returns for a slice file that the
    reconstruction wrote ([None]: the read raises). *)
Class Pydicom : Type := {
  read_written : Reconstruction.DicomSlice → option DicomLoader.Dataset
}.

Module Cine.
Import Reconstruction.

Record CacheEntry : Type := mkCacheEntry {
  entry_volume : Volume;
  wc : Q;
  ww : Q
}.

(** The two module-level dictionaries a request can change:
    [_volume_cache], in insertion order, and [_STUDY_CACHE]. *)
Record State : Type := mkState {
  volume_cache : list (string * CacheEntry);
  study_cache : gmap string DicomLoader.Series
}.

Definition cache_key (case_id : string) (use_planning : bool)
    (recon_id : option string) : string :=
  let recon := match recon_id with
               | Some r => if String.eqb r "" then "none" else r
               | None => "none"
               end in
  case_id +:+ "_" +:+ Py.str_bool use_planning +:+ "_" +:+ recon.

Section WithCollaborators.
Context `{Config} `{Pydicom}.

(** [float(ds.WindowCenter)] guarded by [isinstance(..., (list, tuple))]:
    a pydicom multi-value is neither, and [float] rejects it. *)
Definition window_float (value : DicomLoader.DecimalValue) : result Q :=
  match value with
  | DicomLoader.Single x => mret x
  | DicomLoader.MultiValue _ =>
      raise (TypeError "float() argument must be a string or a real number")
  end.

(** The branch for a reconstruction id. *)
Definition load_reconstruction (w : World) (case_id recon_id : string)
  : result CacheEntry :=
  let safe_case_id := safe_case_id_of case_id in
  let recon_dir :=
    Py.path_join
      (Py.path_join (Py.path_join PLANNING_ROOT safe_case_id) "recon")
      recon_id in
  if negb (path_exists w recon_dir) then
    raise (HTTPException 404 ("Reconstruction not found: " +:+ recon_id))
  else
    let dicom_files :=
      filter (λ f, DicomLoader.is_dcm f.1 = true)
             (default [] (series_dirs w !! recon_dir)) in
    if (length dicom_files =? 0)%nat then
      raise (HTTPException 404
               ("No DICOM files found in reconstruction: " +:+ recon_id))
    else
      let dicom_files :=
        Py.sorted_with (λ a b, String.ltb a.1 b.1) dicom_files in
      let dcmread := λ f : string * DicomSlice,
        match read_written f.2 with
        | Some ds => mret ds
        | None => raise (InvalidDicomError f.1)
        end in
      slices ←
        Py.mapM
          (λ f, ds ← dcmread f;
                mret (match DicomLoader.RescaleSlope ds with
                      | Some slope =>
                          map (map (λ px,
                             px * slope
                             + DicomLoader.getattr
                                 (DicomLoader.RescaleIntercept ds) 0)%Q)
                              (DicomLoader.pixel_array ds)
                      | None => DicomLoader.pixel_array ds
                      end))
          dicom_files;
      volume ← np_stack slices;
      first ← Py.getitem dicom_files 0;
      ds ← dcmread first;
      '(wc, ww) ←
        match DicomLoader.WindowCenter ds, DicomLoader.WindowWidth ds with
        | Some c, Some wd =>
            wc ← window_float c; ww ← window_float wd; mret (wc, ww)
        | _, _ => mret (40, 400)%Q
        end;
      mret {| entry_volume := volume; wc := wc; ww := ww |}.

(** The branch without a reconstruction id; it goes through the study
    cache. *)
Definition load_study (w : World) (case_id : string) (use_planning : bool)
    (studies : gmap string DicomLoader.Series)
  : result CacheEntry * gmap string DicomLoader.Series :=
  let case_path := Py.path_join DATA_ROOT case_id in
  let safe_case_id := safe_case_id_of case_id in
  let plan_path := Py.path_join PLANNING_ROOT (safe_case_id +:+ ".json") in
  match StudyManager.get_study case_id case_path
          (case_dirs w !! case_path) studies with
  | (inl e, studies') => (inl e, studies')
  | (inr dicom_data, studies') =>
      (meta ← DicomMetadata.extract_series_metadata dicom_data;
       volume ←
         (if use_planning && path_exists w plan_path then
            planning ← match plan_files w !! plan_path with
                       | Some plan => mret plan
                       | None => raise (OSError plan_path)
                       end;
            fov ← key "fov" (plan_fov planning);
            cropped ← VolumeCropper.crop_volume
                        (DicomLoader.volume dicom_data)
                        (plan_slice_start planning)
                        (plan_slice_end planning) (Some fov);
            mret cropped.1
          else mret (DicomLoader.volume dicom_data));
       mret {| entry_volume := volume;
               wc := DicomMetadata.window_center meta;
               ww := DicomMetadata.window_width meta |},
       studies')
  end.

(** "Keep cache size manageable (max 3 volumes)": beyond three entries
    the first key of the dictionary is deleted. *)
Definition keep_three (cache : list (string * CacheEntry))
  : list (string * CacheEntry) :=
  if (3 <? length cache)%nat then
    match cache with
    | [] => cache
    | (oldest_key, _) :: _ => filter (λ kv, kv.1 ≠ oldest_key) cache
    end
  else cache.

(** The statements of [get_cached_volume] between the cache lookup and
    the store. *)
Definition load_volume (w : World) (case_id : string) (use_planning : bool)
    (recon_id : option string) (studies : gmap string DicomLoader.Series)
  : result CacheEntry * gmap string DicomLoader.Series :=
  match recon_id with
  | Some r =>
      if String.eqb r "" then load_study w case_id use_planning studies
      else (load_reconstruction w case_id r, studies)
  | None => load_study w case_id use_planning studies
  end.

Definition get_cached_volume (w : World) (case_id : string)
    (use_planning : bool) (recon_id : option string) (st : State)
  : result CacheEntry * State :=
  let cache_key := cache_key case_id use_planning recon_id in
  match Py.dict_get cache_key (volume_cache st) with
  | Some entry => (mret entry, st)
  | None =>
      match load_volume w case_id use_planning recon_id (study_cache st) with
      | (inl e, studies) =>
          (inl e, {| volume_cache := volume_cache st;
                     study_cache := studies |})
      | (inr entry, studies) =>
          let cache := Py.dict_set cache_key entry (volume_cache st) in
          let cache := keep_three cache in
          (match Py.dict_get cache_key cache with
           | Some entry => mret entry
           | None => raise (KeyError cache_key)
           end,
           {| volume_cache := cache; study_cache := studies |})
      end
  end.

(** A request to the cine routes, and a sequence of requests served one
    after the other, each against the file system of its moment. *)
Record Request : Type := mkRequest {
  req_case_id : string;
  req_use_planning : bool;
  req_recon_id : option string
}.

Fixpoint serve_all (requests : list (World * Request)) (st : State) : State :=
  match requests with
  | [] => st
  | (w, req) :: rest =>
      serve_all rest
        (get_cached_volume w (req_case_id req) (req_use_planning req)
           (req_recon_id req) st).2
  end.

End WithCollaborators.

End Cine.

(** ** [services/cine_generator.py] *)

Module CineGenerator.

Record CineFrames : Type := mkCineFrames {
  frames : list string;
  fps : Z;
  num_frames : nat
}.

Section WithCodec.
Context `{ImageCodec}.

Definition generate_single_frame (slice_img : list (list Q))
    (window_center window_width : Q) : result string :=
  windowed ← HuUtils.apply_window slice_img window_center window_width;
  mret (array_to_base64_png windowed).

(** The loop runs over [range(volume.shape[0])] and stops at the first
    slice whose windowing raises. *)
Definition generate_cine_frames (volume : Volume)
    (window_center window_width : Q) (fps : Z) : result CineFrames :=
  frames ←
    Py.mapM
      (λ slice_idx,
         let slice_img := nth slice_idx (voxels volume) [] in
         windowed ← HuUtils.apply_window slice_img window_center window_width;
         mret (array_to_base64_png windowed))
      (Py.range (z_size volume));
  mret {| frames := frames; fps := fps; num_frames := length frames |}.

End WithCodec.

End CineGenerator.

(** ** The routes of [routes/cine.py] *)

Module CineRoutes.
Import Reconstruction Cine.

Record SliceResponse : Type := mkSliceResponse {
  resp_frame : string;
  resp_slice_index : Z;
  resp_total_slices : nat;
  resp_window_center : Q;
  resp_window_width : Q
}.

(** [volume[i]] on a numpy array: a negative index counts from the end,
    an index outside the axis raises [IndexError]. *)
Definition index_axis0 (volume : Volume) (i : Z) : result (list (list Q)) :=
  let n := Z.of_nat (z_size volume) in
  if (i <? - n) || (n <=? i) then
    raise (IndexError ("index " +:+ pretty i
                       +:+ " is out of bounds for axis 0 with size "
                       +:+ pretty n))
  else mret (nth (Z.to_nat (if i <? 0 then i + n else i)) (voxels volume) []).

(** [arr.min()] and [arr.max()] raise on an array without elements; the
    values themselves are only printed. *)
Definition check_reducible (size : nat) : result unit :=
  if (size =? 0)%nat then
    raise (ValueError
      "zero-size array to reduction operation minimum which has no identity")
  else mret tt.

Section WithCollaborators.
Context `{Config} `{Pydicom} `{ImageCodec}.

Definition get_single_slice (w : World) (case_id : string) (slice_index : Z)
    (use_planning : bool) (recon_id : option string)
    (window_center window_width : option Q) (st : State)
  : result SliceResponse * State :=
  match get_cached_volume w case_id use_planning recon_id st with
  | (inl e, st') => (inl e, st')
  | (inr cached, st') =>
      (let volume := entry_volume cached in
       let final_wc := default (wc cached) window_center in
       let final_ww := default (ww cached) window_width in
       (* the debug statements read the slice before the index is clamped *)
       slice_data ← index_axis0 volume slice_index;
       check_reducible (z_size volume * y_size volume * x_size volume);;
       check_reducible (y_size volume * x_size volume);;
       let slice_index :=
         Z.max 0 (Z.min slice_index (Z.of_nat (z_size volume) - 1)) in
       slice_img ← index_axis0 volume slice_index;
       frame ← CineGenerator.generate_single_frame slice_img final_wc final_ww;
       mret {| resp_frame := frame;
               resp_slice_index := slice_index;
               resp_total_slices := z_size volume;
               resp_window_center := final_wc;
               resp_window_width := final_ww |},
       st')
  end.

Definition get_cine (w : World) (case_id : string) (use_planning : bool)
    (recon_id : option string) (window_center window_width : option Q)
    (st : State) : result CineGenerator.CineFrames * State :=
  match get_cached_volume w case_id use_planning recon_id st with
  | (inl e, st') => (inl e, st')
  | (inr cached, st') =>
      (let volume := entry_volume cached in
       let final_wc := default (wc cached) window_center in
       let final_ww := default (ww cached) window_width in
       CineGenerator.generate_cine_frames volume final_wc final_ww 10,
       st')
  end.

End WithCollaborators.

End CineRoutes.

(** ** [routes/planning.py] *)

Module PlanningRoutes.
Import Reconstruction.

Record PlanningRequest : Type := mkPlanningRequest {
  req_case_id : string;
  req_z_pixel_start : Z;
  req_z_pixel_end : Z;
  req_scout_height_px : Z;
  req_fov : VolumeCropper.Fov
}.

(** The plan as it is written to the file: the dictionary of
    [generate_planning_geometry] with the field of view of the request. *)
Definition plan_file_of (plan : PlanningMapper.Plan) (fov : VolumeCropper.Fov)
  : PlanFile :=
  {| plan_z_start_mm := PlanningMapper.z_start_mm plan;
     plan_z_end_mm := PlanningMapper.z_end_mm plan;
     plan_slice_start := Z.of_nat (PlanningMapper.slice_start plan);
     plan_slice_end := Z.of_nat (PlanningMapper.slice_end plan);
     plan_fov := Some fov |}.

Definition write_plan (path : string) (plan : PlanFile) (w : World) : World :=
  {| case_dirs := case_dirs w;
     plan_files := <[path := plan]> (plan_files w);
     nii_files := nii_files w; series_dirs := series_dirs w;
     dirs := dirs w; trace := trace w |}.

Section WithConfig.
Context `{Config}.

(** The state is the file system and [_STUDY_CACHE]. *)
Definition save_planning (req : PlanningRequest)
    (w : World) (studies : gmap string DicomLoader.Series)
  : result PlanFile * World * gmap string DicomLoader.Series :=
  let case_path := Py.path_join DATA_ROOT (req_case_id req) in
  match StudyManager.get_study (req_case_id req) case_path
          (case_dirs w !! case_path) studies with
  | (inl e, studies') => (inl e, w, studies')
  | (inr dicom_data, studies') =>
      match PlanningMapper.generate_planning_geometry
              (req_z_pixel_start req) (req_z_pixel_end req)
              (req_scout_height_px req) (DicomLoader.z_positions dicom_data)
      with
      | inl e => (inl e, w, studies')
      | inr planning =>
          let planning := plan_file_of planning (req_fov req) in
          let w := (makedirs PLANNING_ROOT w).2 in
          let plan_path := plan_path_of (req_case_id req) in
          (mret planning, write_plan plan_path planning w, studies')
      end
  end.

(** [HTTPException] is imported from [http.client] in this file: that
    class takes no keyword argument, so the [raise] for a missing plan
    ends in [TypeError]. *)
Definition get_planning (case_id : string) (w : World) : result PlanFile :=
  let path := plan_path_of case_id in
  if negb (path_exists w path) then
    raise (TypeError "HTTPException() takes no keyword arguments")
  else
    match plan_files w !! path with
    | Some plan => mret plan
    | None => raise (OSError path)
    end.

End WithConfig.

End PlanningRoutes.

(** ** [load_dicom_as_vtk] and the routes of [routes/stl.py] *)

(** What the SimpleITK and VTK calls inside the [try] block of
    [load_dicom_as_vtk] make of a directory: the image, or the text of
    the exception they meet.  [abspath] is [os.path.abspath] and
    [http_exception_str] is [str] on a FastAPI [HTTPException]. *)
Class SeriesReader : Type := {
  read_series : string → string + Volume;
  abspath : string → string;
  http_exception_str : Z → string → string
}.

Module StlRoutes.
Import Reconstruction StlGenerator.

Record DICOMRequest : Type := mkDICOMRequest { dicom_dir : string }.

Record STLRequest : Type := mkSTLRequest {
  case_id : string;
  hu_threshold : Z;
  smooth : bool;
  smoothing_iterations : Z;
  name : string
}.

Record FileResponse : Type := mkFileResponse {
  path : string;
  media_type : string;
  filename : string
}.

(** [os.path.isdir]: the folders of the world, not its files. *)
Definition isdir (w : World) (path : string) : bool :=
  bool_decide (path ∈ dom (series_dirs w)) ||
  bool_decide (path ∈ dom (case_dirs w)) ||
  bool_decide (path ∈ dirs w).

(** [c in s] for a one-character string [c]. *)
Definition contains_char (c : Ascii.ascii) (s : string) : bool :=
  existsb (Ascii.eqb c) (String.list_ascii_of_string s).

Section WithCollaborators.
Context `{Config} `{Vtk} `{SeriesReader}.

Definition load_dicom_as_vtk (w : World) (dicom_dir : string)
  : result Volume :=
  if negb (isdir w dicom_dir) then
    raise (ValueError ("Invalid DICOM directory: " +:+ dicom_dir))
  else
    let dicom_dir := abspath dicom_dir in
    if negb (path_exists w dicom_dir) then
      raise (ValueError ("DICOM directory does not exist: " +:+ dicom_dir))
    else
      match read_series dicom_dir with
      | inl msg => raise (RuntimeError ("Failed to load DICOM series: " +:+ msg))
      | inr vtk_image => mret vtk_image
      end.

(** The three [except] clauses that close each route. *)
Definition except_clauses {A} (outcome : result A) : result A :=
  match outcome with
  | inr a => mret a
  | inl (ValueError msg) => raise (HTTPException 400 msg)
  | inl (RuntimeError msg) =>
      raise (HTTPException 500 ("Processing error: " +:+ msg))
  | inl (HTTPException status_code detail) =>
      raise (HTTPException 500
               ("Unexpected error: " +:+ http_exception_str status_code detail))
  | inl e => raise (HTTPException 500 ("Unexpected error: " +:+ Py.str_exn e))
  end.

(** The statements the three routes share once the path and the mesh
    parameters are chosen: the existence check, the load, the mesh and
    the response.  The clean-up of the file is scheduled, not run. *)
Definition respond_with_mesh (w : World) (dicom_path not_found : string)
    (hu : Z) (name : string) (smooth : bool) (smoothing_iterations : Z)
    (filename : string) (st : State) : result FileResponse * State :=
  let tried : result FileResponse * State :=
    if negb (path_exists w dicom_path) then
      (raise (HTTPException 404 not_found), st)
    else
      match load_dicom_as_vtk w dicom_path with
      | inl e => (inl e, st)
      | inr vtk_image =>
          match generate_stl vtk_image hu name smooth smoothing_iterations st
          with
          | (inl e, st') => (inl e, st')
          | (inr stl_path, st') =>
              (mret {| path := stl_path; media_type := "model/stl";
                       filename := filename |}, st')
          end
      end in
  (except_clauses tried.1, tried.2).

Definition dicom_path_of (req : DICOMRequest) : string :=
  if contains_char "/"%char (dicom_dir req)
     || contains_char "\"%char (dicom_dir req)
  then Py.path_join DATA_ROOT (dicom_dir req)
  else dicom_dir req.

Definition generate_bone_stl (w : World) (req : DICOMRequest) (st : State)
  : result FileResponse * State :=
  respond_with_mesh w (dicom_path_of req)
    ("DICOM directory not found: " +:+ dicom_dir req)
    200 "bone" true 10 "bone.stl" st.

Definition generate_skin_stl (w : World) (req : DICOMRequest) (st : State)
  : result FileResponse * State :=
  respond_with_mesh w (dicom_path_of req)
    ("DICOM directory not found: " +:+ dicom_dir req)
    (-100) "skin" true 15 "skin.stl" st.

Definition generate_custom_stl (w : World) (req : STLRequest) (st : State)
  : result FileResponse * State :=
  let smoothing_iters :=
    if smoothing_iterations req =? 0 then 8 else smoothing_iterations req in
  respond_with_mesh w (Py.path_join DATA_ROOT (case_id req))
    ("Case not found: " +:+ case_id req)
    (hu_threshold req) (name req) (smooth req) smoothing_iters
    (name req +:+ ".stl") st.

(** The background task of a response, run after it is sent. *)
Definition after_response (outcome : result FileResponse * State) : State :=
  match outcome.1 with
  | inr response => cleanup_stl_file (path response) outcome.2
  | inl _ => outcome.2
  end.

End WithCollaborators.

End StlRoutes.

(** ** [utils/geometry_utils.py] *)

Module GeometryUtils.

Definition clamp (value min_val max_val : Z) : Z :=
  Z.max min_val (Z.min value max_val).

Definition normalize (value min_val max_val : Q) : Q :=
  if Qeq_bool max_val min_val then 0
  else ((value - min_val) / (max_val - min_val))%Q.

End GeometryUtils.

(** ** The pixel probe and the reformatted slice of [routes/viewer.py] *)

(** [str(e)] as the interpreter renders an exception object, and
    [base64.b64decode]. *)
Class Rendering : Type := {
  exception_str : exn → string;
  b64decode : string → string
}.

Module ViewerRoutes.
Import Reconstruction.

Inductive Tissue : Type :=
| Air | Fat | SoftTissue | Muscle | Bone | DenseBone.

Definition tissue_name (t : Tissue) : string :=
  match t with
  | Air => "Air"
  | Fat => "Fat"
  | SoftTissue => "Soft Tissue"
  | Muscle => "Muscle"
  | Bone => "Bone"
  | DenseBone => "Dense Bone"
  end.

(** The branches of [get_tissue_type], in the order of the source. *)
Definition classify (hu_value : Q) : Tissue :=
  if Py.Qlt_bool hu_value (-950) then Air
  else if Py.Qlt_bool hu_value (-100) then Fat
  else if Py.Qlt_bool hu_value 50 then SoftTissue
  else if Py.Qlt_bool hu_value 300 then Muscle
  else if Py.Qlt_bool hu_value 700 then Bone
  else DenseBone.

Definition get_tissue_type (hu_value : Q) : string :=
  tissue_name (classify hu_value).

Record HuResponse : Type := mkHuResponse {
  hu_value : Q;
  pixel_x : Z;
  pixel_y : Z;
  hu_slice_index : Z;
  tissue_type : string
}.

Record ImageResponse : Type := mkImageResponse {
  content : string;
  image_media_type : string
}.

Section WithCollaborators.
Context `{Config} `{ImageCodec} `{Rendering}.

(** [volume[slice_index, y, x]] for indices already checked. *)
Definition voxel_at (volume : Volume) (slice_index y x : Z) : Q :=
  nth (Z.to_nat x)
      (nth (Z.to_nat y) (nth (Z.to_nat slice_index) (voxels volume) []) [])
      0%Q.

(** The state is [_STUDY_CACHE].  The 404 is raised before the [try];
    inside it an [HTTPException] is raised again as it is and any other
    exception becomes a 500. *)
Definition get_hu_value (w : World) (case_id : string) (slice_index x y : Z)
    (studies : gmap string DicomLoader.Series)
  : result HuResponse * gmap string DicomLoader.Series :=
  let case_path := Py.path_join DATA_ROOT case_id in
  if negb (path_exists w case_path) then
    (raise (HTTPException 404 ("Case not found: " +:+ case_id)), studies)
  else
    match StudyManager.get_study case_id case_path
            (case_dirs w !! case_path) studies with
    | (inl (HTTPException status_code detail), studies') =>
        (raise (HTTPException status_code detail), studies')
    | (inl e, studies') =>
        (raise (HTTPException 500
                  ("Failed to get HU value: " +:+ exception_str e)), studies')
    | (inr dicom_data, studies') =>
        let volume := DicomLoader.volume dicom_data in
        (if (slice_index <? 0) || (Z.of_nat (z_size volume) <=? slice_index)
         then
           raise (HTTPException 400
                    ("Slice index " +:+ pretty slice_index
                     +:+ " out of range [0, "
                     +:+ pretty (Z.of_nat (z_size volume) - 1) +:+ "]"))
         else if (x <? 0) || (Z.of_nat (x_size volume) <=? x)
                 || (y <? 0) || (Z.of_nat (y_size volume) <=? y)
         then
           raise (HTTPException 400
                    ("Pixel coordinates (" +:+ pretty x +:+ ", " +:+ pretty y
                     +:+ ") out of range [0, "
                     +:+ pretty (Z.of_nat (x_size volume) - 1) +:+ "] x [0, "
                     +:+ pretty (Z.of_nat (y_size volume) - 1) +:+ "]"))
         else
           let hu_value := voxel_at volume slice_index y x in
           mret {| hu_value := hu_value; pixel_x := x; pixel_y := y;
                   hu_slice_index := slice_index;
                   tissue_type := get_tissue_type hu_value |},
         studies')
    end.

(** The two [except] clauses of [get_mpr_slice_endpoint]. *)
Definition mpr_slice_errors {A} (outcome : result A) : result A :=
  match outcome with
  | inr a => mret a
  | inl (ValueError msg) => raise (HTTPException 400 msg)
  | inl e =>
      raise (HTTPException 500
               ("Failed to generate MPR slice: " +:+ exception_str e))
  end.

Definition get_mpr_slice_endpoint (w : World) (case_id orientation : string)
    (slice_index : Z) (studies : gmap string DicomLoader.Series)
  : result ImageResponse * gmap string DicomLoader.Series :=
  let case_path := Py.path_join DATA_ROOT case_id in
  if negb (path_exists w case_path) then
    (raise (HTTPException 404 ("Case not found: " +:+ case_id)), studies)
  else
    match StudyManager.get_study case_id case_path
            (case_dirs w !! case_path) studies with
    | (inl e, studies') => (mpr_slice_errors (inl e), studies')
    | (inr dicom_data, studies') =>
        (mpr_slice_errors
           (meta ← DicomMetadata.extract_series_metadata dicom_data;
            let full_volume := DicomLoader.volume dicom_data in
            png_base64 ←
              MprGenerator.generate_mpr_slice full_volume orientation
                slice_index (DicomMetadata.window_center meta)
                (DicomMetadata.window_width meta);
            mret {| content := b64decode png_base64;
                    image_media_type := "image/png" |}),
         studies')
    end.

End WithCollaborators.

End ViewerRoutes.

(** ** The case listings of [routes/dicom.py] *)

Module DicomRoutes.

(** The data directory as [os.listdir] and [os.path.isdir] see it, level
    by level: body parts, protocols, case folders, and the names in a
    case folder, each in listing order.  Every directory can be read, so
    the [except (PermissionError, OSError)] clauses around the innermost
    listings never fire. *)
Inductive CaseNode : Type :=
| CaseFile
| CaseDir (names : list string).

Inductive ProtocolNode : Type :=
| ProtocolFile
| ProtocolDir (case_folders : list (string * CaseNode)).

Inductive BodyPartNode : Type :=
| BodyPartFile
| BodyPartDir (protocols : list (string * ProtocolNode)).

Inductive RootNode : Type :=
| RootFile
| RootDir (body_parts : list (string * BodyPartNode)).

(** [os.listdir] on a path that is no directory. *)
Definition not_a_directory {A} : result A := raise (OSError "Not a directory").

(** [len([f for f in os.listdir(case_path) if f.lower().endswith('.dcm')])]
    under the test [os.path.isdir(case_path)]. *)
Definition dcm_count (case_node : CaseNode) : option nat :=
  match case_node with
  | CaseDir names =>
      Some (length (filter (λ f, DicomLoader.is_dcm f = true) names))
  | CaseFile => None
  end.

Record Entry : Type := mkEntry {
  name : string;
  dicom_count : nat;
  case_path : string
}.

(** [sorted(records, key=lambda x: x["name"])] *)
Definition sorted_by_name (records : list Entry) : list Entry :=
  Py.sorted_with (λ a b, String.ltb (name a) (name b)) records.

(** [body_part_dir] is what [os.path.join(DATA_ROOT, body_part)] names,
    [None] when nothing is there. *)
Definition list_protocols (body_part : string)
    (body_part_dir : option BodyPartNode) : result (list Entry) :=
  match body_part_dir with
  | None => mret []
  | Some BodyPartFile => not_a_directory
  | Some (BodyPartDir items) =>
      mret (sorted_by_name
              (omap (λ '(item, item_node),
                       match item_node with
                       | ProtocolDir case_folders =>
                           Some {| name := item;
                                   dicom_count :=
                                     foldl (λ total case_folder,
                                              match dcm_count case_folder.2 with
                                              | Some n => total + n
                                              | None => total
                                              end)%nat
                                           0%nat case_folders;
                                   case_path := body_part +:+ "/" +:+ item |}
                       | ProtocolFile => None
                       end)
                    items))
  end.

(** [protocol_dir] is what [os.path.join(DATA_ROOT, body_part, protocol)]
    names. *)
Definition list_cases (body_part protocol : string)
    (protocol_dir : option ProtocolNode) : result (list Entry) :=
  match protocol_dir with
  | None => mret []
  | Some ProtocolFile => not_a_directory
  | Some (ProtocolDir items) =>
      mret (sorted_by_name
              (omap (λ '(item, item_node),
                       match dcm_count item_node with
                       | Some n =>
                           if (0 <? n)%nat then
                             Some {| name := item;
                                     dicom_count := n;
                                     case_path :=
                                       body_part +:+ "/" +:+ protocol
                                         +:+ "/" +:+ item |}
                           else None
                       | None => None
                       end)
                    items))
  end.

(** [root] is what [DATA_ROOT] names.  The answer is the sorted list of
    the nested case ids. *)
Definition list_cases_legacy (root : option RootNode) : result (list string) :=
  match root with
  | None => mret []
  | Some RootFile => not_a_directory
  | Some (RootDir body_parts) =>
      mret (Py.sorted_with String.ltb
              (concat
                 (map (λ '(body_part, body_part_node),
                         match body_part_node with
                         | BodyPartDir protocols =>
                             concat
                               (map (λ '(protocol, protocol_node),
                                       match protocol_node with
                                       | ProtocolDir case_folders =>
                                           omap (λ '(case_folder, case_node),
                                                   match dcm_count case_node with
                                                   | Some n =>
                                                       if (0 <? n)%nat then
                                                         Some (body_part +:+ "/"
                                                               +:+ protocol +:+ "/"
                                                               +:+ case_folder)
                                                       else None
                                                   | None => None
                                                   end)
                                                case_folders
                                       | ProtocolFile => []
                                       end)
                                    protocols)
                         | BodyPartFile => []
                         end)
                      body_parts)))
  end.

End DicomRoutes.

(** ** Sample data used by the scenarios *)

Module Samples.

(** Fifty slices at z = 0, 1, ..., 49 mm. *)
Definition z_positions_0_49 : list Q :=
  map (λ k, inject_Z (Z.of_nat k)) (seq 0 50).

(** A 3 x 1 x 2 volume. *)
Definition volume_3_1_2 : Volume :=
  {| z_size := 3; y_size := 1; x_size := 2;
     voxels := [[[0; 10]]; [[20; 30]]; [[40; 50]]]%Q |}.

(** A single voxel of water. *)
Definition volume_1_1_1 : Volume :=
  {| z_size := 1; y_size := 1; x_size := 1; voxels := [[[0%Q]]] |}.

(** An encoder that only reports the raster height; the properties below
    hold for every encoder. *)
Definition height_codec : ImageCodec :=
  {| array_to_base64_png := λ img, pretty (length img) |}.

Definition roots : Config :=
  {| DATA_ROOT := "/srv/Datasets"; PLANNING_ROOT := "/srv/storage/plans" |}.

(** Floats are only ever rendered here for integral values. *)
Definition integral_repr : Interpreter :=
  {| float_repr := λ x, pretty (Qfloor x) +:+ ".0" |}.

(** One slice of 1 x 2 pixels at height [z], with or without the nominal
    thickness tag. *)
Definition slice_at (z : Q) (thickness : option Q) : DicomLoader.Dataset :=
  {| DicomLoader.ImagePositionPatient := Some [0; 0; z]%Q;
     DicomLoader.Rows := Some 1;
     DicomLoader.Columns := Some 2;
     DicomLoader.PixelSpacing := Some [0.5; 0.5]%Q;
     DicomLoader.SliceThickness := thickness;
     DicomLoader.ImageOrientationPatient := Some [1; 0; 0; 0; 1; 0]%Q;
     DicomLoader.RescaleSlope := Some 1%Q;
     DicomLoader.RescaleIntercept := Some (-1024)%Q;
     DicomLoader.WindowCenter := Some (DicomLoader.Single 40);
     DicomLoader.WindowWidth := Some (DicomLoader.Single 400);
     DicomLoader.pixel_array := [[24; 1064]]%Q |}.

(** A folder with a single readable slice that carries the tag, next to
    a note and an unreadable file. *)
Definition single_slice_folder : DicomLoader.Listing :=
  [("notes.txt", None); ("IM_0001.DCM", Some (slice_at 0 (Some 1.25%Q)));
   ("broken.dcm", None)].

(** A folder with two slices, listed out of order. *)
Definition two_slice_folder : DicomLoader.Listing :=
  [("b.dcm", Some (slice_at 1 None)); ("a.dcm", Some (slice_at 0 None))].

(** What loading [two_slice_folder] yields: the slices in ascending
    height, the pixels rescaled to Hounsfield units. *)
Definition two_slice_study : DicomLoader.Series :=
  {| DicomLoader.volume :=
       {| z_size := 2; y_size := 1; x_size := 2;
          voxels := [[[-1000; 40]]; [[-1000; 40]]]%Q |};
     DicomLoader.datasets := [slice_at 0 None; slice_at 1 None];
     DicomLoader.z_positions := [0; 1]%Q;
     DicomLoader.pixel_spacing := [0.5; 0.5]%Q;
     DicomLoader.slice_thickness := 1;
     DicomLoader.orientation := [1; 0; 0; 0; 1; 0]%Q;
     DicomLoader.origin := [0; 0; 0]%Q;
     DicomLoader.rows := 1;
     DicomLoader.cols := 2 |}.

(** A volume of air. *)
Definition air_volume : Volume :=
  {| z_size := 2; y_size := 2; x_size := 2;
     voxels := replicate 2 (replicate 2 (replicate 2 (-1000)%Q)) |}.

(** A stand-in for the VTK filters: the extractor emits one point for
    each pair of neighbours along a row that the iso-value separates;
    the later filters keep the points. *)
Fixpoint crossings (value : Q) (row : list Q) : list Q :=
  match row with
  | a :: (b :: _) as rest =>
      if (Py.Qlt_bool a value && Qle_bool value b)
         || (Py.Qlt_bool b value && Qle_bool value a)
      then value :: crossings value rest
      else crossings value rest
  | _ => []
  end.

Definition row_crossing_vtk : Vtk :=
  {| PolyData := list Q;
     GetNumberOfPoints := length;
     vtkFlyingEdges3D := λ vol value,
       concat (map (λ sl, concat (map (crossings value) sl)) (voxels vol));
     vtkDecimatePro := λ pd _, pd;
     vtkWindowedSincPolyDataFilter := λ pd _, pd;
     vtkCleanPolyData := λ pd, pd;
     vtkPolyDataNormals := λ pd, pd;
     tempfile_name := λ suffix taken,
       "/tmp/tmp" +:+ pretty (size taken) +:+ suffix |}.

(** A stand-in for the SimpleITK filters: smoothing keeps the voxels, the
    Laplacian and the resampler return blank voxels of the right shape,
    and no write fails. *)
Definition blank (nz ny nx : nat) : Volume :=
  {| z_size := nz; y_size := ny; x_size := nx;
     voxels := replicate nz (replicate ny (replicate nx 0%Q)) |}.

Definition blank_sitk : Sitk :=
  {| CurvatureFlow_voxels := λ img _ _, GetArrayFromImage img;
     Laplacian_voxels := λ img,
       blank (z_size (GetArrayFromImage img)) (y_size (GetArrayFromImage img))
             (x_size (GetArrayFromImage img));
     Resample_voxels := λ _ new_size _ _,
       blank (Z.to_nat new_size.2) (Z.to_nat new_size.1.2)
             (Z.to_nat new_size.1.1);
     writer_fails := λ _, false |}.

(** Reading back a written slice: the pixels and the geometry tags. *)
Definition plain_pydicom : Pydicom :=
  {| read_written := λ sl,
       Some {| DicomLoader.ImagePositionPatient :=
                 Some [(Reconstruction.tag_position sl).1.1;
                       (Reconstruction.tag_position sl).1.2;
                       (Reconstruction.tag_position sl).2];
               DicomLoader.Rows := None;
               DicomLoader.Columns := None;
               DicomLoader.PixelSpacing :=
                 Some [(Reconstruction.tag_pixel_spacing sl).1;
                       (Reconstruction.tag_pixel_spacing sl).2];
               DicomLoader.SliceThickness :=
                 Some (Reconstruction.tag_slice_thickness sl);
               DicomLoader.ImageOrientationPatient := None;
               DicomLoader.RescaleSlope := None;
               DicomLoader.RescaleIntercept := None;
               DicomLoader.WindowCenter := None;
               DicomLoader.WindowWidth := None;
               DicomLoader.pixel_array :=
                 map (map inject_Z) (Reconstruction.slice_pixels sl) |} |}.

(** A world that holds the two-slice case and nothing else. *)
Definition world_with_case : Reconstruction.World :=
  {| Reconstruction.case_dirs :=
       {[ "/srv/Datasets/Head/CT/case_001" := two_slice_folder ]};
     Reconstruction.plan_files := ∅;
     Reconstruction.nii_files := ∅;
     Reconstruction.series_dirs := ∅;
     Reconstruction.dirs := ∅;
     Reconstruction.trace := [] |}.

(** A reader that finds the two-slice volume in every directory. *)
Definition two_slice_reader : SeriesReader :=
  {| read_series := λ _, inr (DicomLoader.volume two_slice_study);
     abspath := λ path, path;
     http_exception_str := λ status_code detail,
       pretty status_code +:+ ": " +:+ detail |}.

(** A request for the skin of the two-slice case. *)
Definition skin_of_case_001 : StlRoutes.STLRequest :=
  {| StlRoutes.case_id := "Head/CT/case_001";
     StlRoutes.hu_threshold := -100;
     StlRoutes.smooth := true;
     StlRoutes.smoothing_iterations := 0;
     StlRoutes.name := "skin" |}.

Definition bone_5mm : Reconstruction.Payload :=
  {| Reconstruction.payload_case_id := Some "Head/CT/case_001";
     Reconstruction.payload_slice_thickness_mm := Some (PyInt 5);
     Reconstruction.payload_kernel := Some "bone";
     Reconstruction.payload_use_planning := None;
     Reconstruction.payload_planning := None |}.

Definition empty_caches : Cine.State :=
  {| Cine.volume_cache := []; Cine.study_cache := ∅ |}.

(** Forty slices of 1 x 2 pixels, 1 mm apart, listed from the top down. *)
Definition forty_slice_folder : DicomLoader.Listing :=
  map (λ k, ("IM_" +:+ pretty k +:+ ".dcm",
             Some (slice_at (inject_Z (Z.of_nat k)) None)))
      (reverse (seq 0 40)).

Definition world_with_40_slices : Reconstruction.World :=
  {| Reconstruction.case_dirs :=
       {[ "/srv/Datasets/Head/CT/case_001" := forty_slice_folder ]};
     Reconstruction.plan_files := ∅;
     Reconstruction.nii_files := ∅;
     Reconstruction.series_dirs := ∅;
     Reconstruction.dirs := ∅;
     Reconstruction.trace := [] |}.

(** Arbitrary filters with a writer that never fails. *)
Definition reliable_sitk (curvature_flow : Image → Q → Z → Volume)
    (laplacian : Image → Volume)
    (resample : Image → Z * Z * Z → Q * Q * Q → Q * Q * Q → Volume) : Sitk :=
  {| CurvatureFlow_voxels := curvature_flow;
     Laplacian_voxels := laplacian;
     Resample_voxels := resample;
     writer_fails := λ _, false |}.

End Samples.

(** * Verification *)

(** ** Python runtime lemmas *)

Section PyFacts.

Lemma Qlt_bool_true (a b : Q) : Py.Qlt_bool a b = true ↔ (a < b)%Q.
Proof.
  unfold Py.Qlt_bool. rewrite negb_true_iff. split.
  - intros Hb. apply Qnot_le_lt. intros Hle.
    apply Qle_bool_iff in Hle. congruence.
  - intros Hlt. destruct (Qle_bool b a) eqn:E; [|done].
    apply Qle_bool_iff in E. exfalso. apply (Qlt_not_le _ _ Hlt E).
Qed.

Lemma Qlt_bool_false (a b : Q) : Py.Qlt_bool a b = false ↔ (b <= a)%Q.
Proof.
  unfold Py.Qlt_bool. rewrite negb_false_iff. apply Qle_bool_iff.
Qed.

Lemma Qle_bool_false (a b : Q) : Qle_bool a b = false ↔ (b < a)%Q.
Proof.
  rewrite <- Qlt_bool_true. unfold Py.Qlt_bool.
  destruct (Qle_bool a b); simpl; split; congruence.
Qed.

Lemma slice_in_range {A} (xs : list A) (a b : Z) :
  0 ≤ a → a ≤ b → b ≤ Z.of_nat (length xs) →
  Py.slice xs a b = take (Z.to_nat (b - a)) (drop (Z.to_nat a) xs).
Proof.
  intros Ha Hab Hb. unfold Py.slice, Py.slice_bound.
  destruct (Z.ltb_spec a 0); [lia|].
  destruct (Z.ltb_spec b 0); [lia|].
  rewrite !Z.min_r by lia. done.
Qed.

End PyFacts.

(** ** Volume cropper *)

Section CropFacts.
Import VolumeCropper.

Lemma well_shaped_take_drop (v : Volume) (n k : nat) :
  well_shaped v →
  Forall (λ sl, length sl = y_size v ∧
                Forall (λ row, length row = x_size v) sl)
         (take n (drop k (voxels v))).
Proof.
  intros [_ Hall]. apply Forall_take, Forall_drop, Hall.
Qed.

(** C5.  On a well-shaped volume [crop_volume_z] works on the clamped
    bounds [lo = max 0 slice_start] and [hi = min (Z - 1) slice_end]
    (so [0 ≤ lo] and [hi ≤ Z - 1]); it raises the range [ValueError]
    exactly when [lo > hi]; otherwise it returns the slices [lo..hi]
    inclusive, [hi - lo + 1] of them, with the row and column extent
    unchanged.  In particular for [0 ≤ slice_start ≤ slice_end ≤ Z - 1]
    the result has [slice_end - slice_start + 1] slices and its [i]-th
    slice is slice [slice_start + i] of the input. *)
Theorem crop_volume_z_spec (v : Volume) (slice_start slice_end : Z) :
  well_shaped v →
  let lo := Z.max 0 slice_start in
  let hi := Z.min (Z.of_nat (z_size v) - 1) slice_end in
  0 ≤ lo ∧ hi ≤ Z.of_nat (z_size v) - 1 ∧
  (crop_volume_z v slice_start slice_end
     = raise (ValueError "slice_start must be <= slice_end") ↔ hi < lo) ∧
  (Py.is_ok (crop_volume_z v slice_start slice_end) = false ↔ hi < lo) ∧
  (lo ≤ hi →
     ∃ v', crop_volume_z v slice_start slice_end = mret v' ∧
           well_shaped v' ∧
           voxels v' = take (Z.to_nat (hi - lo + 1))
                            (drop (Z.to_nat lo) (voxels v)) ∧
           Z.of_nat (z_size v') = hi - lo + 1 ∧
           y_size v' = y_size v ∧ x_size v' = x_size v) ∧
  (0 ≤ slice_start → slice_start ≤ slice_end →
   slice_end ≤ Z.of_nat (z_size v) - 1 →
     ∃ v', crop_volume_z v slice_start slice_end = mret v' ∧
           Z.of_nat (z_size v') = slice_end - slice_start + 1 ∧
           y_size v' = y_size v ∧ x_size v' = x_size v ∧
           ∀ i : nat, Z.of_nat i < slice_end - slice_start + 1 →
             voxels v' !! i = voxels v !! (Z.to_nat slice_start + i)%nat).
Proof.
  intros Hwf lo hi.
  assert (Hlen : length (voxels v) = z_size v) by apply Hwf.
  assert (Hok : lo ≤ hi →
     ∃ v', crop_volume_z v slice_start slice_end = mret v' ∧
           well_shaped v' ∧
           voxels v' = take (Z.to_nat (hi - lo + 1))
                            (drop (Z.to_nat lo) (voxels v)) ∧
           Z.of_nat (z_size v') = hi - lo + 1 ∧
           y_size v' = y_size v ∧ x_size v' = x_size v).
  { intros Hle. unfold crop_volume_z. fold lo hi.
    destruct (Z.gtb_spec lo hi) as [Hgt|_]; [lia|].
    eexists. split; [reflexivity|].
    unfold slice_axis0. cbn [voxels z_size y_size x_size].
    rewrite slice_in_range by lia.
    replace (hi + 1 - lo) with (hi - lo + 1) by lia.
    repeat split; try done.
    - cbn. by apply well_shaped_take_drop.
    - rewrite length_take, length_drop. lia. }
  split; [lia|]. split; [lia|].
  split; [|split; [|split; [exact Hok|]]].
  - unfold crop_volume_z. fold lo hi.
    destruct (Z.gtb_spec lo hi) as [Hgt|Hle]; split; try done; try lia.
  - unfold crop_volume_z. fold lo hi.
    destruct (Z.gtb_spec lo hi) as [Hgt|Hle]; cbn; split; try done; lia.
  - intros H0 Hse Hend.
    assert (Hlo : lo = slice_start) by lia.
    assert (Hhi : hi = slice_end) by lia.
    destruct Hok as (v' & Hrun & _ & Hvox & Hz & Hy & Hx); [lia|].
    exists v'. rewrite Hlo, Hhi in *. repeat split; try done.
    intros i Hi. rewrite Hvox.
    rewrite lookup_take_lt by lia. by rewrite lookup_drop.
Qed.

End CropFacts.

Lemma crop_volume_z_spec_witness :
  well_shaped Samples.volume_3_1_2 ∧
  ∃ v', VolumeCropper.crop_volume_z Samples.volume_3_1_2 1 2 = mret v' ∧
        Z.of_nat (z_size v') = 2 - 1 + 1.
Proof.
  assert (Hwf : well_shaped Samples.volume_3_1_2).
  { split; [reflexivity|]. repeat constructor. }
  split; [exact Hwf|].
  destruct (crop_volume_z_spec Samples.volume_3_1_2 1 2 Hwf)
    as (_ & _ & _ & _ & _ & Hvalid).
  destruct Hvalid as (v' & Hrun & Hz & _); [lia|lia|cbn; lia|].
  exists v'. split; [exact Hrun|exact Hz].
Defined.

(** ** Planning mapper *)

Section PlanningFacts.
Import PlanningMapper.

(** [min(..., key=...)] returns the first element whose key is minimal. *)
Lemma min_from_first_minimal {A} (key : A → Q) (best : A) (rest : list A) :
  ∃ before after,
    best :: rest = before ++ Py.min_from key best rest :: after ∧
    Forall (λ x, (key (Py.min_from key best rest) < key x)%Q) before ∧
    Forall (λ x, (key (Py.min_from key best rest) <= key x)%Q) after.
Proof.
  revert best. induction rest as [|x rest IH]; intros best.
  - exists [], []. repeat split; constructor.
  - cbn [Py.min_from]. destruct (Py.Qlt_bool (key x) (key best)) eqn:E.
    + apply Qlt_bool_true in E.
      destruct (IH x) as (before & after & Heq & Hb & Ha).
      remember (Py.min_from key x rest) as r eqn:Hr. clear Hr.
      assert (Hrx : (key r <= key x)%Q).
      { destruct before as [|y before]; cbn in Heq; injection Heq as <- _.
        - apply Qle_refl.
        - apply Forall_cons in Hb as [Hb _]. by apply Qlt_le_weak. }
      exists (best :: before), after. split; [by rewrite Heq|].
      split; [|done]. constructor; [|done].
      eapply Qle_lt_trans; eauto.
    + apply Qlt_bool_false in E.
      destruct (IH best) as (before & after & Heq & Hb & Ha).
      remember (Py.min_from key best rest) as r eqn:Hr. clear Hr.
      destruct before as [|y before]; cbn in Heq; injection Heq as <- Hrest.
      * exists [], (x :: after). split; [by rewrite Hrest|].
        split; [constructor|]. constructor; done.
      * apply Forall_cons in Hb as [Hy Hb].
        exists (best :: x :: before), after. split; [by rewrite Hrest|].
        split; [|done]. constructor; [done|]. constructor; [|done].
        eapply Qlt_le_trans; eauto.
Qed.

(** On a non-empty list [find_closest_index] returns a valid index whose
    distance to [z_mm] is minimal, and every lower index is strictly
    farther: ties go to the lower index. *)
Lemma find_closest_index_nearest (zs : list Q) (z_mm : Q) :
  zs ≠ [] →
  let dist := λ i, Qabs (nth i zs 0%Q - z_mm) in
  let i := find_closest_index zs z_mm in
  (i < length zs)%nat ∧
  (∀ j, (j < length zs)%nat → (dist i <= dist j)%Q) ∧
  (∀ j, (j < i)%nat → (dist i < dist j)%Q).
Proof.
  intros Hne dist i.
  assert (Hn : (0 < length zs)%nat) by (destruct zs; [done|cbn; lia]).
  unfold find_closest_index, Py.range in i.
  destruct (length zs) as [|n] eqn:Hlen; [lia|].
  cbn [seq] in i.
  destruct (min_from_first_minimal dist 0%nat (seq 1 n))
    as (before & after & Heq & Hb & Ha).
  fold i in Heq, Hb, Ha.
  change (0%nat :: seq 1 n) with (seq 0 (S n)) in Heq.
  assert (Hi : i = length before).
  { assert (Hlk : seq 0 (S n) !! length before = Some i).
    { rewrite Heq. by rewrite list_lookup_middle. }
    apply lookup_seq in Hlk. lia. }
  assert (Hlt : (i < S n)%nat).
  { apply (f_equal length) in Heq.
    rewrite length_seq, length_app in Heq. cbn in Heq. lia. }
  split; [done|]. split.
  - intros j Hj.
    assert (Hin : j ∈ seq 0 (S n)) by (apply elem_of_seq; lia).
    rewrite Heq in Hin. apply elem_of_app in Hin as [Hin|Hin].
    + apply Qlt_le_weak. by eapply (proj1 (Forall_forall _ _) Hb).
    + apply elem_of_cons in Hin as [->|Hin]; [apply Qle_refl|].
      by eapply (proj1 (Forall_forall _ _) Ha).
  - intros j Hj.
    assert (Hlk : seq 0 (S n) !! j = Some j) by (apply lookup_seq; lia).
    rewrite Heq, lookup_app_l in Hlk by lia.
    apply list_elem_of_lookup_2 in Hlk.
    by eapply (proj1 (Forall_forall _ _) Hb).
Qed.

End PlanningFacts.

Section PlanningScenario.
Import PlanningMapper.

Lemma insert_with_length {A} (lt : A → A → bool) (x : A) (l : list A) :
  length (Py.insert_with lt x l) = S (length l).
Proof.
  induction l as [|y l IH]; [done|]. cbn.
  destruct (lt x y); cbn; [done|]. by rewrite IH.
Qed.

Lemma sorted_with_length {A} (lt : A → A → bool) (l : list A) :
  length (Py.sorted_with lt l) = length l.
Proof.
  unfold Py.sorted_with.
  assert (H : ∀ acc, length (foldl (λ acc x, Py.insert_with lt x acc) acc l)
                     = (length acc + length l)%nat).
  { induction l as [|x l IH]; intros acc; cbn; [lia|].
    rewrite IH, insert_with_length. lia. }
  by rewrite H.
Qed.

Lemma sorted_by_length {A} (key : A → Q) (l : list A) :
  length (Py.sorted_by key l) = length l.
Proof. apply sorted_with_length. Qed.

(** C2 (as the code behaves).  For fifty slices at z = 0..49 mm and the
    pixel range [100, 200] of a 400 pixel scout, planning returns the
    z-range 12.25 mm .. 24.5 mm and the slice range 12 .. 24: 24.5 mm is
    equally far from slices 24 and 25 and the tie goes to the lower index.
    In general, on a non-empty list of z-positions each of the two mm
    values is mapped to an index of the sorted positions at minimal
    distance, every lower index being strictly farther, and the two
    indices are returned in ascending order. *)
Theorem planning_scenario_nearest_lower_tie :
  (∃ p, generate_planning_geometry 100 200 400 Samples.z_positions_0_49
          = mret p ∧
        (z_start_mm p == 12.25)%Q ∧ (z_end_mm p == 24.5)%Q ∧
        slice_start p = 12%nat ∧ slice_end p = 24%nat) ∧
  (∀ (a b z0 : Q) (rest : list Q),
     let zs := Py.sorted_by (λ z, z) (z0 :: rest) in
     let dist := λ (z : Q) (i : nat), Qabs (nth i zs 0%Q - z) in
     let ia := find_closest_index zs a in
     let ib := find_closest_index zs b in
     map_z_mm_to_slice_indices a b (z0 :: rest)
       = mret (Nat.min ia ib, Nat.max ia ib) ∧
     (Nat.min ia ib ≤ Nat.max ia ib)%nat ∧
     (ia < length (z0 :: rest))%nat ∧ (ib < length (z0 :: rest))%nat ∧
     (∀ j, (j < length (z0 :: rest))%nat →
           (dist a ia <= dist a j)%Q ∧ (dist b ib <= dist b j)%Q) ∧
     (∀ j, (j < ia)%nat → (dist a ia < dist a j)%Q) ∧
     (∀ j, (j < ib)%nat → (dist b ib < dist b j)%Q)).
Proof.
  split.
  - eexists. split; [vm_compute; reflexivity|].
    repeat split; vm_compute; reflexivity.
  - intros a b z0 rest zs dist ia ib.
    assert (Hlen : length zs = length (z0 :: rest))
      by apply sorted_by_length.
    assert (Hne : zs ≠ []).
    { intros E. rewrite E in Hlen. discriminate Hlen. }
    destruct (find_closest_index_nearest zs a Hne) as (Ha1 & Ha2 & Ha3).
    destruct (find_closest_index_nearest zs b Hne) as (Hb1 & Hb2 & Hb3).
    rewrite Hlen in Ha1, Hb1, Ha2, Hb2.
    split; [reflexivity|]. split; [lia|].
    split; [exact Ha1|]. split; [exact Hb1|].
    split; [|split; [exact Ha3|exact Hb3]].
    intros j Hj. split; [by apply Ha2|by apply Hb2].
Qed.

(** C2, as stated, fails: the scenario ends at slice 24, not at slice 25. *)
Lemma planning_scenario_slice_end_is_not_25 :
  ∃ p, generate_planning_geometry 100 200 400 Samples.z_positions_0_49
         = mret p ∧
       slice_start p = 12%nat ∧ slice_end p = 24%nat ∧ slice_end p ≠ 25%nat.
Proof.
  eexists. split; [vm_compute; reflexivity|].
  repeat split; [vm_compute; lia].
Qed.


End PlanningScenario.



(** ** Windowing *)

Section WindowFacts.
Import HuUtils.

(** Case analysis on the comparisons of [clip], innermost first. *)
Ltac flat_term t :=
  lazymatch t with
  | context [Py.Qlt_bool _ _] => fail
  | _ => idtac
  end.

Ltac clip_cases :=
  unfold clip, Py.fmin, Py.fmax;
  repeat match goal with
    | |- context [Py.Qlt_bool ?a ?b] =>
        flat_term a; flat_term b;
        let E := fresh "E" in
        destruct (Py.Qlt_bool a b) eqn:E;
        [apply Qlt_bool_true in E | apply Qlt_bool_false in E];
        cbv iota
    end.

Lemma clip_bounds (x l u : Q) :
  (l <= u)%Q → (l <= clip x l u <= u)%Q.
Proof. intros Hlu. clip_cases; lra. Qed.

Lemma clip_below (x l u : Q) : (l <= u)%Q → (x <= l)%Q → (clip x l u == l)%Q.
Proof. intros Hlu Hx. clip_cases; lra. Qed.

Lemma clip_above (x l u : Q) : (l <= u)%Q → (u <= x)%Q → (clip x l u == u)%Q.
Proof. intros Hlu Hx. clip_cases; lra. Qed.

Lemma half_width (w : Q) :
  (0 < w)%Q → (0 < w / 2)%Q ∧ (w / 2 + w / 2 == w)%Q.
Proof.
  intros Hw. split; [apply Qlt_shift_div_l; lra|field].
Qed.

Lemma window_level_linear (c w x : Q) :
  (0 < w)%Q →
  (window_level c w x
     == (clip x (c - w / 2) (c + w / 2) - (c - w / 2)) * (255 / w))%Q.
Proof. intros Hw. unfold window_level. field. split; intros E; lra. Qed.

Lemma window_level_range (c w x : Q) :
  (0 < w)%Q → (0 <= window_level c w x <= 255)%Q.
Proof.
  intros Hw. rewrite window_level_linear by done.
  assert (Hs : (0 < 255 / w)%Q) by (apply Qlt_shift_div_l; lra).
  assert (Hone : (w * (255 / w) == 255)%Q) by (field; lra).
  destruct (half_width w Hw) as [Hh Hhh].
  set (h := (w / 2)%Q) in *.
  assert (Hlu : (c - h <= c + h)%Q) by lra.
  pose proof (clip_bounds x _ _ Hlu) as [Hl Hu].
  set (k := clip x (c - h) (c + h)) in *.
  set (s := (255 / w)%Q) in *. clearbody k s h. nra.
Qed.

Lemma to_uint8_floor (t : Q) :
  (0 <= t <= 255)%Q → to_uint8 t = Qfloor t ∧ 0 ≤ Qfloor t ≤ 255.
Proof.
  intros [H0 H255]. unfold to_uint8, Py.int_of_float.
  assert (Hb : Qle_bool 0 t = true) by by apply Qle_bool_iff.
  rewrite Hb.
  assert (Hlo : 0 ≤ Qfloor t).
  { change 0 with (Qfloor 0). by apply Qfloor_resp_le. }
  assert (Hhi : Qfloor t ≤ 255).
  { change 255 with (Qfloor 255). by apply Qfloor_resp_le. }
  split; [|lia]. apply Z.mod_small. lia.
Qed.

Lemma window_pixel_range (c w x : Q) :
  (0 < w)%Q → 0 ≤ window_pixel c w x ≤ 255.
Proof.
  intros Hw. unfold window_pixel.
  destruct (to_uint8_floor _ (window_level_range c w x Hw)) as [-> H]. done.
Qed.

Lemma window_pixel_below (c w x : Q) :
  (0 < w)%Q → (x <= c - w / 2)%Q → window_pixel c w x = 0.
Proof.
  intros Hw Hx. unfold window_pixel.
  destruct (to_uint8_floor _ (window_level_range c w x Hw)) as [-> _].
  assert (E : (window_level c w x == 0)%Q).
  { rewrite window_level_linear by done.
    destruct (half_width w Hw) as [Hh _].
    rewrite clip_below; [field; lra| |done].
    set (h := (w / 2)%Q) in *. clearbody h. lra. }
  rewrite E. reflexivity.
Qed.

Lemma window_pixel_above (c w x : Q) :
  (0 < w)%Q → (c + w / 2 <= x)%Q → window_pixel c w x = 255.
Proof.
  intros Hw Hx. unfold window_pixel.
  destruct (to_uint8_floor _ (window_level_range c w x Hw)) as [-> _].
  assert (E : (window_level c w x == 255)%Q).
  { rewrite window_level_linear by done.
    destruct (half_width w Hw) as [Hh _].
    rewrite clip_above; [field; lra| |done].
    set (h := (w / 2)%Q) in *. clearbody h. lra. }
  rewrite E. reflexivity.
Qed.

Lemma window_pixel_antitone (c1 c2 w x : Q) :
  (0 < w)%Q → (c1 <= c2)%Q → window_pixel c2 w x ≤ window_pixel c1 w x.
Proof.
  intros Hw Hc. unfold window_pixel.
  destruct (to_uint8_floor _ (window_level_range c1 w x Hw)) as [-> _].
  destruct (to_uint8_floor _ (window_level_range c2 w x Hw)) as [-> _].
  apply Qfloor_resp_le. rewrite !window_level_linear by done.
  assert (Hs : (0 < 255 / w)%Q) by (apply Qlt_shift_div_l; lra).
  destruct (half_width w Hw) as [Hh _].
  apply Qmult_le_compat_r; [|by apply Qlt_le_weak].
  set (h := (w / 2)%Q) in *. clearbody h. clip_cases; lra.
Qed.

Lemma pixel_map {A B} (f : A → B) (img : list (list A)) (i j : nat) :
  Py.pixel (map (map f) img) i j = f <$> Py.pixel img i j.
Proof.
  unfold Py.pixel. change (map (map f) img) with (map f <$> img).
  rewrite list_lookup_fmap. destruct (img !! i) as [row|]; [|done].
  cbn. change (map f row) with (f <$> row). by rewrite list_lookup_fmap.
Qed.


End WindowFacts.


(** ** Multi-planar slices *)

Section MprFacts.
Import MprGenerator.
Context `{ImageCodec}.

Lemma window_guard_ok (img : list (list Q)) (c w : Q) :
  (0 < w)%Q → ∃ out, HuUtils.apply_window img c w = mret out.
Proof.
  intros Hw. unfold HuUtils.apply_window.
  rewrite (proj2 (Qle_bool_false w 0) Hw). eauto.
Qed.

Lemma window_guard_fails (img : list (list Q)) (c w : Q) :
  (w <= 0)%Q →
  HuUtils.apply_window img c w = raise (ValueError "Window width must be > 0").
Proof.
  intros Hw. unfold HuUtils.apply_window.
  by rewrite (proj2 (Qle_bool_iff w 0) Hw).
Qed.

(** C6 (amended).  [get_mpr_metadata] reports the three axis lengths of
    the shape.  For each of the orientations axial, sagittal, coronal
    (axes Z, Y, X) and a positive window width, [generate_mpr_slice]
    raises [ValueError] if and only if the index is outside
    [0, axis length), and returns an image otherwise.  With a
    non-positive window width it raises [ValueError] whatever the index,
    and so it does for any other orientation name. *)
Theorem mpr_metadata_and_index_guard
    (volume : Volume) (slice_index : Z) (c w : Q) :
  get_mpr_metadata volume
    = mret {| axial_slices := z_size volume;
              sagittal_slices := y_size volume;
              coronal_slices := x_size volume;
              volume_shape := [z_size volume; y_size volume; x_size volume] |} ∧
  ((0 < w)%Q →
     Forall (λ '(orientation, axis_length),
               ((∃ msg, generate_mpr_slice volume orientation slice_index c w
                          = raise (ValueError msg))
                ↔ (slice_index < 0 ∨ Z.of_nat axis_length ≤ slice_index)) ∧
               (Py.is_ok (generate_mpr_slice volume orientation slice_index c w)
                  = false
                ↔ (slice_index < 0 ∨ Z.of_nat axis_length ≤ slice_index)))
            [("axial", z_size volume); ("sagittal", y_size volume);
             ("coronal", x_size volume)]) ∧
  ((w <= 0)%Q →
     ∀ orientation, ∃ msg,
       generate_mpr_slice volume orientation slice_index c w
         = raise (ValueError msg)) ∧
  (∀ orientation,
     orientation ≠ "axial" → orientation ≠ "sagittal" →
     orientation ≠ "coronal" →
     generate_mpr_slice volume orientation slice_index c w
       = raise (ValueError ("Invalid orientation: " +:+ orientation))).
Proof.
  split; [reflexivity|]. split; [|split].
  - intros Hw.
    assert (Hcase : ∀ (n : nat) (img : list (list Q)) (msg0 : string),
      let r :=
        (slice_img ←
           (if (slice_index <? 0) || (Z.of_nat n <=? slice_index)
            then raise (ValueError msg0) else mret img);
         windowed ← HuUtils.apply_window slice_img c w;
         mret (array_to_base64_png windowed)) in
      ((∃ msg, r = raise (ValueError msg))
         ↔ (slice_index < 0 ∨ Z.of_nat n ≤ slice_index)) ∧
      (Py.is_ok r = false ↔ (slice_index < 0 ∨ Z.of_nat n ≤ slice_index))).
    { intros n img msg0 r. subst r.
      destruct (Z.ltb_spec slice_index 0) as [Hneg|Hnn];
        destruct (Z.leb_spec (Z.of_nat n) slice_index) as [Hbig|Hsmall];
        cbn.
      1-3: split; (split; [intros _; lia|intros _; eauto; done]).
      destruct (window_guard_ok img c w Hw) as [out ->]. cbn.
      split; split.
      - intros [msg Hm]. discriminate Hm.
      - intros Hout. exfalso. lia.
      - intros Hm. discriminate Hm.
      - intros Hout. exfalso. lia. }
    constructor; [exact (Hcase _ _ _)|].
    constructor; [exact (Hcase _ _ _)|].
    constructor; [exact (Hcase _ _ _)|constructor].
  - intros Hw orientation. unfold generate_mpr_slice.
    repeat match goal with
      | |- context [if ?b then _ else _] => destruct b
      end; cbn; try (eexists; reflexivity);
      rewrite window_guard_fails by done; cbn; eexists; reflexivity.
  - intros orientation H1 H2 H3. unfold generate_mpr_slice.
    rewrite (proj2 (String.eqb_neq _ _) H1), (proj2 (String.eqb_neq _ _) H2),
      (proj2 (String.eqb_neq _ _) H3). reflexivity.
Qed.

End MprFacts.

(** C6, as stated, fails: an index inside the axis still ends in
    [ValueError] when the window width is not positive. *)
Lemma mpr_index_in_range_zero_width_fails :
  0 ≤ 0 < Z.of_nat (z_size Samples.volume_1_1_1) ∧
  @MprGenerator.generate_mpr_slice Samples.height_codec
     Samples.volume_1_1_1 "axial" 0 40 0
    = raise (ValueError "Window width must be > 0").
Proof. split; [cbn; lia|reflexivity]. Qed.

(** ** Series assembly *)

Section LoaderFacts.
Import DicomLoader.

Lemma getitem_in_range {A} (xs : list A) (i : Z) :
  0 ≤ i < Z.of_nat (length xs) →
  ∃ x, Py.getitem xs i = mret x ∧ xs !! Z.to_nat i = Some x.
Proof.
  intros [Hlo Hhi]. unfold Py.getitem.
  destruct (Z.ltb_spec i 0) as [|_]; [lia|].
  destruct (Z.ltb_spec i 0) as [|_]; [lia|].
  destruct (Z.leb_spec (Z.of_nat (length xs)) i) as [|_]; [lia|]. cbn.
  destruct (lookup_lt_is_Some_2 xs (Z.to_nat i)) as [x Hx]; [lia|].
  rewrite Hx. eauto.
Qed.

(** C9.  A folder whose readable slice files come down to a single
    dataset never assembles: with the position, row, column and pixel
    spacing tags present, [load_dicom_series] raises [IndexError] at the
    fallback expression, which is evaluated before [getattr] looks for
    the tag.  This holds when the nominal [SliceThickness] is absent and
    equally when it is present. *)
Theorem single_slice_series_raises_index_error
    (case_path : string) (listing : Listing) (ds : Dataset)
    (ipp ps : list Q) (r c : Z) :
  omap snd (filter (λ f, is_dcm f.1 = true) listing) = [ds] →
  ImagePositionPatient ds = Some ipp → (3 ≤ length ipp)%nat →
  Rows ds = Some r → Columns ds = Some c → PixelSpacing ds = Some ps →
  load_dicom_series case_path (Some listing)
    = raise (IndexError "list index out of range").
Proof.
  intros Hone Hipp Hlen Hr Hc Hps. unfold load_dicom_series.
  destruct (filter (λ f, is_dcm f.1 = true) listing) as [|f files] eqn:Hf;
    [discriminate Hone|].
  cbn [length Nat.eqb]. rewrite Hone. cbn [length Nat.eqb].
  destruct (getitem_in_range ipp 2) as (z & Hz & _); [lia|].
  assert (Hkey : get_z_position ds = mret z).
  { unfold get_z_position. rewrite Hipp. cbn. exact Hz. }
  unfold sort_by_z. cbn [Py.mapM]. rewrite Hkey. cbn.
  rewrite Hkey. cbn.
  change (Py.getitem [ds] 0) with (mret ds : result Dataset).
  change (Py.getitem [z] 1)
    with (raise (IndexError "list index out of range") : result Q).
  cbn. rewrite Hr, Hc, Hps. reflexivity.
Qed.

End LoaderFacts.

Lemma single_slice_series_raises_index_error_witness :
  DicomLoader.SliceThickness (Samples.slice_at 0 (Some 1.25%Q)) = Some 1.25%Q ∧
  DicomLoader.load_dicom_series "/srv/Datasets/Head/CT/case_002"
      (Some Samples.single_slice_folder)
    = raise (IndexError "list index out of range").
Proof.
  split; [reflexivity|].
  apply (single_slice_series_raises_index_error _ _
           (Samples.slice_at 0 (Some 1.25%Q)) [0; 0; 0]%Q [0.5; 0.5]%Q 1 2);
    first [reflexivity | cbn; lia].
Defined.

(** ** Mesh extraction *)

Section StlFacts.
Import StlGenerator.
Context `{Vtk}.

(** C3 (what the code does).  When the iso-surface has no point, the
    [ValueError] raised inside [generate_stl] does not leave it: the
    function raises [RuntimeError] with the prefixed message, leaves the
    state alone, and raises no [ValueError]. *)
Theorem generate_stl_empty_surface_raises_runtime_error
    (vtk_image : Volume) (hu : Z) (name : string) (smooth : bool)
    (smoothing_iterations : Z) (st : State) :
  GetNumberOfPoints (vtkFlyingEdges3D vtk_image (inject_Z hu)) = 0%nat →
  generate_stl vtk_image hu name smooth smoothing_iterations st
    = (raise (RuntimeError
                ("Failed to generate STL: No surface found at HU threshold "
                 +:+ pretty hu +:+ ". Try adjusting the threshold.")), st) ∧
  ∀ msg, (generate_stl vtk_image hu name smooth smoothing_iterations st).1
         ≠ raise (ValueError msg).
Proof.
  intros Hempty. unfold generate_stl, generate_stl_body.
  rewrite Hempty. cbn. split; [reflexivity|]. intros msg Heq.
  discriminate Heq.
Qed.

End StlFacts.

Lemma generate_stl_empty_surface_raises_runtime_error_witness :
  (@StlGenerator.generate_stl Samples.row_crossing_vtk Samples.air_volume 200
     "bone" true 10
     {| StlGenerator.stl_files := ∅; StlGenerator.temp_files := ∅ |}).1
    = raise (RuntimeError
        "Failed to generate STL: No surface found at HU threshold 200. Try adjusting the threshold.").
Proof.
  destruct (@generate_stl_empty_surface_raises_runtime_error
              Samples.row_crossing_vtk Samples.air_volume 200 "bone" true 10
              {| StlGenerator.stl_files := ∅; StlGenerator.temp_files := ∅ |}
              eq_refl) as [Hrun _].
  rewrite Hrun. reflexivity.
Defined.

(** ** Reconstruction *)

Section ResampleFacts.
Import Reconstruction.

Lemma int_of_float_integral (x : Q) (n : Z) :
  (x == inject_Z n)%Q → Py.int_of_float x = n.
Proof.
  intros Hx. unfold Py.int_of_float.
  destruct (Qle_bool 0 x).
  - rewrite (Qfloor_comp _ _ Hx). apply Qfloor_Z.
  - rewrite (Qceiling_comp _ _ Hx). apply Qceiling_Z.
Qed.

Lemma truediv_nonzero (a b : Q) :
  ¬ (b == 0)%Q → Py.truediv a b = mret (a / b)%Q.
Proof.
  intros Hb. unfold Py.truediv.
  destruct (Qeq_bool b 0) eqn:E; [|done].
  apply Qeq_bool_iff in E. done.
Qed.


End ResampleFacts.

(** ** Reconstruction idempotency *)

Section IdempotencyFacts.
Import Reconstruction.
Context {config : Config} {interpreter : Interpreter} {sitk : Sitk}.

Lemma bind_ok_inv {A B} (m : M A) (k : A → M B) (w w' : World) (b : B) :
  (m ≫= k) w = (inr b, w') →
  ∃ a w0, m w = (inr a, w0) ∧ k a w0 = (inr b, w').
Proof.
  unfold mbind, M_bind, bind. intros Hrun.
  destruct (m w) as [[e|a] w0]; [discriminate Hrun|]. eauto.
Qed.

Lemma bind_ok {A B} (m : M A) (k : A → M B) (w w0 : World) (a : A) :
  m w = (inr a, w0) → (m ≫= k) w = k a w0.
Proof. intros Hm. unfold mbind, M_bind, bind. by rewrite Hm. Qed.

Lemma keeps_bind {A B} (m : M A) (k : A → M B) :
  keeps_artifacts m → (∀ a, keeps_artifacts (k a)) → keeps_artifacts (m ≫= k).
Proof.
  intros Hm Hk w. unfold mbind, M_bind, bind.
  destruct (Hm w) as (M1 & M2 & M3).
  destruct (m w) as [[e|a] w0]; cbn in *; [done|].
  destruct (Hk a w0) as (K1 & K2 & K3).
  rewrite K1, K2, K3. done.
Qed.

Lemma keeps_lift {A} (r : result A) : keeps_artifacts (lift r).
Proof. by intros w. Qed.

Lemma keeps_ret {A} (a : A) : keeps_artifacts (ret a).
Proof. by intros w. Qed.

Lemma keeps_get : keeps_artifacts get.
Proof. by intros w. Qed.

Lemma keeps_emit (ev : Event) : keeps_artifacts (emit ev).
Proof. by intros w. Qed.

Lemma keeps_makedirs (path : string) : keeps_artifacts (makedirs path).
Proof. by intros w. Qed.

Lemma keeps_set_series (dir : string) files :
  keeps_artifacts (set_series dir files).
Proof. by intros w. Qed.

Lemma keeps_save_slice (image : Image) (dir : string) (z : nat) :
  keeps_artifacts (save_slice image dir z).
Proof.
  unfold save_slice. destruct (writer_fails _); [apply keeps_lift|].
  apply keeps_bind; [apply keeps_get|]. intros w0.
  apply keeps_bind; [apply keeps_emit|]. intros _. apply keeps_set_series.
Qed.

Lemma keeps_for_each {A} (f : A → M unit) (xs : list A) :
  (∀ x, keeps_artifacts (f x)) → keeps_artifacts (for_each f xs).
Proof.
  intros Hf. induction xs as [|x xs IH]; cbn; [apply keeps_ret|].
  apply keeps_bind; [apply Hf|]. intros _. exact IH.
Qed.

Lemma keeps_save_as_dicom_series (image : Image) (dir : string) :
  keeps_artifacts (save_as_dicom_series image dir).
Proof.
  unfold save_as_dicom_series.
  apply keeps_bind; [apply keeps_makedirs|]. intros _.
  apply keeps_bind; [apply keeps_get|]. intros w0.
  apply keeps_bind; [apply keeps_set_series|]. intros _.
  apply keeps_for_each. intros z. apply keeps_save_slice.
Qed.

Lemma path_exists_nii (w : World) (path : string) :
  path ∈ dom (nii_files w) → path_exists w path = true.
Proof.
  intros Hin. unfold path_exists. rewrite bool_decide_eq_true_2 by done. done.
Qed.

Lemma path_exists_makedirs (w : World) (dir path : string) :
  path_exists w path = true → path_exists (makedirs dir w).2 path = true.
Proof.
  unfold path_exists, makedirs. cbn.
  rewrite !orb_true_iff, !bool_decide_eq_true.
  intros [[[[Hin|Hin]|Hin]|Hin]|Hin]; auto 6.
  right. apply elem_of_union. by right.
Qed.

Lemma path_exists_plans_rewritten (w w' : World) (path : string) :
  plans_rewritten w w' →
  path_exists w path = true → path_exists w' path = true.
Proof.
  intros (Hdom & Hc & Hn & Hs & Hd & _). unfold path_exists.
  rewrite Hc, Hn, Hs, Hd, !orb_true_iff, !bool_decide_eq_true.
  intros [[[[Hin|Hin]|Hin]|Hin]|Hin]; auto 6.
Qed.


(** The first statements of [apply_reconstruction], up to the test for
    the artifact: with both mandatory keys present and a readable plan
    they only create the [recon] directory. *)
Lemma apply_reconstruction_when_present
    (payload : Payload) (case_id : string) (thickness : Number) (w : World) :
  payload_case_id payload = Some case_id →
  payload_slice_thickness_mm payload = Some thickness →
  plan_readable w case_id →
  path_exists w (output_path_of case_id thickness
                   (default "soft" (payload_kernel payload))) = true →
  ∃ planning_data,
    apply_reconstruction payload w
      = (mret (descriptor case_id thickness
                 (default "soft" (payload_kernel payload))
                 (default true (payload_use_planning payload)) planning_data),
         (makedirs (recon_dir_of case_id) w).2).
Proof.
  intros Hcase Hthick Hplan Hout.
  set (kernel := default "soft" (payload_kernel payload)) in *.
  set (use_planning := default true (payload_use_planning payload)).
  set (load_plan := use_planning
                    && negb (bool_decide (is_Some (payload_planning payload)))
                    && path_exists w (plan_path_of case_id)).
  assert (Hplanning : ∃ planning_data,
    (if load_plan
     then lift (match plan_files w !! plan_path_of case_id with
                | Some plan => mret (Some plan)
                | None => raise (OSError (plan_path_of case_id))
                end)
     else ret (payload_planning payload)) w = (inr planning_data, w)).
  { destruct load_plan eqn:E; [|by eexists].
    apply andb_true_iff in E as [_ E].
    destruct (Hplan E) as [plan ->]. by eexists. }
  destruct Hplanning as [planning_data Hplanning].
  exists planning_data.
  unfold apply_reconstruction. rewrite Hcase, Hthick.
  do 3 (erewrite bind_ok by reflexivity; cbv beta zeta).
  erewrite bind_ok by exact Hplanning. cbv beta.
  do 2 (erewrite bind_ok by reflexivity; cbv beta).
  match goal with
  | |- context [path_exists ?w0 ?p] =>
      assert (Hex : path_exists w0 p = true)
        by exact (path_exists_makedirs w (recon_dir_of case_id) _ Hout);
      rewrite Hex
  end.
  reflexivity.
Qed.

Lemma WriteImage_ok_inv (image : Image) (path : string) (w w' : World) :
  WriteImage image path w = (inr tt, w') → path ∈ dom (nii_files w').
Proof.
  unfold WriteImage. intros Hrun.
  apply bind_ok_inv in Hrun as ([] & w0 & _ & Hrun).
  destruct (writer_fails path); [discriminate Hrun|].
  injection Hrun as <-. cbn. rewrite dom_insert_L. set_solver.
Qed.

(** A call that returns leaves the artifact on disk and describes it. *)
Lemma apply_reconstruction_leaves_artifact
    (payload : Payload) (case_id : string) (thickness : Number)
    (w w1 : World) (desc : Descriptor) :
  payload_case_id payload = Some case_id →
  payload_slice_thickness_mm payload = Some thickness →
  apply_reconstruction payload w = (mret desc, w1) →
  path_exists w1 (output_path_of case_id thickness
                    (default "soft" (payload_kernel payload))) = true ∧
  ∃ planning_data,
    desc = descriptor case_id thickness
             (default "soft" (payload_kernel payload))
             (default true (payload_use_planning payload)) planning_data.
Proof.
  intros Hcase Hthick Hrun.
  unfold apply_reconstruction in Hrun. rewrite Hcase, Hthick in Hrun.
  do 3 (erewrite bind_ok in Hrun by reflexivity; cbv beta zeta in Hrun).
  apply bind_ok_inv in Hrun as (planning_data & w0 & _ & Hrun).
  apply bind_ok_inv in Hrun as ([] & wm & _ & Hrun).
  erewrite bind_ok in Hrun by reflexivity. cbv beta in Hrun.
  destruct (path_exists wm _) eqn:Hex.
  - injection Hrun as <- <-. eauto.
  - apply bind_ok_inv in Hrun as (image & wa & _ & Hrun).
    apply bind_ok_inv in Hrun as (image' & wb & _ & Hrun).
    apply bind_ok_inv in Hrun as ([] & wc & _ & Hrun).
    apply bind_ok_inv in Hrun as ([] & wd & _ & Hrun).
    apply bind_ok_inv in Hrun as (resampled & we & _ & Hrun).
    apply bind_ok_inv in Hrun as ([] & wf & _ & Hrun).
    apply bind_ok_inv in Hrun as ([] & wg & Hwrite & Hrun).
    apply bind_ok_inv in Hrun as ([] & wh & Hsave & Hrun).
    erewrite bind_ok in Hrun by reflexivity. cbv beta in Hrun.
    destruct (_ =? _)%nat; [discriminate Hrun|].
    injection Hrun as <- <-. split; [|eauto].
    apply path_exists_nii. apply WriteImage_ok_inv in Hwrite.
    destruct (keeps_save_as_dicom_series
                (enhance_z_resolution resampled)
                (Py.path_join (recon_dir_of case_id)
                   (recon_id_of thickness
                      (default "soft" (payload_kernel payload)))) wg)
      as (Hnii & _).
    rewrite Hsave in Hnii. cbn in Hnii. by rewrite Hnii.
Qed.


End IdempotencyFacts.


(** ** The volume cache *)

Section DictFacts.
Context {A : Type}.
Implicit Types (d : list (string * A)) (k : string) (v : A).

Lemma dict_get_None d k :
  Py.dict_get k d = None ↔ Forall (λ kv, kv.1 ≠ k) d.
Proof.
  unfold Py.dict_get. induction d as [|[k0 v0] d IH]; cbn.
  - split; [constructor|done].
  - destruct (String.eqb_spec k0 k) as [->|Hne]; cbn.
    + split; [done|]. intros Hall. apply Forall_cons in Hall as [Hk _]. done.
    + rewrite IH. split; [by constructor|].
      intros Hall. by apply Forall_cons in Hall as [_ Hall].
Qed.

Lemma dict_get_app_fresh d k v :
  Py.dict_get k d = None → Py.dict_get k (d ++ [(k, v)]) = Some v.
Proof.
  unfold Py.dict_get. induction d as [|[k0 v0] d IH]; cbn.
  - by rewrite String.eqb_refl.
  - destruct (String.eqb_spec k0 k) as [->|Hne]; cbn; [done|exact IH].
Qed.

Lemma dict_get_app_other d k k' v :
  k' ≠ k → Py.dict_get k' (d ++ [(k, v)]) = Py.dict_get k' d.
Proof.
  intros Hne. unfold Py.dict_get. induction d as [|[k0 v0] d IH]; cbn.
  - destruct (String.eqb_spec k k'); [congruence|done].
  - destruct (String.eqb_spec k0 k'); [done|exact IH].
Qed.

Lemma dict_set_fresh d k v :
  Py.dict_get k d = None → Py.dict_set k v d = d ++ [(k, v)].
Proof.
  intros Hmiss. unfold Py.dict_set.
  replace (existsb (λ kv, String.eqb kv.1 k) d) with false; [done|].
  symmetry. apply dict_get_None in Hmiss.
  induction Hmiss as [|[k0 v0] d Hk _ IH]; cbn; [done|].
  rewrite IH. by destruct (String.eqb_spec k0 k).
Qed.

Lemma dict_get_delete_other d k k0 :
  k ≠ k0 →
  Py.dict_get k (filter (λ kv, kv.1 ≠ k0) d) = Py.dict_get k d.
Proof.
  intros Hne. unfold Py.dict_get. induction d as [|[k1 v1] d IH]; [done|].
  rewrite filter_cons. cbn. destruct (decide (k1 ≠ k0)) as [Hk|Hk]; cbn.
  - destruct (String.eqb_spec k1 k); [done|exact IH].
  - apply dec_stable in Hk as ->.
    destruct (String.eqb_spec k0 k); [congruence|exact IH].
Qed.

Lemma dict_get_delete_weak d k k0 v :
  Py.dict_get k (filter (λ kv, kv.1 ≠ k0) d) = Some v →
  Py.dict_get k d = Some v.
Proof.
  destruct (decide (k = k0)) as [->|Hne].
  - intros Hget. exfalso.
    assert (Hnone : Py.dict_get k0 (filter (λ kv : string * A, kv.1 ≠ k0) d)
                    = None).
    { apply dict_get_None. apply Forall_forall. intros kv Hin.
      by apply list_elem_of_filter in Hin as [Hk _]. }
    congruence.
  - by rewrite dict_get_delete_other.
Qed.

Lemma delete_head_length d k v :
  (length (filter (λ kv, kv.1 ≠ k) ((k, v) :: d)) ≤ length d)%nat.
Proof.
  rewrite filter_cons. cbn. destruct (decide (k ≠ k)); [done|].
  apply length_filter.
Qed.

End DictFacts.

Section CacheFacts.
Import Reconstruction Cine.
Context {config : Config} {pydicom : Pydicom}.

Lemma keep_three_length (cache : list (string * CacheEntry)) :
  (length cache ≤ 4)%nat → (length (keep_three cache) ≤ 3)%nat.
Proof.
  intros Hlen. unfold keep_three.
  destruct (Nat.ltb_spec 3 (length cache)) as [Hfull|Hroom]; [|done].
  destruct cache as [|[k0 v0] rest]; [cbn in Hfull; lia|].
  etrans; [apply delete_head_length|]. cbn in Hlen. lia.
Qed.

Lemma keep_three_newest (cache : list (string * CacheEntry))
    (key : string) (entry : CacheEntry) :
  Py.dict_get key cache = None →
  Py.dict_get key (keep_three (cache ++ [(key, entry)])) = Some entry.
Proof.
  intros Hmiss. unfold keep_three.
  pose proof (dict_get_app_fresh cache key entry Hmiss) as Hend.
  destruct (Nat.ltb_spec 3 (length (cache ++ [(key, entry)])))
    as [Hfull|Hroom]; [|done].
  destruct cache as [|[k0 v0] rest]; [cbn in Hfull; lia|].
  cbn [app] in *. rewrite dict_get_delete_other; [done|].
  apply dict_get_None in Hmiss. apply Forall_cons in Hmiss as [Hk _].
  cbn in Hk. congruence.
Qed.

Lemma keep_three_older (cache : list (string * CacheEntry))
    (key : string) (entry : CacheEntry) :
  Py.dict_get key (keep_three cache) = Some entry →
  Py.dict_get key cache = Some entry.
Proof.
  unfold keep_three. destruct (_ <? _)%nat; [|done].
  destruct cache as [|[k0 v0] rest]; [done|]. apply dict_get_delete_weak.
Qed.

(** What the cache holds under the key of a request once it returned. *)
Lemma get_cached_volume_stores (w : World) (case_id : string)
    (use_planning : bool) (recon_id : option string) (st : State)
    (entry : CacheEntry) :
  (get_cached_volume w case_id use_planning recon_id st).1 = mret entry →
  Py.dict_get (cache_key case_id use_planning recon_id)
    (volume_cache (get_cached_volume w case_id use_planning recon_id st).2)
    = Some entry.
Proof.
  unfold get_cached_volume.
  destruct (Py.dict_get _ (volume_cache st)) as [hit|] eqn:Hget.
  - cbn. by intros [= ->].
  - destruct (load_volume _ _ _ _ _) as [[e|loaded] studies];
      [intros Heq; discriminate Heq|].
    rewrite dict_set_fresh by done. cbn [fst snd volume_cache].
    rewrite keep_three_newest by done. by intros [= ->].
Qed.

(** A request keeps the bound of three entries. *)
Lemma get_cached_volume_bound (w : World) (case_id : string)
    (use_planning : bool) (recon_id : option string) (st : State) :
  (length (volume_cache st) ≤ 3)%nat →
  (length (volume_cache
             (get_cached_volume w case_id use_planning recon_id st).2) ≤ 3)%nat.
Proof.
  intros Hbound. unfold get_cached_volume.
  destruct (Py.dict_get _ (volume_cache st)) as [hit|] eqn:Hget; [done|].
  destruct (load_volume _ _ _ _ _) as [[e|loaded] studies]; [done|].
  cbn [fst snd volume_cache]. apply keep_three_length.
  rewrite dict_set_fresh, length_app by done. cbn. lia.
Qed.

(** C4 (amended).  The cache is keyed by the string [cache_key] of the
    request.  After every request it holds at most three entries if it
    did before, hence after any sequence of requests that starts with an
    empty cache.  A request whose key is in the cache returns the stored
    entry and changes nothing; a request whose key is not in the cache
    returns exactly what is loaded for its own arguments.  Once a request
    has returned an entry, any request with the same key gets that entry
    from the cache, with no change of state.  The entry of any other key
    is either still the one it was or has been evicted. *)
Theorem get_cached_volume_keyed_and_bounded (w : World) (case_id : string)
    (use_planning : bool) (recon_id : option string) (st : State) :
  let key := cache_key case_id use_planning recon_id in
  let run := get_cached_volume w case_id use_planning recon_id st in
  ((length (volume_cache st) ≤ 3)%nat →
   (length (volume_cache run.2) ≤ 3)%nat) ∧
  (∀ entry, Py.dict_get key (volume_cache st) = Some entry →
            run = (mret entry, st)) ∧
  (Py.dict_get key (volume_cache st) = None →
   run.1 = (load_volume w case_id use_planning recon_id (study_cache st)).1) ∧
  (∀ entry, run.1 = mret entry →
     ∀ case_id' use_planning' recon_id',
       cache_key case_id' use_planning' recon_id' = key →
       get_cached_volume w case_id' use_planning' recon_id' run.2
         = (mret entry, run.2)) ∧
  (∀ key', key' ≠ key →
     Py.dict_get key' (volume_cache run.2) = None ∨
     Py.dict_get key' (volume_cache run.2)
       = Py.dict_get key' (volume_cache st)) ∧
  (∀ requests studies,
     (length (volume_cache
                (serve_all requests
                   {| volume_cache := []; study_cache := studies |})) ≤ 3)%nat).
Proof.
  intros key run.
  assert (Hstored : ∀ entry, run.1 = mret entry →
            Py.dict_get key (volume_cache run.2) = Some entry)
    by apply get_cached_volume_stores.
  split; [|split; [|split; [|split; [|split]]]].
  - apply get_cached_volume_bound.
  - intros entry Hget. subst run. unfold get_cached_volume. fold key.
    by rewrite Hget.
  - intros Hget. subst run. unfold get_cached_volume. fold key.
    rewrite Hget.
    destruct (load_volume _ _ _ _ _) as [[e|loaded] studies]; [done|].
    rewrite dict_set_fresh by done. cbn [fst snd].
    by rewrite keep_three_newest.
  - intros entry Hret case_id' use_planning' recon_id' Hkey.
    unfold get_cached_volume at 1. rewrite Hkey.
    by rewrite (Hstored entry Hret).
  - intros key' Hne. subst run. unfold get_cached_volume. fold key.
    destruct (Py.dict_get key (volume_cache st)) as [hit|] eqn:Hget;
      [by right|].
    destruct (load_volume _ _ _ _ _) as [[e|loaded] studies]; [by right|].
    rewrite dict_set_fresh by done. cbn [fst snd volume_cache].
    destruct (Py.dict_get key' (keep_three _)) as [found|] eqn:Hfound;
      [|by left].
    right. apply keep_three_older in Hfound.
    by rewrite dict_get_app_other in Hfound.
  - intros requests studies.
    assert (Hinv : ∀ st0, (length (volume_cache st0) ≤ 3)%nat →
              (length (volume_cache (serve_all requests st0)) ≤ 3)%nat).
    { induction requests as [|[w0 req] rest IH]; intros st0 Hlen; [done|].
      cbn [serve_all]. apply IH. by apply get_cached_volume_bound. }
    apply Hinv. cbn. lia.
Qed.

End CacheFacts.

(** C4, as stated, fails: the requests for (case, True, no reconstruction)
    and for (case, True, reconstruction "none") are distinct tuples with
    one key.  The second, which alone ends in a 404, is served the raw
    volume that the first put in the cache. *)
Lemma distinct_tuples_share_cache_entry :
  let first :=
    @Cine.get_cached_volume Samples.roots Samples.plain_pydicom
       Samples.world_with_case "Head/CT/case_001" true None
       Samples.empty_caches in
  let raw :=
    {| Cine.entry_volume :=
         {| z_size := 2; y_size := 1; x_size := 2;
            voxels := [[[-1000; 40]]; [[-1000; 40]]]%Q |};
       Cine.wc := 40; Cine.ww := 400 |} in
  (None : option string) ≠ Some "none" ∧
  first.1 = mret raw ∧
  (@Cine.get_cached_volume Samples.roots Samples.plain_pydicom
      Samples.world_with_case "Head/CT/case_001" true (Some "none")
      first.2).1 = mret raw ∧
  (@Cine.get_cached_volume Samples.roots Samples.plain_pydicom
      Samples.world_with_case "Head/CT/case_001" true (Some "none")
      Samples.empty_caches).1
    = raise (HTTPException 404 "Reconstruction not found: none").
Proof.
  intros first raw. split; [discriminate|].
  repeat split; vm_compute; reflexivity.
Qed.


(** * Further properties of the code *)

(** ** Cropping *)

Section CropMore.
Import VolumeCropper.

(** X1.  On a well-shaped volume with at least one slice, a slice range
    that covers the whole stack ([slice_start ≤ 0] and
    [slice_end ≥ Z - 1], clamping included) returns the volume itself; on
    a volume without slices every range is rejected with [ValueError]. *)
Theorem crop_volume_z_whole_stack (v : Volume) (slice_start slice_end : Z) :
  well_shaped v →
  (z_size v = 0%nat →
   crop_volume_z v slice_start slice_end
     = raise (ValueError "slice_start must be <= slice_end")) ∧
  ((0 < z_size v)%nat → slice_start ≤ 0 →
   Z.of_nat (z_size v) - 1 ≤ slice_end →
   crop_volume_z v slice_start slice_end = mret v).
Proof.
  intros [Hlen Hall]. unfold crop_volume_z. split.
  - intros Hz. rewrite Hz.
    destruct (Z.gtb_spec (Z.max 0 slice_start)
                (Z.min (Z.of_nat 0 - 1) slice_end)); [done|lia].
  - intros Hpos Hs He.
    rewrite Z.max_l, Z.min_l by lia.
    destruct (Z.gtb_spec 0 (Z.of_nat (z_size v) - 1)); [lia|].
    unfold slice_axis0. rewrite slice_in_range by lia.
    replace (Z.to_nat (Z.of_nat (z_size v) - 1 + 1 - 0)) with (length (voxels v))
      by lia.
    change (Z.to_nat 0) with 0%nat. rewrite drop_0, firstn_all.
    rewrite Hlen. by destruct v.
Qed.


Lemma slice_length_in_range (n : nat) (a b : Z) :
  0 ≤ a → a ≤ b → b ≤ Z.of_nat n → Py.slice_length n a b = Z.to_nat (b - a).
Proof.
  intros Ha Hab Hb. unfold Py.slice_length, Py.slice_bound.
  destruct (Z.ltb_spec a 0); [lia|]. destruct (Z.ltb_spec b 0); [lia|].
  by rewrite !Z.min_r by lia.
Qed.

(** X3.  On a well-shaped volume [crop_volume_xy] clamps the field of
    view to the raster and raises [ValueError] exactly when the clamped
    [x_min] is not below the clamped [x_max] or the clamped [y_min] not
    below the clamped [y_max]: a field of view one pixel wide or high is
    rejected.  Otherwise it returns a well-shaped volume with all slices,
    rows [y_min..y_max] and columns [x_min..x_max] inclusive, whose voxel
    (z, i, j) is the voxel (z, y_min + i, x_min + j) of the input. *)
Theorem crop_volume_xy_spec (v : Volume) (fov : Fov) :
  well_shaped v →
  let x0 := Z.max 0 (x_min fov) in
  let x1 := Z.min (Z.of_nat (x_size v) - 1) (x_max fov) in
  let y0 := Z.max 0 (y_min fov) in
  let y1 := Z.min (Z.of_nat (y_size v) - 1) (y_max fov) in
  (crop_volume_xy v fov = raise (ValueError "Invalid FOV crop range")
   ↔ x1 ≤ x0 ∨ y1 ≤ y0) ∧
  (x0 < x1 → y0 < y1 →
   ∃ v', crop_volume_xy v fov = mret v' ∧ well_shaped v' ∧
         z_size v' = z_size v ∧
         Z.of_nat (y_size v') = y1 - y0 + 1 ∧
         Z.of_nat (x_size v') = x1 - x0 + 1 ∧
         ∀ (z i j : nat) (sl : list (list Q)) (row : list Q) (x : Q),
           voxels v !! z = Some sl →
           sl !! (Z.to_nat y0 + i)%nat = Some row →
           row !! (Z.to_nat x0 + j)%nat = Some x →
           Z.of_nat i ≤ y1 - y0 → Z.of_nat j ≤ x1 - x0 →
           ∃ sl' row', voxels v' !! z = Some sl' ∧ sl' !! i = Some row' ∧
                       row' !! j = Some x).
Proof.
  intros [Hlen Hall] x0 x1 y0 y1. unfold crop_volume_xy. fold x0 x1 y0 y1.
  destruct (Z.geb_spec x0 x1) as [Hx|Hx];
    destruct (Z.geb_spec y0 y1) as [Hy|Hy]; cbn [orb].
  1-3: split; [split; [lia|done]|lia].
  split; [split; [intros Heq; discriminate Heq|lia]|]. intros _ _.
  eexists. split; [reflexivity|].
  unfold slice_axes12. cbn [voxels z_size y_size x_size].
  rewrite !slice_length_in_range by lia.
  assert (Hrows : ∀ sl, sl ∈ voxels v →
            Py.slice sl y0 (y1 + 1)
              = take (Z.to_nat (y1 + 1 - y0)) (drop (Z.to_nat y0) sl) ∧
            length (Py.slice sl y0 (y1 + 1)) = Z.to_nat (y1 + 1 - y0) ∧
            Forall (λ row, length row = x_size v) (Py.slice sl y0 (y1 + 1))).
  { intros sl Hin. apply (proj1 (Forall_forall _ _) Hall) in Hin as [Hy' Hx'].
    rewrite slice_in_range by lia. split; [done|]. split.
    - rewrite length_take, length_drop. lia.
    - by apply Forall_take, Forall_drop. }
  assert (Hcols : ∀ row : list Q, length row = x_size v →
            Py.slice row x0 (x1 + 1)
              = take (Z.to_nat (x1 + 1 - x0)) (drop (Z.to_nat x0) row) ∧
            length (Py.slice row x0 (x1 + 1)) = Z.to_nat (x1 + 1 - x0)).
  { intros row Hrow. rewrite slice_in_range by lia. split; [done|].
    rewrite length_take, length_drop. lia. }
  split; [|split; [done|split; [lia|split; [lia|]]]].
  - split; cbn [voxels z_size y_size x_size].
    + by rewrite length_map.
    + apply Forall_map. apply Forall_forall. intros sl Hin. cbn.
      destruct (Hrows sl Hin) as (_ & Hl & Hf).
      rewrite length_map. split; [done|].
      apply Forall_map. eapply Forall_impl; [exact Hf|].
      intros row Hrow. cbn. by apply Hcols.
  - intros z i j sl row x Hsl Hrow Hxv Hi Hj.
    assert (Hin : sl ∈ voxels v) by by eapply list_elem_of_lookup_2.
    destruct (Hrows sl Hin) as (Hs & _ & _).
    assert (Hrin : row ∈ sl) by by eapply list_elem_of_lookup_2.
    apply (proj1 (Forall_forall _ _) Hall) in Hin as [_ Hx'].
    pose proof (proj1 (Forall_forall _ _) Hx' row Hrin) as Hrl.
    destruct (Hcols row Hrl) as [Hc _].
    exists (map (λ row, Py.slice row x0 (x1 + 1)) (Py.slice sl y0 (y1 + 1))),
           (Py.slice row x0 (x1 + 1)).
    split; [|split].
    + change (map ?f (voxels v)) with (f <$> voxels v).
      by rewrite list_lookup_fmap, Hsl.
    + change (map ?f ?l) with (f <$> l).
      rewrite list_lookup_fmap, Hs, lookup_take_lt, lookup_drop, Hrow by lia.
      done.
    + rewrite Hc, lookup_take_lt, lookup_drop by lia. exact Hxv.
Qed.

End CropMore.

Lemma crop_volume_z_whole_stack_witness :
  well_shaped Samples.volume_3_1_2 ∧
  VolumeCropper.crop_volume_z Samples.volume_3_1_2 (-4) 7
    = mret Samples.volume_3_1_2.
Proof.
  assert (Hwf : well_shaped Samples.volume_3_1_2).
  { split; [reflexivity|]. repeat constructor. }
  split; [exact Hwf|].
  apply (crop_volume_z_whole_stack Samples.volume_3_1_2 (-4) 7 Hwf);
    cbn; lia.
Defined.

Lemma crop_volume_xy_spec_witness :
  well_shaped Samples.volume_3_1_2 ∧
  VolumeCropper.crop_volume_xy Samples.volume_3_1_2
      {| VolumeCropper.x_min := 0; VolumeCropper.x_max := 1;
         VolumeCropper.y_min := 0; VolumeCropper.y_max := 0 |}
    = raise (ValueError "Invalid FOV crop range").
Proof.
  assert (Hwf : well_shaped Samples.volume_3_1_2).
  { split; [reflexivity|]. repeat constructor. }
  split; [exact Hwf|].
  apply (crop_volume_xy_spec Samples.volume_3_1_2 _ Hwf). cbn. lia.
Defined.

(** ** Series assembly: what a successful load guarantees *)

Section ResultFacts.

Lemma result_bind_inv {A B} (m : result A) (k : A → result B) (b : B) :
  m ≫= k = inr b → ∃ a, m = inr a ∧ k a = inr b.
Proof. destruct m as [e|a]; [intros Heq; discriminate Heq|]. eauto. Qed.

Lemma mapM_inv {A B} (f : A → result B) (xs : list A) (ys : list B) :
  Py.mapM f xs = inr ys → Forall2 (λ x y, f x = inr y) xs ys.
Proof.
  revert ys. induction xs as [|x xs IH]; intros ys; cbn.
  - intros [= <-]. constructor.
  - intros Hrun.
    apply result_bind_inv in Hrun as (y & Hy & Hrun).
    apply result_bind_inv in Hrun as (ys' & Hys & Hrun).
    injection Hrun as <-. constructor; [done|by apply IH].
Qed.

Lemma mapM_ok {A B} (f : A → result B) (xs : list A) (ys : list B) :
  Forall2 (λ x y, f x = inr y) xs ys → Py.mapM f xs = inr ys.
Proof.
  induction 1 as [|x y xs ys Hxy _ IH]; cbn; [done|].
  by rewrite Hxy, IH.
Qed.

End ResultFacts.

Section SortFacts.
Context {A : Type} (key : A → Q).

Lemma insert_with_perm (lt : A → A → bool) (x : A) (l : list A) :
  Py.insert_with lt x l ≡ₚ x :: l.
Proof.
  induction l as [|y l IH]; cbn; [done|].
  destruct (lt x y); [done|]. rewrite IH. apply Permutation_swap.
Qed.

Lemma sorted_with_perm (lt : A → A → bool) (l : list A) :
  Py.sorted_with lt l ≡ₚ l.
Proof.
  unfold Py.sorted_with.
  assert (Hgen : ∀ acc, foldl (λ acc x, Py.insert_with lt x acc) acc l
                        ≡ₚ acc ++ l).
  { induction l as [|x l IH]; intros acc; cbn; [by rewrite app_nil_r|].
    rewrite IH, insert_with_perm. cbn. apply Permutation_middle. }
  apply Hgen.
Qed.

Lemma insert_by_ascending (x : A) (l : list A) :
  Py.ascending key l →
  Py.ascending key (Py.insert_with (λ a b, Py.Qlt_bool (key a) (key b)) x l).
Proof.
  induction l as [|y l IH]; cbn; [done|]. intros [Hy Hl].
  destruct (Py.Qlt_bool (key x) (key y)) eqn:E.
  - apply Qlt_bool_true in E. cbn. split; [|done].
    constructor; [by apply Qlt_le_weak|].
    eapply Forall_impl; [exact Hy|]. intros z Hz. cbn in Hz.
    apply Qlt_le_weak. eapply Qlt_le_trans; eauto.
  - apply Qlt_bool_false in E. cbn. split; [|by apply IH].
    rewrite insert_with_perm. by constructor.
Qed.

Lemma sorted_by_ascending (l : list A) : Py.ascending key (Py.sorted_by key l).
Proof.
  unfold Py.sorted_by, Py.sorted_with.
  assert (Hgen : ∀ acc, Py.ascending key acc →
    Py.ascending key (foldl (λ acc x,
      Py.insert_with (λ a b, Py.Qlt_bool (key a) (key b)) x acc) acc l)).
  { induction l as [|x l IH]; intros acc Hacc; cbn; [done|].
    apply IH. by apply insert_by_ascending. }
  by apply Hgen.
Qed.

(** Sorting a list that is already ascending changes nothing. *)
Lemma insert_by_last (x : A) (l : list A) :
  Forall (λ y, (key y <= key x)%Q) l →
  Py.insert_with (λ a b, Py.Qlt_bool (key a) (key b)) x l = l ++ [x].
Proof.
  induction 1 as [|y l Hy _ IH]; cbn; [done|].
  rewrite (proj2 (Qlt_bool_false _ _) Hy). by rewrite IH.
Qed.

Lemma ascending_snoc (l : list A) (x : A) :
  Py.ascending key (l ++ [x]) →
  Py.ascending key l ∧ Forall (λ y, (key y <= key x)%Q) l.
Proof.
  induction l as [|y l IH]; cbn; [done|]. intros [Hy Hl].
  apply Forall_app in Hy as [Hy Hx]. apply Forall_cons in Hx as [Hx _].
  destruct (IH Hl) as [Hl' Hall]. split; [by split|]. constructor; [exact Hx|exact Hall].
Qed.

Lemma sorted_by_fixed (l : list A) :
  Py.ascending key l → Py.sorted_by key l = l.
Proof.
  unfold Py.sorted_by, Py.sorted_with.
  induction l as [|x l IH] using rev_ind; [done|]. intros Hasc.
  destruct (ascending_snoc _ _ Hasc) as [Hl Hall].
  rewrite foldl_app. cbn. rewrite (IH Hl). by apply insert_by_last.
Qed.

Lemma ascending_lookup (l : list A) (i j : nat) (a b : A) :
  Py.ascending key l → (i ≤ j)%nat → l !! i = Some a → l !! j = Some b →
  (key a <= key b)%Q.
Proof.
  revert i j. induction l as [|x l IH]; intros i j; [done|].
  intros [Hx Hl] Hij Hi Hj. destruct i as [|i], j as [|j]; cbn in *.
  - injection Hi as <-. injection Hj as <-. apply Qle_refl.
  - injection Hi as <-. apply list_elem_of_lookup_2 in Hj.
    by apply (proj1 (Forall_forall _ _) Hx).
  - lia.
  - apply (IH i j); [done|lia|done|done].
Qed.

End SortFacts.

Section LoaderMore.
Import DicomLoader.

Lemma ascending_fmap {A B} (key : A → Q) (f : B → A) (l : list B) :
  Py.ascending key (map f l) ↔ Py.ascending (λ x, key (f x)) l.
Proof.
  induction l as [|x l IH]; cbn; [done|]. by rewrite IH, Forall_map.
Qed.

Lemma getitem_ok_inv {A} (xs : list A) (i : Z) (x : A) :
  0 ≤ i → Py.getitem xs i = inr x →
  xs !! Z.to_nat i = Some x ∧ i < Z.of_nat (length xs).
Proof.
  intros Hi. unfold Py.getitem.
  destruct (Z.ltb_spec i 0) as [|_]; [lia|].
  destruct (Z.ltb_spec i 0) as [|_]; [lia|].
  destruct (Z.leb_spec (Z.of_nat (length xs)) i) as [|Hlt]; cbn.
  - intros Heq; discriminate Heq.
  - destruct (xs !! Z.to_nat i) as [y|]; intros Heq; [|discriminate Heq].
    injection Heq as <-. done.
Qed.

Lemma attr_inv {A} (name : string) (field : option A) (x : A) :
  attr name field = inr x → field = Some x.
Proof.
  destruct field as [y|]; cbn; intros Heq; [|discriminate Heq].
  by injection Heq as <-.
Qed.

Lemma broadcast_row_shape (cols : nat) (row out : list Q) :
  broadcast_row cols row = inr out → length out = cols.
Proof.
  unfold broadcast_row. destruct (Nat.eqb_spec (length row) cols) as [Hlen|_].
  - by intros [= <-].
  - destruct row as [|x [|? ?]]; intros Heq; try discriminate Heq.
    injection Heq as <-. by rewrite length_replicate.
Qed.

Lemma broadcast_to_shape (rows cols : nat) (arr out : list (list Q)) :
  broadcast_to rows cols arr = inr out →
  length out = rows ∧ Forall (λ row, length row = cols) out.
Proof.
  unfold broadcast_to. intros Hrun.
  apply result_bind_inv in Hrun as (arr' & Harr & Hrun).
  assert (Hrows : Forall (λ row, length row = cols) arr').
  { apply mapM_inv in Harr. clear Hrun.
    induction Harr as [|r r' ? ? Hr _ IH]; constructor; [|done].
    by apply broadcast_row_shape in Hr. }
  destruct (Nat.eqb_spec (length arr') rows) as [Hlen|_].
  - by injection Hrun as <-.
  - destruct arr' as [|row [|? ?]]; try discriminate Hrun.
    injection Hrun as <-. rewrite length_replicate. split; [done|].
    apply Forall_replicate. by apply Forall_cons in Hrows as [? _].
Qed.

Lemma sort_by_z_inv (ds sorted : list Dataset) :
  sort_by_z ds = inr sorted →
  sorted ≡ₚ ds ∧
  ∃ zs, Forall2 (λ d z, get_z_position d = inr z) sorted zs ∧
        Py.ascending (λ z, z) zs.
Proof.
  unfold sort_by_z. intros Hrun.
  apply result_bind_inv in Hrun as (keys & Hkeys & Hrun).
  injection Hrun as <-. apply mapM_inv in Hkeys.
  set (pairs := zip keys ds).
  assert (Hpairs : Forall (λ p, get_z_position p.2 = inr p.1) pairs).
  { subst pairs. induction Hkeys; cbn; constructor; done. }
  assert (Hsnd : pairs.*2 = ds).
  { subst pairs. apply snd_zip. by rewrite (Forall2_length _ _ _ Hkeys). }
  pose proof (sorted_with_perm (λ a b : Q * Dataset, Py.Qlt_bool a.1 b.1) pairs)
    as Hperm.
  fold (Py.sorted_by (A:=Q * Dataset) fst pairs) in Hperm.
  split.
  - transitivity (pairs.*2); [by apply fmap_Permutation|by rewrite Hsnd].
  - exists (Py.sorted_by fst pairs).*1. split.
    + assert (Hs : Forall (λ p, get_z_position p.2 = inr p.1)
                          (Py.sorted_by fst pairs)) by (by rewrite Hperm).
      clear -Hs. induction Hs; cbn; constructor; done.
    + apply ascending_fmap. apply (sorted_by_ascending fst).
Qed.

(** Everything a successfully loaded series is known to satisfy. *)
Lemma load_dicom_series_ok_inv (path : string) (dir : option Listing)
    (study : Series) :
  load_dicom_series path dir = inr study →
  ∃ listing ref,
    dir = Some listing ∧
    datasets study ≡ₚ omap snd (filter (λ f, is_dcm f.1 = true) listing) ∧
    Forall2 (λ d z, get_z_position d = inr z)
            (datasets study) (z_positions study) ∧
    Py.ascending (λ z, z) (z_positions study) ∧
    (2 ≤ length (datasets study))%nat ∧
    datasets study !! 0%nat = Some ref ∧
    Rows ref = Some (rows study) ∧
    Columns ref = Some (cols study) ∧
    PixelSpacing ref = Some (pixel_spacing study) ∧
    ImageOrientationPatient ref = Some (orientation study) ∧
    ImagePositionPatient ref = Some (origin study) ∧
    0 ≤ rows study ∧ 0 ≤ cols study ∧
    z_size (volume study) = length (datasets study) ∧
    y_size (volume study) = Z.to_nat (rows study) ∧
    x_size (volume study) = Z.to_nat (cols study) ∧
    well_shaped (volume study).
Proof.
  unfold load_dicom_series. destruct dir as [listing|];
    [|intros Heq; discriminate Heq].
  cbv zeta.
  destruct (length (filter _ listing) =? 0)%nat;
    [intros Heq; discriminate Heq|].
  destruct (length (omap snd _) =? 0)%nat;
    [intros Heq; discriminate Heq|].
  intros Hrun.
  apply result_bind_inv in Hrun as (sorted & Hsort & Hrun).
  apply result_bind_inv in Hrun as (zs & Hzs & Hrun).
  apply result_bind_inv in Hrun as (ref & Href & Hrun).
  apply result_bind_inv in Hrun as (r & Hr & Hrun).
  apply result_bind_inv in Hrun as (c & Hc & Hrun).
  apply result_bind_inv in Hrun as (ps & Hps & Hrun).
  apply result_bind_inv in Hrun as (z1 & Hz1 & Hrun).
  apply result_bind_inv in Hrun as (z0 & Hz0 & Hrun).
  apply result_bind_inv in Hrun as (iop & Hiop & Hrun).
  apply result_bind_inv in Hrun as (ipp & Hipp & Hrun).
  destruct (Z.ltb_spec r 0) as [|Hr0]; [discriminate Hrun|].
  destruct (Z.ltb_spec c 0) as [|Hc0]; [discriminate Hrun|].
  cbn [orb] in Hrun.
  apply result_bind_inv in Hrun as (slices & Hslices & Hrun).
  injection Hrun as <-. cbn.
  apply sort_by_z_inv in Hsort as (Hperm & zs' & Hzs' & Hasc).
  assert (zs' = zs) as ->.
  { apply mapM_ok in Hzs'. rewrite Hzs in Hzs'. by injection Hzs'. }
  apply (getitem_ok_inv _ 0) in Href as [Href _]; [|lia].
  apply (getitem_ok_inv _ 1) in Hz1 as [_ Hz1]; [|lia].
  apply attr_inv in Hr, Hc, Hps, Hiop, Hipp.
  apply mapM_inv in Hslices.
  exists listing, ref.
  repeat match goal with |- _ ∧ _ => split end; try done.
  - rewrite (Forall2_length _ _ _ Hzs'). lia.
  - split; cbn; [by rewrite <- (Forall2_length _ _ _ Hslices)|].
    clear -Hslices.
    induction Hslices as [|d sl ? ? Hsl _ IH]; constructor; [|done].
    by apply broadcast_to_shape in Hsl.
Qed.

End LoaderMore.

Section LoaderExtras.
Import DicomLoader.

(** X4.  A series that loads holds exactly the readable [.dcm] datasets
    of the folder, each once, reordered so that the heights ascend;
    [z_positions] lists the height of each dataset in that order; there
    are at least two slices; and the volume is a well-formed stack of
    one [Rows] x [Columns] raster per dataset, the sizes being those of
    the lowest slice. *)
Theorem load_dicom_series_sorted_stack (path : string) (dir : option Listing)
    (study : Series) :
  load_dicom_series path dir = mret study →
  ∃ listing ref,
    dir = Some listing ∧
    datasets study ≡ₚ omap snd (filter (λ f, is_dcm f.1 = true) listing) ∧
    (2 ≤ length (datasets study))%nat ∧
    length (z_positions study) = length (datasets study) ∧
    (∀ i d z, datasets study !! i = Some d → z_positions study !! i = Some z →
              get_z_position d = mret z) ∧
    (∀ i j zi zj, (i ≤ j)%nat →
       z_positions study !! i = Some zi → z_positions study !! j = Some zj →
       (zi <= zj)%Q) ∧
    well_shaped (volume study) ∧
    z_size (volume study) = length (datasets study) ∧
    datasets study !! 0%nat = Some ref ∧
    Rows ref = Some (Z.of_nat (y_size (volume study))) ∧
    Columns ref = Some (Z.of_nat (x_size (volume study))).
Proof.
  intros Hload.
  destruct (load_dicom_series_ok_inv _ _ _ Hload)
    as (listing & ref & -> & Hperm & Hz & Hasc & Hlen & Href & Hrows & Hcols
        & _ & _ & _ & Hr0 & Hc0 & Hzs & Hys & Hxs & Hwf).
  exists listing, ref.
  repeat match goal with |- _ ∧ _ => split end; try done.
  - symmetry. exact (Forall2_length _ _ _ Hz).
  - intros i d z Hd Hzi.
    destruct (Forall2_lookup_l _ _ _ _ _ Hz Hd) as (z' & Hz' & Hget).
    rewrite Hzi in Hz'. by injection Hz' as <-.
  - intros i j zi zj Hij Hi Hj.
    exact (ascending_lookup (λ z, z) _ i j zi zj Hasc Hij Hi Hj).
  - rewrite Hrows, Hys. f_equal. lia.
  - rewrite Hcols, Hxs. f_equal. lia.
Qed.

Lemma load_dicom_series_sorted_stack_witness :
  load_dicom_series "/srv/Datasets/Head/CT/case_001"
      (Some Samples.two_slice_folder) = mret Samples.two_slice_study ∧
  datasets Samples.two_slice_study
    ≡ₚ omap snd (filter (λ f, is_dcm f.1 = true) Samples.two_slice_folder).
Proof.
  assert (Hload : load_dicom_series "/srv/Datasets/Head/CT/case_001"
                    (Some Samples.two_slice_folder)
                  = mret Samples.two_slice_study)
    by (vm_compute; reflexivity).
  split; [exact Hload|].
  destruct (load_dicom_series_sorted_stack _ _ _ Hload)
    as (listing & ref & Hdir & Hperm & _).
  injection Hdir as <-. exact Hperm.
Defined.

Lemma omap_filter_readable (listing : Listing) :
  omap snd (filter (λ f, is_dcm f.1 = true)
              (filter (λ f, is_dcm f.1 = true ∧ is_Some f.2) listing))
  = omap snd (filter (λ f, is_dcm f.1 = true) listing).
Proof.
  induction listing as [|[name ods] listing IH]; [done|].
  rewrite (filter_cons (λ f : string * option Dataset,
                          is_dcm f.1 = true ∧ is_Some f.2) (name, ods) listing).
  rewrite (filter_cons (λ f : string * option Dataset, is_dcm f.1 = true)
             (name, ods) listing).
  cbn [fst snd].
  destruct (decide (is_dcm name = true ∧ is_Some ods)) as [[Hd Hs]|Hn].
  - rewrite (filter_cons (λ f : string * option Dataset, is_dcm f.1 = true)
               (name, ods)).
    cbn [fst snd]. destruct (decide (is_dcm name = true)) as [_|Hd']; [|done].
    destruct Hs as [ds ->]. exact (f_equal (cons ds) IH).
  - etrans; [exact IH|].
    destruct (decide (is_dcm name = true)) as [Hd|Hd]; [|done].
    destruct ods as [ds|]; [|done]. destruct Hn. split; [done|by eexists].
Qed.

(** X5.  The three ways a folder is refused before any slice is
    examined: a missing folder is [FileNotFoundError]; a folder without
    a [.dcm] name is [RuntimeError] naming the folder; a folder whose
    [.dcm] files are all unreadable is [RuntimeError] "No readable DICOM
    files found".  Otherwise files that are not [.dcm] and files that
    do not decode have no influence: the outcome is that of the folder
    without them. *)
Theorem load_dicom_series_refusals_and_skips (path : string)
    (listing : Listing) :
  let named := filter (λ f, is_dcm f.1 = true) listing in
  load_dicom_series path None
    = raise (FileNotFoundError ("CT case folder not found: " +:+ path)) ∧
  (named = [] →
   load_dicom_series path (Some listing)
     = raise (RuntimeError ("No DICOM files found in " +:+ path))) ∧
  (named ≠ [] → omap snd named = [] →
   load_dicom_series path (Some listing)
     = raise (RuntimeError "No readable DICOM files found")) ∧
  (omap snd named ≠ [] →
   load_dicom_series path (Some listing)
     = load_dicom_series path
         (Some (filter (λ f, is_dcm f.1 = true ∧ is_Some f.2) listing))).
Proof.
  intros named. split; [reflexivity|]. split; [|split].
  - intros Hnone. unfold load_dicom_series. fold named. by rewrite Hnone.
  - intros Hsome Hnone. unfold load_dicom_series. fold named.
    destruct named as [|f named']; [done|]. cbn [length Nat.eqb].
    by rewrite Hnone.
  - intros Hread. unfold load_dicom_series. cbv zeta.
    rewrite omap_filter_readable. fold named.
    set (named' := filter (λ f, is_dcm f.1 = true) (filter _ listing)).
    assert (Hn : named ≠ []) by (intros E; by rewrite E in Hread).
    assert (Hn' : named' ≠ []).
    { intros E. apply Hread. subst named named'.
      rewrite <- omap_filter_readable. by rewrite E. }
    destruct named as [|? ?]; [done|]. destruct named' as [|? ?]; [done|].
    reflexivity.
Qed.

End LoaderExtras.

Section PlanOnStudy.
Import DicomLoader PlanningMapper VolumeCropper.

Lemma crop_volume_z_in_range (v : Volume) (a b : nat) :
  well_shaped v → (a ≤ b)%nat → (b < z_size v)%nat →
  ∃ v', crop_volume_z v (Z.of_nat a) (Z.of_nat b) = mret v' ∧
        well_shaped v' ∧
        z_size v' = (b - a + 1)%nat ∧
        y_size v' = y_size v ∧ x_size v' = x_size v ∧
        voxels v' = take (b - a + 1) (drop a (voxels v)).
Proof.
  intros Hwf Hab Hb.
  assert (Hlen : length (voxels v) = z_size v) by apply Hwf.
  unfold crop_volume_z.
  rewrite Z.max_r, Z.min_r by lia.
  destruct (Z.gtb_spec (Z.of_nat a) (Z.of_nat b)) as [Hgt|_]; [lia|].
  eexists. split; [reflexivity|].
  unfold slice_axis0. cbn [voxels z_size y_size x_size].
  rewrite slice_in_range by lia.
  replace (Z.to_nat (Z.of_nat b + 1 - Z.of_nat a)) with (b - a + 1)%nat by lia.
  rewrite Nat2Z.id.
  assert (Hk : length (take (b - a + 1) (drop a (voxels v))) = (b - a + 1)%nat).
  { rewrite length_take, length_drop. lia. }
  repeat split; try done. cbn. by apply well_shaped_take_drop.
Qed.

(** The plan computed for a non-empty ascending list of heights. *)
Lemma generate_planning_geometry_ascending (p0 p1 h : Z) (zs : list Q) :
  0 < h → zs ≠ [] → Py.ascending (λ z, z) zs →
  ∃ plan,
    generate_planning_geometry p0 p1 h zs = mret plan ∧
    slice_start plan
      = Nat.min (find_closest_index zs (z_start_mm plan))
                (find_closest_index zs (z_end_mm plan)) ∧
    slice_end plan
      = Nat.max (find_closest_index zs (z_start_mm plan))
                (find_closest_index zs (z_end_mm plan)).
Proof.
  intros Hh Hne Hasc. unfold generate_planning_geometry.
  destruct zs as [|z0 zs']; [done|].
  cbn [Py.min_key Py.max_key]. 
  unfold map_scout_pixels_to_z_mm.
  destruct (Z.leb_spec h 0) as [|_]; [lia|].
  unfold map_z_mm_to_slice_indices.
  rewrite (sorted_by_fixed (λ z, z) _ Hasc).
  eexists. split; [reflexivity|]. split; reflexivity.
Qed.



End PlanOnStudy.

Section MetadataOnStudy.
Import DicomLoader DicomMetadata.

(** The value [get_window_value] yields for a tag that is absent, single
    or multi-valued with a first entry. *)
Lemma get_window_value_cases (value : option DecimalValue) (default : Q) :
  match value with
  | Some (MultiValue []) =>
      get_window_value value default
        = raise (IndexError "list index out of range")
  | Some (MultiValue (x :: _)) => get_window_value value default = mret x
  | Some (Single x) => get_window_value value default = mret x
  | None => get_window_value value default = mret default
  end.
Proof. by destruct value as [[x|[|x xs]]|]. Qed.

Lemma result_bind_mret {A B} (a : A) (k : A → result B) : mret a ≫= k = k a.
Proof. reflexivity. Qed.

Lemma getitem_lookup {A} (xs : list A) (n : nat) (x : A) :
  xs !! n = Some x → Py.getitem xs (Z.of_nat n) = mret x.
Proof.
  intros Hx. pose proof (lookup_lt_Some _ _ _ Hx) as Hn.
  destruct (getitem_in_range xs (Z.of_nat n)) as (y & Hy & Hy'); [lia|].
  rewrite Nat2Z.id, Hx in Hy'. injection Hy' as <-. exact Hy.
Qed.

(** X7.  The metadata of a study that loaded: reading it can fail in one
    way only, [IndexError] for a window tag of the lowest slice that is
    multi-valued and empty; otherwise it reports the raster size and
    slice count of the loaded volume, the heights of the stack, the gap
    between the two lowest slices as spacing (never negative), and as
    window the tag of the lowest slice, its first entry when it is
    multi-valued, 40 and 400 when the tags are absent. *)
Theorem extract_series_metadata_of_loaded_study (path : string)
    (dir : option Listing) (study : Series) :
  load_dicom_series path dir = mret study →
  ∃ ref z0 z1,
    datasets study !! 0%nat = Some ref ∧
    z_positions study !! 0%nat = Some z0 ∧
    z_positions study !! 1%nat = Some z1 ∧
    let window := λ tag default,
      match tag with
      | None => default
      | Some (Single x) => x
      | Some (MultiValue xs) => nth 0 xs 0%Q
      end in
    let empty := λ tag, tag = Some (MultiValue []) in
    ((empty (WindowCenter ref) ∨ empty (WindowWidth ref)) →
     extract_series_metadata study
       = raise (IndexError "list index out of range")) ∧
    (¬ (empty (WindowCenter ref) ∨ empty (WindowWidth ref)) →
     ∃ meta,
       extract_series_metadata study = mret meta ∧
       Z.to_nat (meta_rows meta) = y_size (volume study) ∧
       Z.to_nat (meta_cols meta) = x_size (volume study) ∧
       meta_num_slices meta = z_size (volume study) ∧
       meta_z_positions meta = z_positions study ∧
       meta_z_spacing meta = Qabs (z1 - z0) ∧
       (meta_z_spacing meta == z1 - z0)%Q ∧
       window_center meta = window (WindowCenter ref) 40%Q ∧
       window_width meta = window (WindowWidth ref) 400%Q).
Proof.
  intros Hload.
  destruct (load_dicom_series_ok_inv _ _ _ Hload)
    as (listing & ref & _ & _ & Hz & Hasc & Hlen & Href & Hrows & Hcols
        & Hps & Hiop & Hipp & Hr0 & Hc0 & Hzs & Hys & Hxs & Hwf).
  assert (Hn : length (z_positions study) = length (datasets study))
    by (symmetry; exact (Forall2_length _ _ _ Hz)).
  destruct (lookup_lt_is_Some_2 (z_positions study) 0) as [z0 Hz0]; [lia|].
  destruct (lookup_lt_is_Some_2 (z_positions study) 1) as [z1 Hz1]; [lia|].
  assert (Hle : (z0 <= z1)%Q).
  { apply (ascending_lookup (λ z, z) _ 0 1 z0 z1 Hasc); [lia|done|done]. }
  exists ref, z0, z1. split; [done|]. split; [done|]. split; [done|].
  intros window empty.
  pose proof (getitem_lookup _ 0 _ Href) as Hg0.
  pose proof (getitem_lookup _ 0 _ Hz0) as Hgz0.
  pose proof (getitem_lookup _ 1 _ Hz1) as Hgz1.
  change (Z.of_nat 0) with 0 in Hg0, Hgz0. change (Z.of_nat 1) with 1 in Hgz1.
  assert (Hlt : (1 <? length (z_positions study))%nat = true).
  { apply Nat.ltb_lt. lia. }
  unfold extract_series_metadata.
  rewrite Hg0, result_bind_mret, Hrows, Hcols, Hps, Hiop, Hipp, Hlt, Hgz1, Hgz0.
  cbn [attr]. rewrite !result_bind_mret.
  pose proof (get_window_value_cases (WindowCenter ref) 40) as Hwc.
  pose proof (get_window_value_cases (WindowWidth ref) 400) as Hww.
  subst window empty. cbv beta. split.
  - intros Hcase.
    destruct (WindowCenter ref) as [[c|[|c cs]]|] eqn:Ec; rewrite Hwc;
      [|reflexivity| |];
      (destruct Hcase as [Hc|Hw]; [discriminate Hc|]);
      rewrite result_bind_mret; rewrite Hw in Hww |- *; by rewrite Hww.
  - intros Hnone.
    destruct (WindowCenter ref) as [[c|[|c cs]]|] eqn:Ec;
      try (destruct Hnone; by left); rewrite Hwc, result_bind_mret;
      (destruct (WindowWidth ref) as [[wd|[|wd wds]]|] eqn:Ew;
       try (destruct Hnone; by right); rewrite Hww, result_bind_mret);
      (eexists; split; [reflexivity|];
       cbn [meta_rows meta_cols meta_num_slices meta_z_positions
            meta_z_spacing window_center window_width nth];
       repeat match goal with |- _ ∧ _ => split end;
       try done; try congruence;
       rewrite Qabs_pos; [reflexivity|lra]).
Qed.

Lemma extract_series_metadata_of_loaded_study_witness :
  load_dicom_series "/srv/Datasets/Head/CT/case_001"
      (Some Samples.two_slice_folder) = mret Samples.two_slice_study ∧
  ∃ meta, extract_series_metadata Samples.two_slice_study = mret meta ∧
          (meta_z_spacing meta == 1)%Q ∧ window_center meta = 40%Q.
Proof.
  assert (Hload : load_dicom_series "/srv/Datasets/Head/CT/case_001"
                    (Some Samples.two_slice_folder)
                  = mret Samples.two_slice_study)
    by (vm_compute; reflexivity).
  split; [exact Hload|].
  destruct (extract_series_metadata_of_loaded_study _ _ _ Hload)
    as (ref & z0 & z1 & Href & Hz0 & Hz1 & _ & Hok).
  injection Href as <-. injection Hz0 as <-. injection Hz1 as <-.
  destruct Hok as (meta & Hmeta & _ & _ & _ & _ & _ & Hsp & Hwc & _).
  { intros [Hc|Hw]; [discriminate Hc|discriminate Hw]. }
  exists meta. split; [exact Hmeta|]. split; [|exact Hwc].
  rewrite Hsp. reflexivity.
Defined.

End MetadataOnStudy.

(** ** The study cache *)

Section StudyCacheFacts.
Import DicomLoader StudyManager.

(** X8.  [get_study] memoises per case id: a failed load stores nothing,
    so the next call reads the folder again; a loaded study is stored
    under its id and from then on returned whatever path or folder
    content the call names; no other id is touched; and after
    [clear_study] the next call reads the folder again. *)
Theorem get_study_memoises (case_id case_path : string)
    (dir : option Listing) (study_cache : gmap string Series) :
  let outcome := get_study case_id case_path dir study_cache in
  (∀ other, other ≠ case_id → outcome.2 !! other = study_cache !! other) ∧
  (∀ e, outcome.1 = inl e →
     outcome.2 = study_cache ∧ study_cache !! case_id = None ∧
     load_dicom_series case_path dir = inl e) ∧
  (∀ study, outcome.1 = mret study →
     outcome.2 !! case_id = Some study ∧
     ∀ case_path' dir',
       get_study case_id case_path' dir' outcome.2 = (mret study, outcome.2)) ∧
  (get_study case_id case_path dir (clear_study case_id outcome.2)).1
    = load_dicom_series case_path dir ∧
  clear_study case_id (clear_study case_id study_cache)
    = clear_study case_id study_cache.
Proof.
  intros outcome. subst outcome. unfold get_study, clear_study.
  destruct (study_cache !! case_id) as [cached|] eqn:Hc; cbn [fst snd].
  - split; [done|]. split; [intros e Heq; discriminate Heq|].
    split; [|split].
    + intros study [= <-]. split; [done|]. intros ? ?. by rewrite Hc.
    + rewrite lookup_delete_eq.
      by destruct (load_dicom_series case_path dir).
    + by rewrite delete_delete_eq.
  - destruct (load_dicom_series case_path dir) as [e|study] eqn:Hl;
      cbn [fst snd].
    + split; [done|]. split; [by intros ? [= <-]|].
      split; [intros ? Heq; discriminate Heq|].
      split; [|by rewrite delete_delete_eq].
      by rewrite lookup_delete_eq.
    + split; [intros other Ho; by rewrite lookup_insert_ne|].
      split; [intros ? Heq; discriminate Heq|].
      split; [|split].
      * intros ? [= <-]. rewrite lookup_insert_eq. split; [done|].
        intros ? ?. done.
      * by rewrite lookup_delete_eq.
      * by rewrite delete_delete_eq.
Qed.

End StudyCacheFacts.

(** ** Mesh files and the mesh routes *)

Section StlMore.
Import StlGenerator.
Context `{Vtk}.

(** What a successful [generate_stl] has done. *)
Lemma generate_stl_ok_inv (vtk_image : Volume) (hu : Z) (name : string)
    (smooth : bool) (smoothing_iterations : Z) (st st' : State)
    (stl_path : string) :
  generate_stl vtk_image hu name smooth smoothing_iterations st
    = (mret stl_path, st') →
  let decimated :=
    vtkDecimatePro (vtkFlyingEdges3D vtk_image (inject_Z hu))
                   (if hu <? 0 then 0.75 else 0.50)%Q in
  let smoothed :=
    if smooth then
      vtkWindowedSincPolyDataFilter decimated
        (if smoothing_iterations >? 10 then smoothing_iterations else 15)
    else decimated in
  stl_path = tempfile_name ("_" +:+ name +:+ ".stl") (temp_files st) ∧
  GetNumberOfPoints (vtkFlyingEdges3D vtk_image (inject_Z hu)) ≠ 0%nat ∧
  st' = {| stl_files :=
             <[stl_path := vtkPolyDataNormals (vtkCleanPolyData smoothed)]>
               (stl_files st);
           temp_files := {[stl_path]} ∪ temp_files st |}.
Proof.
  unfold generate_stl, generate_stl_body.
  destruct (Nat.eqb_spec
              (GetNumberOfPoints (vtkFlyingEdges3D vtk_image (inject_Z hu))) 0)
    as [|Hpts]; [intros Heq; discriminate Heq|].
  intros [= <- <-]. split; [done|]. split; [done|].
  by destruct (hu <? 0).
Qed.

Lemma generate_stl_error_inv (vtk_image : Volume) (hu : Z) (name : string)
    (smooth : bool) (smoothing_iterations : Z) (st st' : State) (e : exn) :
  generate_stl vtk_image hu name smooth smoothing_iterations st = (inl e, st') →
  st' = st ∧
  GetNumberOfPoints (vtkFlyingEdges3D vtk_image (inject_Z hu)) = 0%nat ∧
  e = RuntimeError
        ("Failed to generate STL: No surface found at HU threshold "
         +:+ pretty hu +:+ ". Try adjusting the threshold.").
Proof.
  unfold generate_stl, generate_stl_body.
  destruct (Nat.eqb_spec
              (GetNumberOfPoints (vtkFlyingEdges3D vtk_image (inject_Z hu))) 0)
    as [Hpts|_]; [|by destruct (hu <? 0); intros Heq; discriminate Heq].
  by intros [= <- <-].
Qed.

Lemma cleanup_stl_file_registered (stl_path : string) (mesh : PolyData)
    (st : State) :
  stl_path ∉ dom (stl_files st) →
  cleanup_stl_file stl_path
    {| stl_files := <[stl_path := mesh]> (stl_files st);
       temp_files := {[stl_path]} ∪ temp_files st |}
  = {| stl_files := stl_files st;
       temp_files := temp_files st ∖ {[stl_path]} |}.
Proof.
  intros Hfresh. unfold cleanup_stl_file. cbn [stl_files temp_files].
  rewrite bool_decide_true by set_solver.
  rewrite bool_decide_true by set_solver. cbn [andb].
  f_equal.
  - apply delete_insert_id. by apply not_elem_of_dom.
  - set_solver.
Qed.

(** X9.  A mesh file and its clean-up: the file [generate_stl] returns
    exists afterwards and is registered; [cleanup_stl_file] on it removes
    exactly that file and its registration, so that with a fresh name
    the state is what it was before the mesh was made; a second
    clean-up changes nothing; and a path that is not registered is never
    deleted, whether or not a file of that name exists. *)
Theorem generate_stl_then_cleanup_restores (vtk_image : Volume) (hu : Z)
    (name : string) (smooth : bool) (smoothing_iterations : Z)
    (st st' : State) (stl_path : string) :
  generate_stl vtk_image hu name smooth smoothing_iterations st
    = (mret stl_path, st') →
  stl_path ∉ dom (stl_files st) →
  stl_path ∈ dom (stl_files st') ∧ stl_path ∈ temp_files st' ∧
  (∀ other, other ≠ stl_path →
     stl_files st' !! other = stl_files st !! other) ∧
  stl_files (cleanup_stl_file stl_path st') = stl_files st ∧
  temp_files (cleanup_stl_file stl_path st') = temp_files st ∖ {[stl_path]} ∧
  (stl_path ∉ temp_files st → cleanup_stl_file stl_path st' = st) ∧
  cleanup_stl_file stl_path (cleanup_stl_file stl_path st')
    = cleanup_stl_file stl_path st' ∧
  (∀ other, other ∉ temp_files st' → cleanup_stl_file other st' = st').
Proof.
  intros Hgen Hfresh.
  destruct (generate_stl_ok_inv _ _ _ _ _ _ _ _ Hgen) as (_ & _ & ->).
  rewrite (cleanup_stl_file_registered _ _ _ Hfresh).
  cbn [stl_files temp_files].
  repeat match goal with |- _ ∧ _ => split end.
  - set_solver.
  - set_solver.
  - intros other Ho. by rewrite lookup_insert_ne.
  - done.
  - done.
  - intros Hreg. destruct st as [files temps]. cbn in *. f_equal. set_solver.
  - unfold cleanup_stl_file. cbn [stl_files temp_files].
    rewrite (bool_decide_false (stl_path ∈ dom (stl_files st)) Hfresh). done.
  - intros other Ho. unfold cleanup_stl_file.
    cbn [stl_files temp_files] in Ho |- *.
    rewrite (bool_decide_false _ Ho). by rewrite andb_false_r.
Qed.

(** X10.  [cleanup_temp_files], the exit hook: afterwards no registered
    file exists, in particular none that [generate_stl] has made; every
    file that is not registered is as before; the registry itself is
    left as it is, so the names stay registered; and a second run
    changes nothing. *)
Theorem cleanup_temp_files_removes_registered (st : State) :
  (∀ p, stl_files (cleanup_temp_files st) !! p
        = (if decide (p ∈ temp_files st) then None else stl_files st !! p)) ∧
  temp_files (cleanup_temp_files st) = temp_files st ∧
  cleanup_temp_files (cleanup_temp_files st) = cleanup_temp_files st ∧
  (∀ vtk_image hu name smooth smoothing_iterations st0 stl_path,
     generate_stl vtk_image hu name smooth smoothing_iterations st0
       = (mret stl_path, st) →
     stl_files st !! stl_path ≠ None ∧
     stl_files (cleanup_temp_files st) !! stl_path = None ∧
     stl_path ∈ temp_files (cleanup_temp_files st)).
Proof.
  assert (Hlookup : ∀ st1 p,
    stl_files (cleanup_temp_files st1) !! p
    = (if decide (p ∈ temp_files st1) then None else stl_files st1 !! p)).
  { intros st1 p. unfold cleanup_temp_files. cbn [stl_files temp_files].
    destruct (decide (p ∈ temp_files st1)) as [Hin|Hout].
    - apply map_lookup_filter_None. right. intros mesh _ Hnot.
      by apply Hnot.
    - destruct (stl_files st1 !! p) as [mesh|] eqn:Hp.
      + by apply map_lookup_filter_Some.
      + apply map_lookup_filter_None. by left. }
  split; [apply Hlookup|]. split; [reflexivity|]. split.
  - assert (Hfiles : stl_files (cleanup_temp_files (cleanup_temp_files st))
                     = stl_files (cleanup_temp_files st)).
    { apply map_eq. intros p. rewrite (Hlookup (cleanup_temp_files st) p).
      change (temp_files (cleanup_temp_files st)) with (temp_files st).
      destruct (decide (p ∈ temp_files st)) as [Hin|Hout]; [|done].
      rewrite Hlookup. by rewrite decide_True. }
    transitivity
      {| stl_files := stl_files (cleanup_temp_files (cleanup_temp_files st));
         temp_files := temp_files st |}; [reflexivity|].
    rewrite Hfiles. reflexivity.
  - intros vtk_image hu name smooth smoothing_iterations st0 stl_path Hgen.
    destruct (generate_stl_ok_inv _ _ _ _ _ _ _ _ Hgen) as (_ & _ & Hst).
    assert (Hreg : stl_path ∈ temp_files st)
      by (rewrite Hst; cbn [temp_files]; set_solver).
    split; [|split].
    + rewrite Hst. cbn [stl_files]. by rewrite lookup_insert_eq.
    + rewrite Hlookup. by rewrite decide_True.
    + exact Hreg.
Qed.

End StlMore.

Lemma generate_stl_then_cleanup_restores_witness :
  let empty := {| StlGenerator.stl_files := ∅;
                  StlGenerator.temp_files := ∅ |} in
  let run := @StlGenerator.generate_stl Samples.row_crossing_vtk
               (DicomLoader.volume Samples.two_slice_study) (-100) "skin"
               true 15 empty in
  run.1 = mret "/tmp/tmp0_skin.stl" ∧
  @StlGenerator.cleanup_stl_file Samples.row_crossing_vtk
    "/tmp/tmp0_skin.stl" run.2 = empty.
Proof.
  intros empty run.
  assert (Hpath : run.1 = mret "/tmp/tmp0_skin.stl")
    by (vm_compute; reflexivity).
  assert (Hrun : run = (mret "/tmp/tmp0_skin.stl", run.2)).
  { rewrite <- Hpath. apply surjective_pairing. }
  split; [exact Hpath|].
  refine (proj1 (proj2 (proj2 (proj2 (proj2 (proj2
    (@generate_stl_then_cleanup_restores Samples.row_crossing_vtk
       _ _ _ _ _ empty run.2 _ Hrun _)))))) _).
  - unfold empty. cbn [StlGenerator.stl_files]. rewrite dom_empty.
    apply not_elem_of_empty.
  - unfold empty. cbn [StlGenerator.temp_files]. apply not_elem_of_empty.
Defined.

Section StlRouteFacts.
Import Reconstruction StlGenerator StlRoutes.
Context `{Config} `{Vtk} `{SeriesReader}.

Lemma load_dicom_as_vtk_error_inv (w : World) (p : string) (e : exn) :
  load_dicom_as_vtk w p = inl e →
  (isdir w p = false ∧ e = ValueError ("Invalid DICOM directory: " +:+ p)) ∨
  (isdir w p = true ∧ ∃ msg, e = ValueError msg) ∨
  (isdir w p = true ∧ ∃ msg, e = RuntimeError msg).
Proof.
  unfold load_dicom_as_vtk. destruct (isdir w p); cbn [negb].
  - destruct (path_exists w (abspath p)); cbn [negb].
    + destruct (read_series (abspath p)) as [msg|img];
        intros Heq; [|discriminate Heq].
      injection Heq as <-. right. right. eauto.
    + intros [= <-]. right. left. eauto.
  - intros [= <-]. by left.
Qed.

(** The ways [respond_with_mesh] fails. *)
Lemma respond_with_mesh_error_inv (w : World) (p not_found : string) (hu : Z)
    (name : string) (smooth : bool) (iterations : Z) (filename : string)
    (st st' : State) (e : exn) :
  respond_with_mesh w p not_found hu name smooth iterations filename st
    = (inl e, st') →
  st' = st ∧
  ((path_exists w p = false ∧
    e = HTTPException 500
          ("Unexpected error: " +:+ http_exception_str 404 not_found)) ∨
   (path_exists w p = true ∧ isdir w p = false ∧
    e = HTTPException 400 ("Invalid DICOM directory: " +:+ p)) ∨
   (path_exists w p = true ∧ isdir w p = true ∧
    ∃ detail, e = HTTPException 400 detail ∨ e = HTTPException 500 detail)).
Proof.
  unfold respond_with_mesh.
  destruct (path_exists w p) eqn:Hex; cbn [negb fst snd].
  - destruct (load_dicom_as_vtk w p) as [e0|img] eqn:Hload; cbn [fst snd].
    + intros Heq.
      apply load_dicom_as_vtk_error_inv in Hload
        as [[Hd ->]|[[Hd [msg ->]]|[Hd [msg ->]]]];
        cbn [except_clauses fst snd] in Heq; injection Heq as <- <-;
        (split; [reflexivity|]).
      * right. left. done.
      * right. right. split; [done|]. split; [done|]. eauto.
      * right. right. split; [done|]. split; [done|]. eauto.
    + destruct (generate_stl img hu name smooth iterations st)
        as [[e0|stl_path] st0] eqn:Hgen; cbn [fst snd];
        intros Heq; [|discriminate Heq].
      apply generate_stl_error_inv in Hgen as (-> & _ & ->).
      cbn [except_clauses fst snd] in Heq. injection Heq as <- <-.
      split; [reflexivity|].
      right. right. split; [done|].
      unfold load_dicom_as_vtk in Hload.
      destruct (isdir w p); [|discriminate Hload]. split; [done|]. eauto.
  - intros [= <- <-]. split; [done|]. by left.
Qed.

(** X11.  The three mesh routes never answer 404.  Whatever goes wrong
    is answered with status 400 or 500 and leaves the mesh files and
    their registry as they were; a path that does not exist is answered
    with 500 (the 404 raised for it is caught by the route's own last
    handler); a path that exists but is no directory with 400; and a
    volume without a surface at the threshold with 500. *)
Theorem stl_routes_answer_400_or_500 (w : World) (dreq : DICOMRequest)
    (sreq : STLRequest) (st : State) :
  let routes :=
    [(dicom_path_of dreq, generate_bone_stl w dreq st);
     (dicom_path_of dreq, generate_skin_stl w dreq st);
     (Py.path_join DATA_ROOT (case_id sreq), generate_custom_stl w sreq st)] in
  Forall (λ route,
    let p := route.1 in
    let outcome := route.2 in
    (∀ e, outcome.1 = inl e →
       outcome.2 = st ∧
       ∃ detail, e = HTTPException 400 detail ∨ e = HTTPException 500 detail) ∧
    (path_exists w p = false →
       ∃ detail, outcome = (raise (HTTPException 500 detail), st)) ∧
    (path_exists w p = true → isdir w p = false →
       outcome = (raise (HTTPException 400
                           ("Invalid DICOM directory: " +:+ p)), st))) routes.
Proof.
  intros routes.
  assert (Hgen : ∀ p not_found hu name smooth iterations filename,
    let outcome :=
      respond_with_mesh w p not_found hu name smooth iterations filename st in
    (∀ e, outcome.1 = inl e →
       outcome.2 = st ∧
       ∃ detail, e = HTTPException 400 detail ∨ e = HTTPException 500 detail) ∧
    (path_exists w p = false →
       ∃ detail, outcome = (raise (HTTPException 500 detail), st)) ∧
    (path_exists w p = true → isdir w p = false →
       outcome = (raise (HTTPException 400
                           ("Invalid DICOM directory: " +:+ p)), st))).
  { intros p not_found hu name smooth iterations filename outcome.
    split; [|split].
    - intros e He.
      destruct outcome as [r st'] eqn:Hout. cbn [fst] in He. subst r.
      apply respond_with_mesh_error_inv in Hout
        as (-> & [[_ ->]|[(_ & _ & ->)|(_ & _ & detail & Hd)]]);
        cbn [snd]; split; eauto.
    - intros Hex. subst outcome. unfold respond_with_mesh. rewrite Hex.
      cbn [negb fst snd except_clauses]. eauto.
    - intros Hex Hd. subst outcome. unfold respond_with_mesh, load_dicom_as_vtk.
      rewrite Hex, Hd. reflexivity. }
  subst routes. repeat (apply Forall_cons; split; [apply Hgen|]).
  apply Forall_nil_2.
Qed.

(** X12.  A custom mesh that is served: the file of the response holds
    the surface at the threshold, decimated by 0.75 below 0 HU and by
    0.5 otherwise, smoothed when asked with the requested number of
    iterations if that is above 10 and with 15 otherwise (the route's
    own default of 8 never reaches the filter), cleaned and with
    normals; and once the background task has run the file is gone
    again, the other files being as before the request. *)
Theorem generate_custom_stl_serves_then_cleans (w : World) (req : STLRequest)
    (st st' : State) (response : FileResponse) :
  generate_custom_stl w req st = (mret response, st') →
  path response ∉ dom (stl_files st) →
  ∃ vtk_image,
    load_dicom_as_vtk w (Py.path_join DATA_ROOT (case_id req))
      = mret vtk_image ∧
    filename response = name req +:+ ".stl" ∧
    media_type response = "model/stl" ∧
    (let decimated :=
       vtkDecimatePro (vtkFlyingEdges3D vtk_image (inject_Z (hu_threshold req)))
                      (if hu_threshold req <? 0 then 0.75 else 0.50)%Q in
     let smoothed :=
       if smooth req then
         vtkWindowedSincPolyDataFilter decimated
           (if smoothing_iterations req >? 10 then smoothing_iterations req
            else 15)
       else decimated in
     stl_files st' !! path response
       = Some (vtkPolyDataNormals (vtkCleanPolyData smoothed))) ∧
    stl_files (after_response (mret response, st')) = stl_files st ∧
    (path response ∉ temp_files st →
     after_response (mret response, st') = st).
Proof.
  unfold generate_custom_stl, respond_with_mesh. intros Hrun Hfresh.
  destruct (path_exists w (Py.path_join DATA_ROOT (case_id req)));
    cbn [negb fst snd] in Hrun; [|discriminate Hrun].
  destruct (load_dicom_as_vtk w (Py.path_join DATA_ROOT (case_id req)))
    as [e|vtk_image]; cbn [fst snd] in Hrun.
  { destruct e; discriminate Hrun. }
  destruct (generate_stl vtk_image _ _ _ _ st) as [[e|stl_path] st0] eqn:Hgen;
    cbn [fst snd] in Hrun.
  { destruct e; discriminate Hrun. }
  injection Hrun as <- <-. cbn [path filename media_type] in *.
  exists vtk_image. split; [done|]. split; [done|]. split; [done|].
  destruct (generate_stl_ok_inv _ _ _ _ _ _ _ _ Hgen) as (_ & _ & Hst).
  unfold after_response. cbn [fst snd]. unfold mret, result_ret.
  cbn [path].
  rewrite Hst. rewrite (cleanup_stl_file_registered _ _ _ Hfresh).
  cbn [stl_files temp_files]. split; [|split; [done|]].
  - rewrite lookup_insert_eq. do 3 f_equal.
    destruct (smooth req); [|done]. f_equal.
    destruct (Z.eqb_spec (smoothing_iterations req) 0) as [->|Hne]; done.
  - intros Hreg. clear Hgen Hst. destruct st as [files temps].
    cbn [stl_files temp_files] in *. f_equal. set_solver.
Qed.

End StlRouteFacts.

Lemma generate_custom_stl_serves_then_cleans_witness :
  let empty := {| StlGenerator.stl_files := ∅;
                  StlGenerator.temp_files := ∅ |} in
  let response :=
    {| StlRoutes.path := "/tmp/tmp0_skin.stl";
       StlRoutes.media_type := "model/stl";
       StlRoutes.filename := "skin.stl" |} in
  let run := @StlRoutes.generate_custom_stl Samples.roots
               Samples.row_crossing_vtk Samples.two_slice_reader
               Samples.world_with_case Samples.skin_of_case_001 empty in
  run.1 = mret response ∧
  @StlRoutes.after_response Samples.row_crossing_vtk (mret response, run.2)
    = empty.
Proof.
  intros empty response run.
  assert (Hresp : run.1 = mret response) by (vm_compute; reflexivity).
  assert (Hrun : run = (mret response, run.2)).
  { rewrite <- Hresp. apply surjective_pairing. }
  split; [exact Hresp|].
  destruct (@generate_custom_stl_serves_then_cleans Samples.roots
              Samples.row_crossing_vtk Samples.two_slice_reader
              Samples.world_with_case Samples.skin_of_case_001
              empty run.2 response Hrun)
    as (vtk_image & _ & _ & _ & _ & _ & Hclean).
  { unfold empty, response.
    cbn [StlGenerator.stl_files StlRoutes.path]. rewrite dom_empty.
    apply not_elem_of_empty. }
  apply Hclean. unfold empty, response.
  cbn [StlGenerator.temp_files StlRoutes.path]. apply not_elem_of_empty.
Defined.

(** ** The volume cache as a queue *)

Section CacheQueue.
Import Reconstruction Cine.
Context {config : Config} {pydicom : Pydicom}.

Lemma dict_get_None_keys {A} (d : list (string * A)) (k : string) :
  Py.dict_get k d = None ↔ k ∉ d.*1.
Proof.
  rewrite dict_get_None. rewrite Forall_forall. split.
  - intros Hall Hin. apply list_elem_of_fmap in Hin as ([k' v] & -> & Hin).
    by apply (Hall _ Hin).
  - intros Hout [k' v] Hin Heq. apply Hout. cbn in Heq. subst k'.
    apply list_elem_of_fmap. by exists (k, v).
Qed.

Lemma delete_absent {A} (d : list (string * A)) (k : string) :
  k ∉ d.*1 → filter (λ kv, kv.1 ≠ k) d = d.
Proof.
  induction d as [|[k' v] d IH]; [done|]. cbn [fmap list_fmap fst].
  intros Hout. apply not_elem_of_cons in Hout as [Hne Hout].
  rewrite filter_cons_True by (cbn; congruence). by rewrite IH.
Qed.

(** Storing under a key that is not there, then trimming: the entry goes
    to the end, and beyond three entries the first one leaves. *)
Lemma keep_three_queue (cache : list (string * CacheEntry)) (key : string)
    (entry : CacheEntry) :
  NoDup cache.*1 → key ∉ cache.*1 →
  keep_three (cache ++ [(key, entry)])
  = (if (length cache <? 3)%nat then cache else drop 1 cache)
    ++ [(key, entry)].
Proof.
  intros Hnd Hfresh. unfold keep_three. rewrite length_app. cbn [length].
  destruct (Nat.ltb_spec 3 (length cache + 1)) as [Hfull|Hroom];
    destruct (Nat.ltb_spec (length cache) 3) as [Hlt|Hge]; try lia; [|done].
  destruct cache as [|[k0 v0] rest]; [cbn in Hge; lia|].
  cbn [app drop]. cbn [fmap list_fmap fst] in Hnd, Hfresh.
  apply NoDup_cons in Hnd as [Hk0 _].
  apply not_elem_of_cons in Hfresh as [Hne Hfresh].
  rewrite filter_cons_False by (cbn; tauto).
  apply delete_absent. rewrite fmap_app.
  change ([(key, entry)].*1) with [key].
  rewrite elem_of_app, list_elem_of_singleton.
  intros [?|?]; [done|congruence].
Qed.

Lemma queue_keys_NoDup (cache : list (string * CacheEntry)) (key : string)
    (entry : CacheEntry) :
  NoDup cache.*1 → key ∉ cache.*1 →
  NoDup ((if (length cache <? 3)%nat then cache else drop 1 cache)
         ++ [(key, entry)]).*1.
Proof.
  intros Hnd Hfresh. rewrite fmap_app.
  change ([(key, entry)].*1) with [key].
  apply NoDup_app. destruct (length cache <? 3)%nat.
  - split; [done|]. split; [|apply NoDup_singleton].
    intros k Hk Hin. apply list_elem_of_singleton in Hin. congruence.
  - rewrite fmap_drop.
    split; [exact (sublist_NoDup _ _ Hnd (sublist_drop _ 1))|].
    split; [|apply NoDup_singleton].
    intros k Hk Hin. apply list_elem_of_singleton in Hin. subst k.
    apply Hfresh. exact (elem_of_sublist _ _ _ Hk (sublist_drop _ 1)).
Qed.

(** One request on a cache without double keys. *)
Lemma get_cached_volume_queue (w : World) (case_id : string)
    (use_planning : bool) (recon_id : option string) (st : State) :
  let key := cache_key case_id use_planning recon_id in
  let run := get_cached_volume w case_id use_planning recon_id st in
  NoDup (volume_cache st).*1 →
  NoDup (volume_cache run.2).*1 ∧
  (key ∈ (volume_cache st).*1 → volume_cache run.2 = volume_cache st) ∧
  (∀ e, run.1 = inl e → volume_cache run.2 = volume_cache st) ∧
  (key ∉ (volume_cache st).*1 →
   ∀ entry, run.1 = mret entry →
     volume_cache run.2
     = (if (length (volume_cache st) <? 3)%nat then volume_cache st
        else drop 1 (volume_cache st)) ++ [(key, entry)]).
Proof.
  intros key run Hnd. subst run. unfold get_cached_volume. fold key.
  destruct (Py.dict_get key (volume_cache st)) as [hit|] eqn:Hget.
  - cbn [fst snd]. split; [done|]. split; [done|]. split; [done|].
    intros Hout. apply dict_get_None_keys in Hout. congruence.
  - pose proof (proj1 (dict_get_None_keys _ _) Hget) as Hfresh.
    destruct (load_volume _ _ _ _ _) as [[e|loaded] studies];
      cbn [fst snd volume_cache].
    + split; [done|]. split; [done|]. split; [done|].
      intros _ entry Heq. discriminate Heq.
    + rewrite dict_set_fresh by done.
      rewrite (keep_three_queue _ _ _ Hnd Hfresh).
      split; [by apply queue_keys_NoDup|]. split; [done|].
      split.
      * intros e He. exfalso.
        rewrite <- (keep_three_queue _ _ _ Hnd Hfresh) in He.
        rewrite keep_three_newest in He by done. discriminate He.
      * intros _ entry He.
        rewrite <- (keep_three_queue _ _ _ Hnd Hfresh) in He.
        rewrite keep_three_newest in He by done.
        by injection He as <-.
Qed.

(** X13.  The volume cache is a first-in first-out queue of distinct
    keys.  On a cache without double keys, a request whose key is
    present leaves the order as it is (a hit does not renew an entry); a
    request that fails stores nothing; a request that loads an entry
    appends it, and when three entries were there the one stored first
    leaves, whether or not it was used since.  No key is ever stored
    twice, so the cache of any run of requests from an empty cache has
    distinct keys. *)
Theorem get_cached_volume_is_fifo (w : World) (case_id : string)
    (use_planning : bool) (recon_id : option string) (st : State) :
  let key := cache_key case_id use_planning recon_id in
  let run := get_cached_volume w case_id use_planning recon_id st in
  NoDup (volume_cache st).*1 →
  NoDup (volume_cache run.2).*1 ∧
  (key ∈ (volume_cache st).*1 → volume_cache run.2 = volume_cache st) ∧
  (∀ e, run.1 = inl e → volume_cache run.2 = volume_cache st) ∧
  (key ∉ (volume_cache st).*1 →
   ∀ entry, run.1 = mret entry →
     volume_cache run.2
     = (if (length (volume_cache st) <? 3)%nat then volume_cache st
        else drop 1 (volume_cache st)) ++ [(key, entry)]) ∧
  (∀ requests studies,
     NoDup (volume_cache
              (serve_all requests
                 {| volume_cache := []; study_cache := studies |})).*1).
Proof.
  intros key run Hnd.
  destruct (get_cached_volume_queue w case_id use_planning recon_id st Hnd)
    as (H1 & H2 & H3 & H4).
  repeat match goal with |- _ ∧ _ => split end; try done.
  intros requests studies.
  assert (Hall : ∀ st0, NoDup (volume_cache st0).*1 →
                        NoDup (volume_cache (serve_all requests st0)).*1).
  { induction requests as [|[w0 req] requests IH]; intros st0 Hst0; [done|].
    cbn [serve_all]. apply IH.
    by apply (get_cached_volume_queue w0 (req_case_id req)
                (req_use_planning req) (req_recon_id req) st0). }
  apply Hall. cbn. apply NoDup_nil_2.
Qed.

End CacheQueue.

Lemma get_cached_volume_is_fifo_witness :
  let run :=
    @Cine.get_cached_volume Samples.roots Samples.plain_pydicom
       Samples.world_with_case "Head/CT/case_001" false None
       Samples.empty_caches in
  let raw :=
    {| Cine.entry_volume :=
         {| z_size := 2; y_size := 1; x_size := 2;
            voxels := [[[-1000; 40]]; [[-1000; 40]]]%Q |};
       Cine.wc := 40; Cine.ww := 400 |} in
  run.1 = mret raw ∧
  Cine.volume_cache run.2 = [("Head/CT/case_001_False_none", raw)].
Proof.
  intros run raw.
  assert (Hrun : run.1 = mret raw) by (vm_compute; reflexivity).
  split; [exact Hrun|].
  destruct (@get_cached_volume_is_fifo Samples.roots Samples.plain_pydicom
              Samples.world_with_case "Head/CT/case_001" false None
              Samples.empty_caches (NoDup_nil_2 (A:=string)))
    as (_ & _ & _ & Hqueue & _).
  apply (Hqueue (not_elem_of_nil _) raw Hrun).
Defined.

(** ** Frames *)

Section FrameFacts.
Import HuUtils CineGenerator.
Context {codec : ImageCodec}.

Lemma mapM_total {A B} (f : A → result B) (g : A → B) (xs : list A) :
  (∀ x, f x = mret (g x)) → Py.mapM f xs = mret (map g xs).
Proof.
  intros Hf. induction xs as [|x xs IH]; [done|].
  cbn [Py.mapM map]. by rewrite Hf, IH.
Qed.

Lemma apply_window_ok (img : list (list Q)) (c w : Q) :
  (0 < w)%Q →
  apply_window img c w = mret (map (map (window_pixel c w)) img).
Proof.
  intros Hw. unfold apply_window.
  by rewrite (proj2 (Qle_bool_false w 0) Hw).
Qed.

(** The cine of a positive width: the frame of every slice, in order. *)
Lemma generate_cine_frames_ok (volume : Volume)
    (window_center window_width : Q) (fps : Z) :
  (0 < window_width)%Q →
  let frame := λ i : nat,
    array_to_base64_png
      (map (map (window_pixel window_center window_width))
           (nth i (voxels volume) [])) in
  generate_cine_frames volume window_center window_width fps
    = mret {| frames := map frame (Py.range (z_size volume));
              fps := fps; num_frames := z_size volume |} ∧
  ∀ i, (i < z_size volume)%nat →
    nth i (map frame (Py.range (z_size volume))) "" = frame i.
Proof.
  intros Hw frame. split.
  - assert (Hframes :
      Py.mapM (λ slice_idx,
                 windowed ← apply_window (nth slice_idx (voxels volume) [])
                               window_center window_width;
                 mret (array_to_base64_png windowed))
              (Py.range (z_size volume))
      = mret (map frame (Py.range (z_size volume)))).
    { apply mapM_total. intros i. by rewrite apply_window_ok. }
    unfold generate_cine_frames. rewrite Hframes, result_bind_mret.
    rewrite length_map.
    replace (length (Py.range (z_size volume))) with (z_size volume)
      by (unfold Py.range; by rewrite length_seq).
    reflexivity.
  - intros i Hi.
    unfold Py.range.
    rewrite (nth_indep _ "" (frame 0%nat))
      by (rewrite length_map, length_seq; done).
    rewrite (map_nth frame). by rewrite seq_nth by done.
Qed.

(** X14.  [generate_cine_frames] yields one frame per slice, in slice
    order, each the frame [generate_single_frame] makes of that slice,
    and reports that count; with a width that is not positive it raises
    the [ValueError] of the window as soon as there is a slice, while a
    volume of no slice yields an empty cine whatever the width. *)
Theorem generate_cine_frames_one_per_slice (volume : Volume)
    (window_center window_width : Q) (fps : Z) :
  ((0 < window_width)%Q →
   ∃ cine,
     generate_cine_frames volume window_center window_width fps = mret cine ∧
     CineGenerator.fps cine = fps ∧
     num_frames cine = z_size volume ∧
     length (frames cine) = z_size volume ∧
     ∀ i, (i < z_size volume)%nat →
       generate_single_frame (nth i (voxels volume) [])
                             window_center window_width
         = mret (nth i (frames cine) "")) ∧
  ((window_width <= 0)%Q → (0 < z_size volume)%nat →
   generate_cine_frames volume window_center window_width fps
     = raise (ValueError "Window width must be > 0")) ∧
  (z_size volume = 0%nat →
   generate_cine_frames volume window_center window_width fps
     = mret {| frames := []; fps := fps; num_frames := 0 |}).
Proof.
  split; [|split].
  - intros Hw.
    destruct (generate_cine_frames_ok volume window_center window_width fps Hw)
      as [Hcine Hnth].
    eexists. split; [exact Hcine|].
    cbn [CineGenerator.fps num_frames frames].
    rewrite length_map. unfold Py.range at 1. rewrite length_seq.
    repeat split.
    intros i Hi. unfold generate_single_frame.
    rewrite apply_window_ok by done. rewrite result_bind_mret.
    by rewrite (Hnth i Hi).
  - intros Hw Hz. unfold generate_cine_frames, Py.range.
    destruct (z_size volume) as [|n]; [lia|]. cbn [seq Py.mapM].
    by rewrite window_guard_fails.
  - intros Hz. unfold generate_cine_frames, Py.range. rewrite Hz.
    reflexivity.
Qed.

End FrameFacts.

Section SliceRoute.
Import Reconstruction Cine HuUtils CineGenerator CineRoutes.
Context {config : Config} {pydicom : Pydicom} {codec : ImageCodec}.

Lemma index_axis0_cases (volume : Volume) (i : Z) :
  let n := Z.of_nat (z_size volume) in
  (i < - n ∨ n ≤ i →
   index_axis0 volume i
     = raise (IndexError ("index " +:+ pretty i
                          +:+ " is out of bounds for axis 0 with size "
                          +:+ pretty n))) ∧
  (0 ≤ i < n →
   index_axis0 volume i = mret (nth (Z.to_nat i) (voxels volume) [])) ∧
  (- n ≤ i < 0 →
   index_axis0 volume i = mret (nth (Z.to_nat (i + n)) (voxels volume) [])).
Proof.
  intros n. unfold index_axis0. fold n.
  destruct (Z.ltb_spec i (- n)); destruct (Z.leb_spec n i);
    destruct (Z.ltb_spec i 0); cbn [orb];
    (split; [|split]); intros; try lia; done.
Qed.

(** X15.  [get_single_slice] on a volume of [n] slices that the cache
    serves: an index of [n] or more, or below [-n], raises [IndexError]
    (the slice is read before the index is clamped, so no index past the
    end is ever clamped to the last slice); an index from [-n] to [-1]
    is answered with slice 0; an index from 0 to [n - 1] with that
    slice.  The window is the override when one is given, else the one
    cached with the volume; a width that is not positive raises
    [ValueError], as does a volume whose slices have no pixel.  The
    state is the one the cache lookup leaves.  [get_cine] on the same
    request answers with one frame per slice at 10 frames per second,
    its frame [i] being the frame [get_single_slice] shows for index
    [i]. *)
Theorem get_single_slice_index_handling (w : World) (case_id : string)
    (slice_index : Z) (use_planning : bool) (recon_id : option string)
    (window_center window_width : option Q) (st st' : State)
    (cached : CacheEntry) :
  get_cached_volume w case_id use_planning recon_id st = (mret cached, st') →
  let volume := entry_volume cached in
  let n := Z.of_nat (z_size volume) in
  let final_wc := default (wc cached) window_center in
  let final_ww := default (ww cached) window_width in
  let run := get_single_slice w case_id slice_index use_planning recon_id
               window_center window_width st in
  run.2 = st' ∧
  (slice_index < - n ∨ n ≤ slice_index →
   ∃ msg, run.1 = raise (IndexError msg)) ∧
  (- n ≤ slice_index < n → (y_size volume * x_size volume = 0)%nat →
   ∃ msg, run.1 = raise (ValueError msg)) ∧
  (- n ≤ slice_index < n → (0 < y_size volume * x_size volume)%nat →
   (final_ww <= 0)%Q →
   run.1 = raise (ValueError "Window width must be > 0")) ∧
  (- n ≤ slice_index < n → (0 < y_size volume * x_size volume)%nat →
   (0 < final_ww)%Q →
   run.1 = mret
     {| resp_frame :=
          array_to_base64_png
            (map (map (window_pixel final_wc final_ww))
                 (nth (Z.to_nat (Z.max 0 slice_index)) (voxels volume) []));
        resp_slice_index := Z.max 0 slice_index;
        resp_total_slices := z_size volume;
        resp_window_center := final_wc;
        resp_window_width := final_ww |}) ∧
  ((0 < final_ww)%Q →
   ∃ cine,
     get_cine w case_id use_planning recon_id window_center window_width st
       = (mret cine, st') ∧
     CineGenerator.fps cine = 10 ∧
     num_frames cine = z_size volume ∧
     ∀ i, (i < z_size volume)%nat →
       nth i (frames cine) ""
       = array_to_base64_png
           (map (map (window_pixel final_wc final_ww))
                (nth i (voxels volume) []))).
Proof.
  intros Hcached volume n final_wc final_ww run.
  subst run. unfold get_single_slice.
  change (mret cached) with (inr cached : result CacheEntry) in Hcached.
  rewrite Hcached. cbv zeta. cbn [fst snd]. fold volume. fold n. fold final_wc. fold final_ww.
  destruct (index_axis0_cases volume slice_index) as (Hout & Hin & Hneg).
  fold n in Hout, Hin, Hneg.
  assert (Hread : - n ≤ slice_index < n →
                  ∃ slice_data, index_axis0 volume slice_index = mret slice_data).
  { intros Hr. destruct (Z.lt_ge_cases slice_index 0).
    - rewrite Hneg by lia. eauto.
    - rewrite Hin by lia. eauto. }
  assert (Hclamped : - n ≤ slice_index < n →
    index_axis0 volume (Z.max 0 (Z.min slice_index (n - 1)))
    = mret (nth (Z.to_nat (Z.max 0 slice_index)) (voxels volume) []) ∧
    Z.max 0 (Z.min slice_index (n - 1)) = Z.max 0 slice_index).
  { intros Hr.
    assert (E : Z.max 0 (Z.min slice_index (n - 1)) = Z.max 0 slice_index)
      by lia.
    rewrite E. split; [|done].
    destruct (index_axis0_cases volume (Z.max 0 slice_index)) as (_ & Hok & _).
    apply Hok. fold n. lia. }
  split; [done|].
  repeat match goal with |- _ ∧ _ => split end.
  - intros Hr. rewrite (Hout Hr). eauto.
  - intros Hr Hsize. destruct (Hread Hr) as [slice_data ->].
    rewrite result_bind_mret. unfold check_reducible.
    destruct (Nat.eqb_spec (z_size volume * y_size volume * x_size volume) 0)
      as [_|Hne]; [eauto|].
    rewrite Hsize. eauto.
  - intros Hr Hsize Hw. destruct (Hread Hr) as [slice_data ->].
    rewrite result_bind_mret. unfold check_reducible.
    destruct (Nat.eqb_spec (z_size volume * y_size volume * x_size volume) 0)
      as [Hz|_]; [subst n; nia|].
    destruct (Nat.eqb_spec (y_size volume * x_size volume) 0)
      as [Hz|_]; [lia|].
    destruct (Hclamped Hr) as [-> _].
    cbn [mbind result_bind mret result_ret]. unfold generate_single_frame.
    by rewrite window_guard_fails.
  - intros Hr Hsize Hw. destruct (Hread Hr) as [slice_data ->].
    rewrite result_bind_mret. unfold check_reducible.
    destruct (Nat.eqb_spec (z_size volume * y_size volume * x_size volume) 0)
      as [Hz|_]; [subst n; nia|].
    destruct (Nat.eqb_spec (y_size volume * x_size volume) 0)
      as [Hz|_]; [lia|].
    destruct (Hclamped Hr) as [-> ->].
    cbn [mbind result_bind mret result_ret]. unfold generate_single_frame.
    by rewrite apply_window_ok.
  - intros Hw. unfold get_cine. rewrite Hcached. cbv zeta.
    fold volume. fold final_wc. fold final_ww.
    destruct (generate_cine_frames_ok volume final_wc final_ww 10 Hw)
      as [Hcine Hnth].
    eexists. split; [by rewrite Hcine|].
    cbn [CineGenerator.fps num_frames frames]. repeat split. exact Hnth.
Qed.

End SliceRoute.

Lemma get_single_slice_index_handling_witness :
  let served :=
    @Cine.get_cached_volume Samples.roots Samples.plain_pydicom
       Samples.world_with_case "Head/CT/case_001" false None
       Samples.empty_caches in
  let raw :=
    {| Cine.entry_volume :=
         {| z_size := 2; y_size := 1; x_size := 2;
            voxels := [[[-1000; 40]]; [[-1000; 40]]]%Q |};
       Cine.wc := 40; Cine.ww := 400 |} in
  served.1 = mret raw ∧
  ∃ msg,
    (@CineRoutes.get_single_slice Samples.roots Samples.plain_pydicom
       Samples.height_codec Samples.world_with_case "Head/CT/case_001" 2
       false None None None Samples.empty_caches).1
    = raise (IndexError msg).
Proof.
  intros served raw.
  assert (Hserved : served.1 = mret raw) by (vm_compute; reflexivity).
  assert (Hpair : served = (mret raw, served.2)).
  { rewrite <- Hserved. apply surjective_pairing. }
  split; [exact Hserved|].
  destruct (@get_single_slice_index_handling Samples.roots
              Samples.plain_pydicom Samples.height_codec
              Samples.world_with_case "Head/CT/case_001" 2 false None
              None None Samples.empty_caches served.2 raw Hpair)
    as (_ & Hout & _).
  apply Hout. right. cbn. lia.
Defined.

(** ** Resampling and kernels *)

Section ResampleMore.
Import Reconstruction.
Context {config : Config} {interpreter : Interpreter} {sitk : Sitk}.

Lemma truediv_zero (a b : Q) :
  (b == 0)%Q → Py.truediv a b = raise ZeroDivisionError.
Proof.
  intros Hb. unfold Py.truediv.
  by rewrite (proj2 (Qeq_bool_iff b 0) Hb).
Qed.

Lemma int_of_float_floor_bounds (x : Q) :
  (0 <= x)%Q →
  0 ≤ Py.int_of_float x ∧
  (inject_Z (Py.int_of_float x) <= x)%Q ∧
  (x < inject_Z (Py.int_of_float x) + 1)%Q.
Proof.
  intros Hx. unfold Py.int_of_float.
  rewrite (proj2 (Qle_bool_iff 0 x) Hx).
  split; [|split].
  - change 0 with (Qfloor 0). by apply Qfloor_resp_le.
  - apply Qfloor_le.
  - pose proof (Qlt_floor x) as Hlt.
    rewrite inject_Z_plus in Hlt. exact Hlt.
Qed.


End ResampleMore.


Section KernelFacts.
Import Reconstruction.
Context {config : Config} {interpreter : Interpreter} {sitk : Sitk}.

Lemma lower_char_idempotent (c : Ascii.ascii) :
  Py.lower_char (Py.lower_char c) = Py.lower_char c.
Proof.
  destruct c as [[] [] [] [] [] [] [] []]; vm_compute; reflexivity.
Qed.

Lemma lower_idempotent (s : string) : Py.lower (Py.lower s) = Py.lower s.
Proof.
  induction s as [|c s IH]; [done|]. cbn [Py.lower].
  by rewrite lower_char_idempotent, IH.
Qed.

Lemma string_app_inv_head (s a b : string) : s +:+ a = s +:+ b → a = b.
Proof.
  induction s as [|c s IH]; [done|]. cbn. intros [= Heq]. by apply IH.
Qed.

(** X17.  The kernel name is matched without regard to case and an
    unknown name leaves the image as it is, while the reconstruction id,
    under which the result is stored and found again, keeps the name as
    it was sent: two spellings of one kernel give the same image under
    two ids. *)
Theorem apply_kernel_ignores_case_recon_id_does_not :
  (∀ image kernel,
     apply_kernel image kernel = apply_kernel image (Py.lower kernel)) ∧
  (∀ image kernel,
     Py.lower kernel ∉ ["soft"; "abdomen"; "bone"; "lung"] →
     apply_kernel image kernel = image) ∧
  (∀ thickness kernel1 kernel2,
     recon_id_of thickness kernel1 = recon_id_of thickness kernel2 →
     kernel1 = kernel2).
Proof.
  split; [|split].
  - intros image kernel. unfold apply_kernel. cbv zeta.
    by rewrite lower_idempotent.
  - intros image kernel Hnot. unfold apply_kernel. cbv zeta.
    repeat match goal with
    | |- context [String.eqb ?a ?b] =>
        destruct (String.eqb_spec a b) as [Heq|_];
        [exfalso; apply Hnot; rewrite Heq; set_solver|]
    end.
    reflexivity.
  - intros thickness kernel1 kernel2. unfold recon_id_of. intros Heq.
    apply string_app_inv_head in Heq.
    apply string_app_inv_head in Heq.
    by apply string_app_inv_head in Heq.
Qed.

End KernelFacts.

(** ** Saving and reading a plan *)

Section PlanningRouteFacts.
Import Reconstruction PlanningMapper PlanningRoutes.
Context {config : Config}.

Lemma path_exists_plan (w : World) (path : string) :
  is_Some (plan_files w !! path) → path_exists w path = true.
Proof.
  intros Hplan. unfold path_exists.
  rewrite (bool_decide_true (path ∈ dom (plan_files w)))
    by (by apply elem_of_dom).
  by rewrite orb_true_r.
Qed.

Lemma generate_planning_geometry_ok_inv (z_pixel_start z_pixel_end h : Z)
    (zs : list Q) (plan : Plan) :
  generate_planning_geometry z_pixel_start z_pixel_end h zs = mret plan →
  (slice_start plan ≤ slice_end plan)%nat ∧ (slice_end plan < length zs)%nat.
Proof.
  unfold generate_planning_geometry. intros Hrun.
  destruct zs as [|z0 zs']; [discriminate Hrun|].
  cbn [Py.min_key Py.max_key] in Hrun. rewrite !result_bind_mret in Hrun.
  unfold map_scout_pixels_to_z_mm in Hrun.
  destruct (h <=? 0); [discriminate Hrun|].
  rewrite result_bind_mret in Hrun.
  unfold map_z_mm_to_slice_indices in Hrun.
  rewrite result_bind_mret in Hrun. injection Hrun as <-.
  cbn [slice_start slice_end].
  set (sorted := Py.sorted_by (λ z, z) (z0 :: zs')).
  assert (Hlen : length sorted = length (z0 :: zs'))
    by apply sorted_by_length.
  assert (Hne : sorted ≠ []).
  { intros E. rewrite E in Hlen. discriminate Hlen. }
  split; [lia|]. rewrite <- Hlen.
  pose proof (find_closest_index_nearest sorted) as Hnear.
  match goal with
  | |- (Nat.max (find_closest_index _ ?a) (find_closest_index _ ?b) < _)%nat =>
      destruct (Hnear a Hne) as [Ha _]; destruct (Hnear b Hne) as [Hb _]
  end.
  lia.
Qed.

(** X18.  A plan that [save_planning] answers with is the plan
    [get_planning] reads afterwards, under the case id of the request
    and under every case id that differs from it only in [/] against
    [_] (both name one file).  The plan carries the field of view of the
    request and two slice indices, in order, inside the stack of the
    study the planner was given.  No other plan file changes, nor any
    case folder or reconstruction.  For a case without a plan file
    [get_planning] raises [TypeError]: it never answers 404. *)
Theorem save_planning_then_get_planning (req : PlanningRequest) (w w' : World)
    (studies studies' : gmap string DicomLoader.Series) (plan : PlanFile) :
  save_planning req w studies = (mret plan, w', studies') →
  (∀ case_id,
     safe_case_id_of case_id = safe_case_id_of (req_case_id req) →
     get_planning case_id w' = mret plan) ∧
  plan_fov plan = Some (req_fov req) ∧
  (∃ study,
     (StudyManager.get_study (req_case_id req)
        (Py.path_join DATA_ROOT (req_case_id req))
        (case_dirs w !! Py.path_join DATA_ROOT (req_case_id req)) studies).1
       = mret study ∧
     0 ≤ plan_slice_start plan ≤ plan_slice_end plan ∧
     plan_slice_end plan
       < Z.of_nat (length (DicomLoader.z_positions study))) ∧
  (∀ path, path ≠ plan_path_of (req_case_id req) →
           plan_files w' !! path = plan_files w !! path) ∧
  case_dirs w' = case_dirs w ∧ nii_files w' = nii_files w ∧
  series_dirs w' = series_dirs w ∧
  (∀ case_id w0,
     path_exists w0 (plan_path_of case_id) = false →
     get_planning case_id w0
       = raise (TypeError "HTTPException() takes no keyword arguments")).
Proof.
  unfold save_planning. intros Hrun.
  destruct (StudyManager.get_study _ _ _ studies) as [[e|study] studies0];
    [discriminate Hrun|].
  destruct (generate_planning_geometry _ _ _ _) as [e|geometry] eqn:Hgeo;
    [discriminate Hrun|].
  cbv zeta in Hrun. injection Hrun as <- <- <-.
  apply generate_planning_geometry_ok_inv in Hgeo as [Hord Hin].
  repeat match goal with |- _ ∧ _ => split end.
  - intros case_id Hsame.
    assert (Hpath : plan_path_of case_id = plan_path_of (req_case_id req))
      by (unfold plan_path_of; by rewrite Hsame).
    unfold get_planning. cbv zeta. rewrite Hpath.
    assert (Hfile : ∀ w0,
              plan_files
                (write_plan (plan_path_of (req_case_id req))
                   (plan_file_of geometry (req_fov req)) w0)
                !! plan_path_of (req_case_id req)
              = Some (plan_file_of geometry (req_fov req))).
    { intros w0. unfold write_plan. cbn [plan_files].
      apply lookup_insert_eq. }
    rewrite path_exists_plan by (rewrite Hfile; eauto).
    cbn [negb]. by rewrite Hfile.
  - reflexivity.
  - exists study. split; [reflexivity|].
    unfold plan_file_of. cbn [plan_slice_start plan_slice_end]. lia.
  - intros path Hpath. unfold write_plan. cbn [plan_files makedirs snd].
    by rewrite lookup_insert_ne.
  - reflexivity.
  - reflexivity.
  - reflexivity.
  - intros case_id w0 Hmissing. unfold get_planning. by rewrite Hmissing.
Qed.

End PlanningRouteFacts.

Lemma save_planning_then_get_planning_witness :
  let req :=
    {| PlanningRoutes.req_case_id := "Head/CT/case_001";
       PlanningRoutes.req_z_pixel_start := 0;
       PlanningRoutes.req_z_pixel_end := 512;
       PlanningRoutes.req_scout_height_px := 512;
       PlanningRoutes.req_fov :=
         {| VolumeCropper.x_min := 0; VolumeCropper.x_max := 1;
            VolumeCropper.y_min := 0; VolumeCropper.y_max := 0 |} |} in
  let run := @PlanningRoutes.save_planning Samples.roots req
               Samples.world_with_case ∅ in
  ∃ plan,
    run.1.1 = mret plan ∧
    @PlanningRoutes.get_planning Samples.roots "Head_CT_case_001" run.1.2
      = mret plan.
Proof.
  intros req run.
  assert (Hplan : ∃ plan, run.1.1 = mret plan).
  { vm_compute. eexists. reflexivity. }
  destruct Hplan as [plan Hplan]. exists plan. split; [exact Hplan|].
  assert (Hrun : run = (mret plan, run.1.2, run.2)).
  { rewrite <- Hplan. by destruct run as [[? ?] ?]. }
  destruct (@save_planning_then_get_planning Samples.roots req
              Samples.world_with_case run.1.2 ∅ run.2 plan Hrun)
    as (Hget & _).
  apply Hget. vm_compute. reflexivity.
Defined.

(** ** Requests that cannot be served *)

Section RequestErrors.
Import Reconstruction.
Context {config : Config} {interpreter : Interpreter} {sitk : Sitk}.

Lemma string_app_fixed (a b : string) : a +:+ b = a → b = "".
Proof.
  induction a as [|c a IH]; [done|]. cbn. intros [= Heq]. by apply IH.
Qed.

Lemma output_path_is_not_recon_dir (case_id : string) (thickness : Number)
    (kernel : string) :
  output_path_of case_id thickness kernel ≠ recon_dir_of case_id.
Proof.
  unfold output_path_of, recon_id_of, Py.path_join at 1.
  cbn [String.prefix String.append].
  destruct (_ || _); intros Heq; apply string_app_fixed in Heq;
    discriminate Heq.
Qed.

Lemma path_exists_makedirs_other (w : World) (dir path : string) :
  path ≠ dir → path_exists (makedirs dir w).2 path = path_exists w path.
Proof.
  intros Hne. unfold path_exists, makedirs.
  cbn [snd nii_files plan_files series_dirs case_dirs dirs].
  do 4 f_equal. apply bool_decide_ext. set_solver.
Qed.


End RequestErrors.

(** ** Plans: refusals and symmetry *)

Section PlanningMore.
Import PlanningMapper.


End PlanningMore.

(** ** Reformatted slices *)

Section MprMore.
Import HuUtils MprGenerator.
Context {codec : ImageCodec}.

Lemma nth_lookup_Some {A} (l : list A) (i : nat) (d x : A) :
  l !! i = Some x → nth i l d = x.
Proof.
  revert i. induction l as [|y l IH]; intros [|i]; cbn; try done.
  - by intros [= ->].
  - apply IH.
Qed.

(** X21.  The rasters [generate_mpr_slice] encodes, for a well-formed
    volume of [Z x Y x X] voxels, a positive window width and an index
    inside the axis.  Axial [i] is slice [i], windowed.  Sagittal [i]
    has [Z] rows, row [r] being row [i] of slice [Z - 1 - r]; coronal
    [i] has [Z] rows, row [r] holding column [i] of slice [Z - 1 - r]:
    both show the top slice of the stack first. *)
Theorem generate_mpr_slice_rasters (volume : Volume) (i : nat) (c w : Q) :
  well_shaped volume → (0 < w)%Q →
  let voxel := λ z y x, Py.pixel (nth z (voxels volume) []) y x in
  let shows := λ orientation raster,
    generate_mpr_slice volume orientation (Z.of_nat i) c w
      = mret (array_to_base64_png raster) in
  ((i < z_size volume)%nat →
   ∃ raster, shows "axial" raster ∧
     length raster = y_size volume ∧
     ∀ y x, Py.pixel raster y x = window_pixel c w <$> voxel i y x) ∧
  ((i < y_size volume)%nat →
   ∃ raster, shows "sagittal" raster ∧
     length raster = z_size volume ∧
     ∀ r x, (r < z_size volume)%nat →
       Py.pixel raster r x
         = window_pixel c w <$> voxel (z_size volume - 1 - r)%nat i x) ∧
  ((i < x_size volume)%nat →
   ∃ raster, shows "coronal" raster ∧
     length raster = z_size volume ∧
     ∀ r y, (r < z_size volume)%nat →
       Py.pixel raster r y
         = window_pixel c w <$> voxel (z_size volume - 1 - r)%nat y i).
Proof.
  intros [Hlen Hshape] Hw voxel shows. subst voxel shows. cbv beta.
  assert (Hguard : ∀ n, (i < n)%nat →
            (Z.of_nat i <? 0) || (Z.of_nat n <=? Z.of_nat i) = false).
  { intros n Hn. destruct (Z.ltb_spec (Z.of_nat i) 0); [lia|].
    destruct (Z.leb_spec (Z.of_nat n) (Z.of_nat i)); [lia|done]. }
  assert (Hslice : ∀ z, (z < z_size volume)%nat →
            ∃ sl, voxels volume !! z = Some sl ∧
                  nth z (voxels volume) [] = sl ∧
                  length sl = y_size volume ∧
                  Forall (λ row, length row = x_size volume) sl).
  { intros z Hz.
    destruct (lookup_lt_is_Some_2 (voxels volume) z) as [sl Hsl]; [lia|].
    exists sl. split; [done|]. split; [by apply nth_lookup_Some|].
    exact (proj1 (Forall_lookup _ _) Hshape z sl Hsl). }
  split; [|split].
  - intros Hi. unfold generate_mpr_slice.
    change (String.eqb "axial" "axial") with true. cbv iota.
    rewrite (Hguard _ Hi), result_bind_mret, Nat2Z.id.
    rewrite apply_window_ok by done. rewrite result_bind_mret.
    eexists. split; [reflexivity|]. unfold take_axial.
    destruct (Hslice i Hi) as (sl & _ & -> & Hy & _).
    split; [by rewrite length_map|]. intros y x. apply pixel_map.
  - intros Hi. unfold generate_mpr_slice.
    change (String.eqb "sagittal" "axial") with false.
    change (String.eqb "sagittal" "sagittal") with true. cbv iota.
    rewrite (Hguard _ Hi), result_bind_mret, Nat2Z.id.
    rewrite apply_window_ok by done. rewrite result_bind_mret.
    eexists. split; [reflexivity|]. unfold flipud, take_sagittal.
    split; [by rewrite length_map, length_reverse, length_map|].
    intros r x Hr. rewrite pixel_map. f_equal. unfold Py.pixel at 1.
    rewrite reverse_lookup by (rewrite length_map; lia).
    rewrite length_map, Hlen.
    replace (z_size volume - S r)%nat with (z_size volume - 1 - r)%nat by lia.
    destruct (Hslice (z_size volume - 1 - r)%nat) as (sl & Hsl & -> & Hy & _);
      [lia|].
    change (map (λ sl0, nth i sl0 []) (voxels volume))
      with ((λ sl0, nth i sl0 []) <$> voxels volume).
    rewrite list_lookup_fmap, Hsl. cbn [fmap option_fmap option_map].
    unfold Py.pixel.
    destruct (lookup_lt_is_Some_2 sl i) as [row Hrow]; [lia|].
    by rewrite Hrow, (nth_lookup_Some _ _ _ _ Hrow).
  - intros Hi. unfold generate_mpr_slice.
    change (String.eqb "coronal" "axial") with false.
    change (String.eqb "coronal" "sagittal") with false.
    change (String.eqb "coronal" "coronal") with true. cbv iota.
    rewrite (Hguard _ Hi), result_bind_mret, Nat2Z.id.
    rewrite apply_window_ok by done. rewrite result_bind_mret.
    eexists. split; [reflexivity|]. unfold flipud, take_coronal.
    split; [by rewrite length_map, length_reverse, length_map|].
    intros r y Hr. rewrite pixel_map. f_equal. unfold Py.pixel at 1.
    rewrite reverse_lookup by (rewrite length_map; lia).
    rewrite length_map, Hlen.
    replace (z_size volume - S r)%nat with (z_size volume - 1 - r)%nat by lia.
    destruct (Hslice (z_size volume - 1 - r)%nat)
      as (sl & Hsl & -> & Hy & Hrows); [lia|].
    change (map (λ sl0, map (λ row, nth i row 0%Q) sl0) (voxels volume))
      with ((λ sl0, map (λ row, nth i row 0%Q) sl0) <$> voxels volume).
    rewrite list_lookup_fmap, Hsl. cbn [fmap option_fmap option_map].
    change (map (λ row, nth i row 0%Q) sl)
      with ((λ row, nth i row 0%Q) <$> sl).
    rewrite list_lookup_fmap. unfold Py.pixel.
    destruct (sl !! y) as [row|] eqn:Hrow; [|done].
    cbn [fmap option_fmap option_map].
    assert (Hx : length row = x_size volume)
      by exact (proj1 (Forall_lookup _ _) Hrows y row Hrow).
    destruct (lookup_lt_is_Some_2 row i) as [px Hpx]; [lia|].
    by rewrite Hpx, (nth_lookup_Some _ _ _ _ Hpx).
Qed.

End MprMore.

Lemma generate_mpr_slice_rasters_witness :
  well_shaped Samples.volume_3_1_2 ∧
  ∃ raster,
    @MprGenerator.generate_mpr_slice Samples.height_codec
       Samples.volume_3_1_2 "sagittal" 0 40 400
      = mret (@array_to_base64_png Samples.height_codec raster) ∧
    length raster = 3%nat.
Proof.
  assert (Hwf : well_shaped Samples.volume_3_1_2).
  { split; [reflexivity|]. repeat constructor. }
  split; [exact Hwf|].
  destruct (@generate_mpr_slice_rasters Samples.height_codec
              Samples.volume_3_1_2 0 40 400 Hwf eq_refl)
    as (_ & Hsag & _).
  destruct Hsag as (raster & Hshow & Hlen & _); [cbn; lia|].
  exists raster. split; [exact Hshow|exact Hlen].
Defined.

(** ** The pixel probe *)

Section ProbeFacts.
Import Reconstruction ViewerRoutes.
Context {config : Config} {codec : ImageCodec} {rendering : Rendering}.

Lemma classify_cases (hu : Q) :
  ((hu < -950)%Q ∧ classify hu = Air) ∨
  ((-950 <= hu)%Q ∧ (hu < -100)%Q ∧ classify hu = Fat) ∨
  ((-100 <= hu)%Q ∧ (hu < 50)%Q ∧ classify hu = SoftTissue) ∨
  ((50 <= hu)%Q ∧ (hu < 300)%Q ∧ classify hu = Muscle) ∨
  ((300 <= hu)%Q ∧ (hu < 700)%Q ∧ classify hu = Bone) ∨
  ((700 <= hu)%Q ∧ classify hu = DenseBone).
Proof.
  unfold classify.
  destruct (Py.Qlt_bool hu (-950)) eqn:E1;
    [apply Qlt_bool_true in E1; by left|apply Qlt_bool_false in E1].
  destruct (Py.Qlt_bool hu (-100)) eqn:E2;
    [apply Qlt_bool_true in E2; right; by left|apply Qlt_bool_false in E2].
  destruct (Py.Qlt_bool hu 50) eqn:E3;
    [apply Qlt_bool_true in E3; do 2 right; by left
    |apply Qlt_bool_false in E3].
  destruct (Py.Qlt_bool hu 300) eqn:E4;
    [apply Qlt_bool_true in E4; do 3 right; by left
    |apply Qlt_bool_false in E4].
  destruct (Py.Qlt_bool hu 700) eqn:E5;
    [apply Qlt_bool_true in E5; do 4 right; by left
    |apply Qlt_bool_false in E5].
  do 5 right. done.
Qed.

(** X22.  [get_tissue_type] cuts the HU axis into six consecutive
    ranges, each closed below and open above, at -950, -100, 50, 300 and
    700: the class never goes down when the value goes up, and a value
    on a cut belongs to the class above it. *)
Theorem get_tissue_type_ranges (hu hu' : Q) :
  let rank := λ t, match t with
                   | Air => 0 | Fat => 1 | SoftTissue => 2
                   | Muscle => 3 | Bone => 4 | DenseBone => 5
                   end in
  (get_tissue_type hu = "Air" ↔ (hu < -950)%Q) ∧
  (get_tissue_type hu = "Fat" ↔ (-950 <= hu)%Q ∧ (hu < -100)%Q) ∧
  (get_tissue_type hu = "Soft Tissue" ↔ (-100 <= hu)%Q ∧ (hu < 50)%Q) ∧
  (get_tissue_type hu = "Muscle" ↔ (50 <= hu)%Q ∧ (hu < 300)%Q) ∧
  (get_tissue_type hu = "Bone" ↔ (300 <= hu)%Q ∧ (hu < 700)%Q) ∧
  (get_tissue_type hu = "Dense Bone" ↔ (700 <= hu)%Q) ∧
  ((hu <= hu')%Q → rank (classify hu) ≤ rank (classify hu')) ∧
  ((hu == hu')%Q → get_tissue_type hu = get_tissue_type hu').
Proof.
  intros rank. unfold get_tissue_type.
  destruct (classify_cases hu)
    as [[H1 ->]|[(H1 & H2 & ->)|[(H1 & H2 & ->)|[(H1 & H2 & ->)
        |[(H1 & H2 & ->)|[H1 ->]]]]]];
  destruct (classify_cases hu')
    as [[H1' ->]|[(H1' & H2' & ->)|[(H1' & H2' & ->)|[(H1' & H2' & ->)
        |[(H1' & H2' & ->)|[H1' ->]]]]]];
  cbn [tissue_name rank];
  repeat match goal with |- _ ∧ _ => split end;
  try (split; [intros Heq; discriminate Heq|intros; exfalso; lra]);
  try (split; [intros _; first [lra|split; lra]|reflexivity]);
  try (intros ?; first [lia|reflexivity|exfalso; lra]).
Qed.

End ProbeFacts.

Section LoaderErrors.
Import DicomLoader.

Lemma result_bind_error_inv {A B} (m : result A) (k : A → result B) (e : exn) :
  m ≫= k = inl e → m = inl e ∨ ∃ a, m = inr a ∧ k a = inl e.
Proof. destruct m as [e'|a]; [intros [= ->]; by left|]. right. eauto. Qed.

Lemma mapM_error_inv {A B} (f : A → result B) (xs : list A) (e : exn) :
  Py.mapM f xs = inl e → ∃ x, x ∈ xs ∧ f x = inl e.
Proof.
  induction xs as [|x xs IH]; [intros Heq; discriminate Heq|].
  cbn [Py.mapM]. intros Hrun.
  apply result_bind_error_inv in Hrun as [Hx|(y & Hy & Hrun)].
  - exists x. split; [left|done].
  - apply result_bind_error_inv in Hrun as [Hxs|(ys & Hys & Hrun)];
      [|discriminate Hrun].
    destruct (IH Hxs) as (x' & Hin & Hx'). exists x'. split; [by right|done].
Qed.

(** The exceptions [load_dicom_series] can raise. *)
Lemma load_dicom_series_error_kinds (P : exn → Prop) (path : string)
    (dir : option Listing) (e : exn) :
  (∀ msg, P (FileNotFoundError msg)) → (∀ msg, P (RuntimeError msg)) →
  (∀ msg, P (IndexError msg)) → (∀ msg, P (AttributeError msg)) →
  (∀ msg, P (ValueError msg)) →
  load_dicom_series path dir = inl e → P e.
Proof.
  intros Hfnf Hrt Hidx Hattr Hval.
  assert (Hgetitem : ∀ A (xs : list A) i e0, Py.getitem xs i = inl e0 → P e0).
  { intros A xs i e0. unfold Py.getitem.
    destruct (_ || _); [by intros [= <-]|].
    destruct (xs !! _); [intros Heq; discriminate Heq|by intros [= <-]]. }
  assert (Hattr' : ∀ A name (field : option A) e0,
            attr name field = inl e0 → P e0).
  { intros A name [x|] e0; [intros Heq; discriminate Heq|by intros [= <-]]. }
  assert (Hz : ∀ ds e0, get_z_position ds = inl e0 → P e0).
  { intros ds e0. unfold get_z_position. intros Hrun.
    apply result_bind_error_inv in Hrun as [Hrun|(ipp & _ & Hrun)]; eauto. }
  assert (HmapZ : ∀ dss e0, Py.mapM get_z_position dss = inl e0 → P e0).
  { intros dss e0 Hrun. apply mapM_error_inv in Hrun as (ds & _ & Hrun).
    eauto. }
  assert (Hrow : ∀ cols row e0, broadcast_row cols row = inl e0 → P e0).
  { intros cols row e0. unfold broadcast_row.
    destruct (_ =? _)%nat; [intros Heq; discriminate Heq|].
    destruct row as [|? [|? ?]]; intros Heq; try discriminate Heq;
      by injection Heq as <-. }
  assert (Hbroadcast : ∀ rows cols arr e0,
            broadcast_to rows cols arr = inl e0 → P e0).
  { intros rows cols arr e0. unfold broadcast_to. intros Hrun.
    apply result_bind_error_inv in Hrun as [Hrun|(arr' & _ & Hrun)].
    - apply mapM_error_inv in Hrun as (row & _ & Hrun). eauto.
    - destruct (_ =? _)%nat; [discriminate Hrun|].
      destruct arr' as [|? [|? ?]]; try discriminate Hrun;
        by injection Hrun as <-. }
  unfold load_dicom_series. destruct dir as [listing|]; [|by intros [= <-]].
  cbv zeta.
  destruct (length (filter _ listing) =? 0)%nat; [by intros [= <-]|].
  destruct (length (omap snd _) =? 0)%nat; [by intros [= <-]|].
  intros Hrun.
  apply result_bind_error_inv in Hrun as [Hrun|(sorted & _ & Hrun)].
  { unfold sort_by_z in Hrun.
    apply result_bind_error_inv in Hrun as [Hrun|(keys & _ & Hrun)];
      [eauto|discriminate Hrun]. }
  apply result_bind_error_inv in Hrun as [Hrun|(zs & _ & Hrun)]; [eauto|].
  apply result_bind_error_inv in Hrun as [Hrun|(ref & _ & Hrun)]; [eauto|].
  apply result_bind_error_inv in Hrun as [Hrun|(r & _ & Hrun)]; [eauto|].
  apply result_bind_error_inv in Hrun as [Hrun|(c & _ & Hrun)]; [eauto|].
  apply result_bind_error_inv in Hrun as [Hrun|(ps & _ & Hrun)]; [eauto|].
  apply result_bind_error_inv in Hrun as [Hrun|(z1 & _ & Hrun)]; [eauto|].
  apply result_bind_error_inv in Hrun as [Hrun|(z0 & _ & Hrun)]; [eauto|].
  apply result_bind_error_inv in Hrun as [Hrun|(iop & _ & Hrun)]; [eauto|].
  apply result_bind_error_inv in Hrun as [Hrun|(ipp & _ & Hrun)]; [eauto|].
  destruct (_ || _); [by injection Hrun as <-|].
  apply result_bind_error_inv in Hrun as [Hrun|(slices & _ & Hrun)];
    [|discriminate Hrun].
  apply mapM_error_inv in Hrun as (ds & _ & Hrun). eauto.
Qed.

Lemma get_study_error_kinds (P : exn → Prop) (case_id path : string)
    (dir : option Listing) (studies : gmap string Series) (e : exn) :
  (∀ msg, P (FileNotFoundError msg)) → (∀ msg, P (RuntimeError msg)) →
  (∀ msg, P (IndexError msg)) → (∀ msg, P (AttributeError msg)) →
  (∀ msg, P (ValueError msg)) →
  (StudyManager.get_study case_id path dir studies).1 = inl e → P e.
Proof.
  intros Hfnf Hrt Hidx Hattr Hval. unfold StudyManager.get_study.
  destruct (studies !! case_id); [intros Heq; discriminate Heq|].
  destruct (load_dicom_series path dir) as [e'|study] eqn:Hload;
    [|intros Heq; discriminate Heq].
  intros [= <-]. by apply (load_dicom_series_error_kinds P path dir).
Qed.

End LoaderErrors.

Section ProbeRoute.
Import Reconstruction ViewerRoutes.
Context {config : Config} {codec : ImageCodec} {rendering : Rendering}.

(** X23.  [get_hu_value] answers 404 for a path that does not exist and
    500 when the study cannot be loaded.  On a study that is served,
    with a well-formed volume of [Z x Y x X] voxels, a slice index
    outside [0, Z) is answered with 400 (a negative index is not
    counted from the end), a pixel outside the raster with 400, and
    every other probe with the voxel [volume[slice][y][x]] and the
    tissue class of that value.  The study cache is left as
    [get_study] leaves it. *)
Theorem get_hu_value_probe (w : World) (case_id : string)
    (slice_index x y : Z) (studies : gmap string DicomLoader.Series) :
  let case_path := Py.path_join DATA_ROOT case_id in
  let served := StudyManager.get_study case_id case_path
                  (case_dirs w !! case_path) studies in
  let run := get_hu_value w case_id slice_index x y studies in
  (path_exists w case_path = false →
   run = (raise (HTTPException 404 ("Case not found: " +:+ case_id)),
          studies)) ∧
  (path_exists w case_path = true → run.2 = served.2) ∧
  (path_exists w case_path = true →
   ∀ e, served.1 = inl e →
     run.1 = raise (HTTPException 500
                      ("Failed to get HU value: " +:+ exception_str e))) ∧
  (path_exists w case_path = true →
   ∀ study, served.1 = mret study →
     let volume := DicomLoader.volume study in
     well_shaped volume →
     (slice_index < 0 ∨ Z.of_nat (z_size volume) ≤ slice_index →
      ∃ detail, run.1 = raise (HTTPException 400 detail)) ∧
     (x < 0 ∨ Z.of_nat (x_size volume) ≤ x ∨
      y < 0 ∨ Z.of_nat (y_size volume) ≤ y →
      ∃ detail, run.1 = raise (HTTPException 400 detail)) ∧
     (0 ≤ slice_index < Z.of_nat (z_size volume) →
      0 ≤ x < Z.of_nat (x_size volume) →
      0 ≤ y < Z.of_nat (y_size volume) →
      ∃ hu,
        Py.pixel (nth (Z.to_nat slice_index) (voxels volume) [])
                 (Z.to_nat y) (Z.to_nat x) = Some hu ∧
        run.1 = mret {| hu_value := hu; pixel_x := x; pixel_y := y;
                        hu_slice_index := slice_index;
                        tissue_type := get_tissue_type hu |})).
Proof.
  intros case_path served run. subst run. unfold get_hu_value.
  fold case_path. fold served.
  destruct (path_exists w case_path) eqn:Hex; cbn [negb].
  2:{ split; [done|]. split; [intros Heq; discriminate Heq|].
      split; intros Heq; discriminate Heq. }
  split; [intros Heq; discriminate Heq|].
  assert (Hkinds : ∀ e, served.1 = inl e →
            match e with HTTPException _ _ => False | _ => True end).
  { intros e He. subst served.
    apply (get_study_error_kinds
             (λ e0, match e0 with HTTPException _ _ => False | _ => True end)
             case_id case_path (case_dirs w !! case_path) studies e);
      [done..|exact He]. }
  destruct served as [[e|study] studies'] eqn:Hserved; cbn [fst snd].
  - specialize (Hkinds e eq_refl).
    split; [by destruct e|]. split.
    + intros _ e' [= <-]. by destruct e.
    + intros _ study Heq. discriminate Heq.
  - clear Hkinds. split; [done|]. split; [intros _ e Heq; discriminate Heq|].
    intros _ study' Heq. injection Heq as <-. cbv zeta.
    intros [Hlen Hshape]. set (volume := DicomLoader.volume study) in *.
    split; [|split].
    + intros Hout.
      assert (E : (slice_index <? 0)
                  || (Z.of_nat (z_size volume) <=? slice_index) = true).
      { apply orb_true_iff. rewrite Z.ltb_lt, Z.leb_le. lia. }
      rewrite E. eauto.
    + intros Hout.
      destruct ((slice_index <? 0)
                || (Z.of_nat (z_size volume) <=? slice_index)); [eauto|].
      assert (E : (x <? 0) || (Z.of_nat (x_size volume) <=? x)
                  || (y <? 0) || (Z.of_nat (y_size volume) <=? y) = true).
      { rewrite !orb_true_iff, !Z.ltb_lt, !Z.leb_le. lia. }
      rewrite E. eauto.
    + intros Hi Hx Hy.
      assert (E1 : (slice_index <? 0)
                   || (Z.of_nat (z_size volume) <=? slice_index) = false).
      { apply orb_false_iff. rewrite Z.ltb_ge, Z.leb_gt. lia. }
      assert (E2 : (x <? 0) || (Z.of_nat (x_size volume) <=? x)
                   || (y <? 0) || (Z.of_nat (y_size volume) <=? y) = false).
      { rewrite !orb_false_iff, !Z.ltb_ge, !Z.leb_gt. lia. }
      rewrite E1, E2.
      destruct (lookup_lt_is_Some_2 (voxels volume) (Z.to_nat slice_index))
        as [sl Hsl]; [lia|].
      destruct (proj1 (Forall_lookup _ _) Hshape _ _ Hsl) as [Hrows Hcols].
      destruct (lookup_lt_is_Some_2 sl (Z.to_nat y)) as [row Hrow]; [lia|].
      pose proof (proj1 (Forall_lookup _ _) Hcols _ _ Hrow) as Hrowlen.
      destruct (lookup_lt_is_Some_2 row (Z.to_nat x)) as [hu Hhu];
        [cbv beta in Hrowlen; lia|].
      exists hu. unfold voxel_at, Py.pixel.
      rewrite (nth_lookup_Some _ _ _ _ Hsl), Hrow.
      rewrite (nth_lookup_Some _ _ _ _ Hrow), (nth_lookup_Some _ _ _ _ Hhu).
      done.
Qed.

End ProbeRoute.

Section LoaderRaises.
Import DicomLoader.


End LoaderRaises.

Section MprRoute.
Import Reconstruction HuUtils MprGenerator ViewerRoutes.
Context {config : Config} {codec : ImageCodec} {rendering : Rendering}.

(** [extract_series_metadata] raises [IndexError] or [AttributeError]
    only. *)
Lemma extract_series_metadata_error_kinds (study : DicomLoader.Series)
    (e : exn) :
  DicomMetadata.extract_series_metadata study = inl e →
  (∃ msg, e = IndexError msg) ∨ (∃ msg, e = AttributeError msg).
Proof.
  assert (Hgetitem : ∀ A (xs : list A) i e0,
            Py.getitem xs i = inl e0 → ∃ msg, e0 = IndexError msg).
  { intros A xs i e0. unfold Py.getitem.
    destruct (_ || _); [intros [= <-]; eauto|].
    destruct (xs !! _); [intros Heq; discriminate Heq|intros [= <-]; eauto]. }
  assert (Hattr : ∀ A name (field : option A) e0,
            DicomLoader.attr name field = inl e0 →
            ∃ msg, e0 = AttributeError msg).
  { intros A name [x|] e0; [intros Heq; discriminate Heq|].
    intros [= <-]. eauto. }
  assert (Hwindow : ∀ value default e0,
            DicomMetadata.get_window_value value default = inl e0 →
            ∃ msg, e0 = IndexError msg).
  { intros [[x|xs]|] default e0; cbn [DicomMetadata.get_window_value];
      try (intros Heq; discriminate Heq). apply Hgetitem. }
  unfold DicomMetadata.extract_series_metadata. intros Hrun.
  apply result_bind_error_inv in Hrun as [Hrun|(ref & _ & Hrun)]; [eauto|].
  apply result_bind_error_inv in Hrun as [Hrun|(r & _ & Hrun)]; [eauto|].
  apply result_bind_error_inv in Hrun as [Hrun|(c & _ & Hrun)]; [eauto|].
  apply result_bind_error_inv in Hrun as [Hrun|(ps & _ & Hrun)]; [eauto|].
  apply result_bind_error_inv in Hrun as [Hrun|(iop & _ & Hrun)]; [eauto|].
  apply result_bind_error_inv in Hrun as [Hrun|(ipp & _ & Hrun)]; [eauto|].
  apply result_bind_error_inv in Hrun as [Hrun|(wc & _ & Hrun)]; [eauto|].
  apply result_bind_error_inv in Hrun as [Hrun|(ww & _ & Hrun)]; [eauto|].
  apply result_bind_error_inv in Hrun as [Hrun|(zsp & _ & Hrun)];
    [|discriminate Hrun].
  destruct (_ <? _)%nat; [|discriminate Hrun].
  apply result_bind_error_inv in Hrun as [Hrun|(z1 & _ & Hrun)]; [eauto|].
  apply result_bind_error_inv in Hrun as [Hrun|(z0 & _ & Hrun)];
    [eauto|discriminate Hrun].
Qed.

(** [generate_mpr_slice] for one of the three orientations and a
    positive width: an image inside the axis, the range [ValueError]
    outside. *)
Lemma generate_mpr_slice_guard (volume : Volume) (orientation : string)
    (axis : nat) (slice_index : Z) (c w : Q) :
  (orientation, axis) ∈ [("axial", z_size volume);
                         ("sagittal", y_size volume);
                         ("coronal", x_size volume)] →
  (0 < w)%Q →
  (slice_index < 0 ∨ Z.of_nat axis ≤ slice_index →
   ∃ msg, generate_mpr_slice volume orientation slice_index c w
          = raise (ValueError msg)) ∧
  (0 ≤ slice_index < Z.of_nat axis →
   ∃ png, generate_mpr_slice volume orientation slice_index c w = mret png).
Proof.
  intros Hin Hw.
  assert (Hcase : ∀ (img : list (list Q)) (msg0 : string),
    let r :=
      (slice_img ←
         (if (slice_index <? 0) || (Z.of_nat axis <=? slice_index)
          then raise (ValueError msg0) else mret img);
       windowed ← apply_window slice_img c w;
       mret (array_to_base64_png windowed)) in
    (slice_index < 0 ∨ Z.of_nat axis ≤ slice_index →
     ∃ msg, r = raise (ValueError msg)) ∧
    (0 ≤ slice_index < Z.of_nat axis → ∃ png, r = mret png)).
  { intros img msg0 r. subst r.
    destruct (Z.ltb_spec slice_index 0); destruct (Z.leb_spec (Z.of_nat axis) slice_index);
      cbn [orb]; (split; [intros Hout|intros Hin']); try lia; eauto;
      rewrite result_bind_mret, apply_window_ok by done; eauto. }
  unfold generate_mpr_slice.
  apply elem_of_cons in Hin as [[= -> ->]|Hin]; [apply Hcase|].
  apply elem_of_cons in Hin as [[= -> ->]|Hin]; [apply Hcase|].
  apply elem_of_cons in Hin as [[= -> ->]|Hin]; [apply Hcase|].
  by apply elem_of_nil in Hin.
Qed.

Lemma generate_mpr_slice_bad_width (volume : Volume) (orientation : string)
    (slice_index : Z) (c w : Q) :
  orientation ∈ ["axial"; "sagittal"; "coronal"] → (w <= 0)%Q →
  ∃ msg, generate_mpr_slice volume orientation slice_index c w
         = raise (ValueError msg).
Proof.
  intros Hin Hw.
  assert (Hcase : ∀ (guard : bool) (img : list (list Q)) (msg0 : string),
    ∃ msg,
      (slice_img ← (if guard then raise (ValueError msg0) else mret img);
       windowed ← apply_window slice_img c w;
       mret (array_to_base64_png windowed)) = raise (ValueError msg)).
  { intros [|] img msg0; [eauto|].
    rewrite result_bind_mret, window_guard_fails by done. eauto. }
  unfold generate_mpr_slice.
  apply elem_of_cons in Hin as [->|Hin]; [apply Hcase|].
  apply elem_of_cons in Hin as [->|Hin]; [apply Hcase|].
  apply elem_of_cons in Hin as [->|Hin]; [apply Hcase|].
  by apply elem_of_nil in Hin.
Qed.

(** X25.  [get_mpr_slice_endpoint] answers 404 for a path that does not
    exist.  When the study cannot be loaded it answers 400 if the loader
    raised [ValueError] and 500 otherwise.  On a study that is served
    the window is the one of the metadata: if the metadata cannot be
    read it answers 500; with a width that is not positive 400; and
    with a positive width, for each of the three orientations, 400 for
    an index outside the axis and the decoded image of
    [generate_mpr_slice] for an index inside. *)
Theorem get_mpr_slice_endpoint_statuses (w : World)
    (case_id orientation : string) (slice_index : Z)
    (studies : gmap string DicomLoader.Series) :
  let case_path := Py.path_join DATA_ROOT case_id in
  let served := StudyManager.get_study case_id case_path
                  (case_dirs w !! case_path) studies in
  let run := get_mpr_slice_endpoint w case_id orientation slice_index
               studies in
  (path_exists w case_path = false →
   run = (raise (HTTPException 404 ("Case not found: " +:+ case_id)),
          studies)) ∧
  (path_exists w case_path = true →
   run.2 = served.2 ∧
   (∀ e, served.1 = inl e →
      (∃ msg, e = ValueError msg ∧ run.1 = raise (HTTPException 400 msg)) ∨
      ((∀ msg, e ≠ ValueError msg) ∧
       run.1 = raise (HTTPException 500
                        ("Failed to generate MPR slice: "
                         +:+ exception_str e)))) ∧
   (∀ study, served.1 = mret study →
      (∀ e, DicomMetadata.extract_series_metadata study = inl e →
            run.1 = raise (HTTPException 500
                             ("Failed to generate MPR slice: "
                              +:+ exception_str e))) ∧
      (∀ meta, DicomMetadata.extract_series_metadata study = mret meta →
         let volume := DicomLoader.volume study in
         let wc := DicomMetadata.window_center meta in
         let ww := DicomMetadata.window_width meta in
         ((ww <= 0)%Q →
          orientation ∈ ["axial"; "sagittal"; "coronal"] →
          ∃ detail, run.1 = raise (HTTPException 400 detail)) ∧
         ((0 < ww)%Q →
          ∀ axis,
            (orientation, axis) ∈ [("axial", z_size volume);
                                   ("sagittal", y_size volume);
                                   ("coronal", x_size volume)] →
            (slice_index < 0 ∨ Z.of_nat axis ≤ slice_index →
             ∃ detail, run.1 = raise (HTTPException 400 detail)) ∧
            (0 ≤ slice_index < Z.of_nat axis →
             ∃ png,
               generate_mpr_slice volume orientation slice_index wc ww
                 = mret png ∧
               run.1 = mret {| content := b64decode png;
                               image_media_type := "image/png" |}))))).
Proof.
  intros case_path served run. subst run. unfold get_mpr_slice_endpoint.
  fold case_path. fold served.
  destruct (path_exists w case_path) eqn:Hex; cbn [negb].
  2:{ split; [done|]. intros Heq. discriminate Heq. }
  split; [intros Heq; discriminate Heq|]. intros _.
  assert (Hkinds : ∀ e, served.1 = inl e →
            match e with
            | ValueError _ | FileNotFoundError _ | RuntimeError _
            | IndexError _ | AttributeError _ => True
            | _ => False
            end).
  { intros e He. subst served.
    apply (get_study_error_kinds
             (λ e0, match e0 with
                    | ValueError _ | FileNotFoundError _ | RuntimeError _
                    | IndexError _ | AttributeError _ => True
                    | _ => False
                    end)
             case_id case_path (case_dirs w !! case_path) studies e);
      [done..|exact He]. }
  destruct served as [[e|study] studies'] eqn:Hserved; cbn [fst snd].
  - specialize (Hkinds e eq_refl). split; [done|]. split.
    + intros e' [= <-].
      destruct e; try done;
        first [left; eexists; split; reflexivity
              |right; split; [intros msg0 Heq; discriminate Heq|reflexivity]].
    + intros study Heq. discriminate Heq.
  - clear Hkinds. split; [done|]. split; [intros e Heq; discriminate Heq|].
    intros study' Heq. injection Heq as <-. split.
    + intros e He. rewrite He.
      by destruct (extract_series_metadata_error_kinds _ _ He)
        as [[msg ->]|[msg ->]].
    + intros meta Hmeta. rewrite Hmeta, result_bind_mret. cbv zeta.
      set (volume := DicomLoader.volume study).
      set (wc := DicomMetadata.window_center meta).
      set (ww := DicomMetadata.window_width meta).
      split.
      * intros Hww Hor.
        destruct (generate_mpr_slice_bad_width volume orientation
                    slice_index wc ww Hor Hww) as [msg Hfail].
        rewrite Hfail. eauto.
      * intros Hww axis Hin.
        destruct (generate_mpr_slice_guard volume orientation axis
                    slice_index wc ww Hin Hww) as [Hout Hok].
        split.
        -- intros Hrange. destruct (Hout Hrange) as [msg ->]. eauto.
        -- intros Hrange. destruct (Hok Hrange) as [png Hpng].
           exists png. split; [done|]. by rewrite Hpng.
Qed.

End MprRoute.

(** ** Geometry helpers *)

Section GeometryFacts.
Import GeometryUtils HuUtils.


End GeometryFacts.

(** ** The base volume of a reconstruction *)

Section BaseVolume.
Import Reconstruction.
Context {config : Config} {interpreter : Interpreter} {sitk : Sitk}.

Lemma bind_error {A B} (m : M A) (k : A → M B) (w w0 : World) (e : exn) :
  m w = (inl e, w0) → (m ≫= k) w = (inl e, w0).
Proof. intros Hm. unfold mbind, M_bind, bind. by rewrite Hm. Qed.

Lemma mapM_dcmread_unreadable
    (files : list (string * option DicomLoader.Dataset)) (name : string) :
  (name, None) ∈ files →
  ∃ name', (name', None) ∈ files ∧
           Py.mapM dcmread files = raise (InvalidDicomError name').
Proof.
  induction files as [|[n [ds|]] files IH]; intros Hin.
  - by apply elem_of_nil in Hin.
  - apply elem_of_cons in Hin as [Heq|Hin]; [discriminate Heq|].
    destruct (IH Hin) as (name' & Hin' & Hrun).
    exists name'. split; [by right|].
    cbn [Py.mapM].
    change (dcmread (n, Some ds)) with (mret ds : result DicomLoader.Dataset).
    rewrite result_bind_mret. by rewrite Hrun.
  - exists n. split; [left|]. reflexivity.
Qed.

Lemma mapM_dcmread_ok
    (files : list (string * option DicomLoader.Dataset))
    (datasets : list DicomLoader.Dataset) :
  Py.mapM dcmread files = inr datasets → length datasets = length files.
Proof.
  intros Hrun. apply mapM_inv in Hrun.
  symmetry. exact (Forall2_length _ _ _ Hrun).
Qed.

Lemma np_stack_ok_inv (arrays : list (list (list Q))) (volume : Volume) :
  np_stack arrays = inr volume →
  z_size volume = length arrays ∧ voxels volume = arrays.
Proof.
  unfold np_stack. destruct arrays as [|first rest];
    [intros Heq; discriminate Heq|].
  destruct (forallb _ _); [|intros Heq; discriminate Heq].
  by intros [= <-].
Qed.

Lemma lift_bind_run {A B} (r : result A) (k : A → M B) (w : World) :
  (lift r ≫= k) w = match r with inl e => (inl e, w) | inr a => k a w end.
Proof. by destruct r. Qed.

(** [load_base_volume] only adds its event to the trace; what it returns
    is computed from the listing alone. *)
Lemma load_base_volume_run (case_id : string) (w : World)
    (listing : DicomLoader.Listing) :
  case_dirs w !! Py.path_join DATA_ROOT case_id = Some listing →
  load_base_volume case_id w
  = (let dicom_files := dicom_names listing in
     if (length dicom_files =? 0)%nat then
       raise (RuntimeError "No DICOM files found")
     else
       datasets ← Py.mapM dcmread dicom_files;
       datasets ← DicomLoader.sort_by_z datasets;
       ds0 ← Py.getitem datasets 0;
       pixel_spacing ←
         DicomLoader.attr "PixelSpacing" (DicomLoader.PixelSpacing ds0);
       ds1 ← Py.getitem datasets 1;
       z1 ← DicomLoader.get_z_position ds1;
       z0 ← DicomLoader.get_z_position ds0;
       origin ← DicomLoader.attr "ImagePositionPatient"
                  (DicomLoader.ImagePositionPatient ds0);
       volume ← np_stack
         (map (λ ds,
                 map (map (λ px,
                    px * DicomLoader.getattr (DicomLoader.RescaleSlope ds) 1
                    + DicomLoader.getattr (DicomLoader.RescaleIntercept ds) 0)%Q)
                     (DicomLoader.pixel_array ds))
              datasets);
       ps1 ← Py.getitem pixel_spacing 1;
       ps0 ← Py.getitem pixel_spacing 0;
       origin ← triple origin;
       mret (SetOrigin
               (SetSpacing (GetImageFromArray volume)
                           (ps1, ps0, Qabs (z1 - z0)))
               origin),
     (emit (EvLoadBase case_id) w).2).
Proof.
  intros Hdir. unfold load_base_volume.
  do 2 (erewrite bind_ok by reflexivity; cbv beta).
  cbn [emit snd case_dirs]. rewrite Hdir. rewrite lift_bind_run.
  change (mret listing) with (inr listing : result DicomLoader.Listing).
  cbv beta iota zeta.
  destruct (length (dicom_names listing) =? 0)%nat; [reflexivity|].
  repeat (rewrite lift_bind_run;
          match goal with
          | |- context [match ?r with inl _ => _ | inr _ => _ end] =>
              destruct r; [reflexivity|]
          end;
          match goal with
          | |- context C [@mbind result _ _ _ ?k (inr ?x)] =>
              let G := context C [k x] in change G
          end;
          cbv beta).
  reflexivity.
Qed.

(** X27.  [load_base_volume] on a case folder.  Without a [.dcm] name
    in the folder it raises [RuntimeError]; with a [.dcm] file that does
    not decode it raises [InvalidDicomError] for such a file (where
    [load_dicom_series] would skip it).  An image that it returns has
    one slice per [.dcm] file of the folder, at least two; the slice
    spacing is the gap between the two lowest slices, the in-plane
    spacing is the [PixelSpacing] of the lowest slice with its two
    entries exchanged, and the origin is the position of the lowest
    slice.  Whatever the outcome, the world only gains the load event
    in its trace. *)
Theorem load_base_volume_outcomes (case_id : string) (w : World)
    (listing : DicomLoader.Listing) :
  case_dirs w !! Py.path_join DATA_ROOT case_id = Some listing →
  let files := dicom_names listing in
  let run := load_base_volume case_id w in
  run.2 = (emit (EvLoadBase case_id) w).2 ∧
  (files = [] → run.1 = raise (RuntimeError "No DICOM files found")) ∧
  (∀ name, (name, None) ∈ files →
     ∃ name', (name', None) ∈ files ∧
              run.1 = raise (InvalidDicomError name')) ∧
  (∀ image, run.1 = mret image →
     ∃ datasets sorted lowest next ps ps0 ps1 ox oy oz z1,
       Py.mapM dcmread files = mret datasets ∧
       DicomLoader.sort_by_z datasets = mret sorted ∧
       sorted !! 0%nat = Some lowest ∧ sorted !! 1%nat = Some next ∧
       DicomLoader.PixelSpacing lowest = Some ps ∧
       ps !! 0%nat = Some ps0 ∧ ps !! 1%nat = Some ps1 ∧
       DicomLoader.ImagePositionPatient lowest = Some [ox; oy; oz] ∧
       DicomLoader.get_z_position next = mret z1 ∧
       (2 ≤ length files)%nat ∧
       GetDepth image = Z.of_nat (length files) ∧
       z_size (GetArrayFromImage image) = length files ∧
       length (voxels (GetArrayFromImage image)) = length files ∧
       GetSpacing image = (ps1, ps0, Qabs (z1 - oz)) ∧
       GetOrigin image = (ox, oy, oz)).
Proof.
  intros Hdir files run. subst run.
  rewrite (load_base_volume_run case_id w listing Hdir). cbv zeta.
  fold files. cbn [fst snd].
  split; [reflexivity|]. split; [|split].
  - intros Hnone. by rewrite Hnone.
  - intros name Hin.
    destruct (mapM_dcmread_unreadable files name Hin) as (name' & Hin' & Hrun).
    exists name'. split; [done|].
    destruct files as [|f files']; [by apply elem_of_nil in Hin|].
    cbn [length Nat.eqb]. by rewrite Hrun.
  - intros image Hrun.
    destruct (length files =? 0)%nat; [discriminate Hrun|].
    apply result_bind_inv in Hrun as (datasets & Hds & Hrun).
    apply result_bind_inv in Hrun as (sorted & Hsort & Hrun).
    apply result_bind_inv in Hrun as (ds0 & Hds0 & Hrun).
    apply result_bind_inv in Hrun as (ps & Hps & Hrun).
    apply result_bind_inv in Hrun as (ds1 & Hds1 & Hrun).
    apply result_bind_inv in Hrun as (z1 & Hz1 & Hrun).
    apply result_bind_inv in Hrun as (z0 & Hz0 & Hrun).
    apply result_bind_inv in Hrun as (origin & Horigin & Hrun).
    apply result_bind_inv in Hrun as (volume & Hvol & Hrun).
    apply result_bind_inv in Hrun as (ps1 & Hps1 & Hrun).
    apply result_bind_inv in Hrun as (ps0 & Hps0 & Hrun).
    apply result_bind_inv in Hrun as (origin3 & Horigin3 & Hrun).
    injection Hrun as <-.
    apply (getitem_ok_inv _ 0) in Hds0 as [Hds0 _]; [|lia].
    apply (getitem_ok_inv _ 1) in Hds1 as [Hds1 Hlen1]; [|lia].
    apply (getitem_ok_inv _ 0) in Hps0 as [Hps0 _]; [|lia].
    apply (getitem_ok_inv _ 1) in Hps1 as [Hps1 _]; [|lia].
    apply attr_inv in Hps, Horigin.
    assert (Horig : ∃ ox oy oz, origin = [ox; oy; oz] ∧ origin3 = (ox, oy, oz)).
    { unfold triple in Horigin3.
      destruct origin as [|ox [|oy [|oz [|? ?]]]]; try discriminate Horigin3.
      injection Horigin3 as <-. eauto. }
    destruct Horig as (ox & oy & oz & -> & ->).
    assert (Hz0' : z0 = oz).
    { unfold DicomLoader.get_z_position in Hz0. rewrite Horigin in Hz0.
      by injection Hz0 as <-. }
    subst z0.
    apply np_stack_ok_inv in Hvol as [Hzsize Hvox].
    rewrite length_map in Hzsize.
    pose proof (mapM_dcmread_ok _ _ Hds) as Hlen.
    destruct (sort_by_z_inv _ _ Hsort) as (Hperm & _).
    apply Permutation_length in Hperm.
    exists datasets, sorted, ds0, ds1, ps, ps0, ps1, ox, oy, oz, z1.
    unfold GetDepth.
    cbn [GetSize GetSpacing GetOrigin GetArrayFromImage SetOrigin SetSpacing
         GetImageFromArray snd].
    rewrite Hvox, length_map.
    repeat match goal with |- _ ∧ _ => split end; try done; try lia.
Qed.

End BaseVolume.

Lemma load_base_volume_outcomes_witness :
  let run :=
    @Reconstruction.load_base_volume Samples.roots
      "Head/CT/case_001" Samples.world_with_case in
  Reconstruction.case_dirs Samples.world_with_case
    !! "/srv/Datasets/Head/CT/case_001" = Some Samples.two_slice_folder ∧
  ∃ image, run.1 = mret image ∧ Reconstruction.GetDepth image = 2.
Proof.
  intros run.
  assert (Hdir : Reconstruction.case_dirs Samples.world_with_case
                   !! Py.path_join (@DATA_ROOT Samples.roots) "Head/CT/case_001"
                 = Some Samples.two_slice_folder)
    by (vm_compute; reflexivity).
  split; [exact Hdir|].
  assert (Himage : ∃ image, run.1 = mret image).
  { vm_compute. eexists. reflexivity. }
  destruct Himage as [image Himage]. exists image. split; [exact Himage|].
  destruct (load_base_volume_outcomes (config:=Samples.roots)
              "Head/CT/case_001" Samples.world_with_case
              Samples.two_slice_folder Hdir)
    as (_ & _ & _ & Hok).
  destruct (Hok image Himage)
    as (? & ? & ? & ? & ? & ? & ? & ? & ? & ? & ? & _ & _ & _ & _ & _ & _ & _
        & _ & _ & _ & Hdepth & _).
  rewrite Hdepth. reflexivity.
Defined.

(** ** The planned region of a reconstruction *)

Section PlannedRegion.
Import Reconstruction.
Context {config : Config}.

(** X28.  [apply_planning] on a case whose slice files all decode, for a
    plan whose crop succeeds: the image holds the cropped voxels with
    the spacing and the in-plane origin of the input, and its z origin
    is read from the sorted heights at the raw [slice_start] of the
    plan.  For a start inside the stack this is the height of the first
    kept slice.  For a negative start the crop begins at slice 0, but
    the height is counted from the end of the list; below minus the
    length it raises [IndexError].  Without heights, or with a start
    past them, the origin is extrapolated from the input. *)
Theorem apply_planning_origin (case_id : string) (image : Image)
    (plan : PlanFile) (w : World) (listing : DicomLoader.Listing)
    (datasets sorted : list DicomLoader.Dataset) (zs : list Q)
    (cropped : Volume * VolumeCropper.Geometry) :
  case_dirs w !! Py.path_join DATA_ROOT case_id = Some listing →
  Py.mapM dcmread (dicom_names listing) = mret datasets →
  DicomLoader.sort_by_z datasets = mret sorted →
  Py.mapM DicomLoader.get_z_position sorted = mret zs →
  VolumeCropper.crop_volume (GetArrayFromImage image)
    (plan_slice_start plan) (plan_slice_end plan) (plan_fov plan)
    = mret cropped →
  let run := apply_planning case_id image plan w in
  let n := Z.of_nat (length zs) in
  let start := plan_slice_start plan in
  let placed := λ z,
    SetOrigin (SetSpacing (GetImageFromArray cropped.1) (GetSpacing image))
              ((GetOrigin image).1.1, (GetOrigin image).1.2, z) in
  (∀ z, GetDepth (placed z) = Z.of_nat (z_size cropped.1) ∧
        GetArrayFromImage (placed z) = cropped.1) ∧
  (0 ≤ start < n →
   ∃ z, zs !! Z.to_nat start = Some z ∧ run.1 = mret (placed z)) ∧
  (- n ≤ start < 0 →
   ∃ z, zs !! Z.to_nat (start + n) = Some z ∧ run.1 = mret (placed z)) ∧
  (start < - n → 0 < n → ∃ msg, run.1 = raise (IndexError msg)) ∧
  (n ≤ start ∨ n = 0 →
   run.1 = mret (placed ((GetOrigin image).2
                         + inject_Z start * (GetSpacing image).2)%Q)).
Proof.
  intros Hdir Hread Hsort Hzs Hcrop run n start placed. subst start.
  set (start := plan_slice_start plan).
  assert (Hrun : run.1
    = (new_origin_z ←
         (if negb (length zs =? 0)%nat && (start <? Z.of_nat (length zs))
          then Py.getitem zs start
          else mret ((GetOrigin image).2
                     + inject_Z start * (GetSpacing image).2)%Q);
       mret (placed new_origin_z))).
  { subst run start. unfold apply_planning.
    erewrite bind_ok by reflexivity. cbv beta zeta.
    rewrite lift_bind_run, Hcrop.
    change (mret cropped) with (inr cropped : result _). cbv beta iota.
    erewrite bind_ok by reflexivity. cbv beta.
    cbn [emit snd case_dirs]. rewrite Hdir, lift_bind_run.
    change (mret listing) with (inr listing : result DicomLoader.Listing).
    cbv beta iota zeta.
    match goal with
    | |- context [@mbind M _ _ _ ?k ?m] =>
        assert (Hz : ∀ w0, m w0 = (inr zs, w0))
    end.
    { intros w0.
      destruct (dicom_names listing) as [|f files] eqn:Hfiles.
      - cbn [length Nat.eqb]. cbn in Hread. injection Hread as <-.
        cbn in Hsort. injection Hsort as <-. cbn in Hzs.
        by injection Hzs as <-.
      - cbn [length Nat.eqb]. rewrite lift_bind_run, Hread.
        change (mret datasets) with (inr datasets : result _).
        cbv beta iota. rewrite lift_bind_run, Hsort.
        change (mret sorted) with (inr sorted : result _).
        cbv beta iota. unfold lift. by rewrite Hzs. }
    erewrite bind_ok by apply Hz. cbv beta.
    destruct (negb (length zs =? 0)%nat
              && (plan_slice_start plan <? Z.of_nat (length zs))).
    - rewrite lift_bind_run.
      by destruct (Py.getitem zs (plan_slice_start plan)).
    - reflexivity. }
  rewrite Hrun. fold n.
  split; [intros z; split; reflexivity|].
  assert (Hlen0 : (length zs =? 0)%nat = false ↔ 0 < n).
  { rewrite Nat.eqb_neq. subst n. lia. }
  split; [|split; [|split]].
  - intros Hin.
    rewrite (proj2 Hlen0) by lia. rewrite (proj2 (Z.ltb_lt _ _)) by lia.
    cbn [negb andb].
    destruct (getitem_in_range zs start) as (z & Hz & Hlook); [fold n; lia|].
    exists z. split; [done|]. by rewrite Hz.
  - intros Hneg.
    rewrite (proj2 Hlen0) by lia. rewrite (proj2 (Z.ltb_lt _ _)) by lia.
    cbn [negb andb]. unfold Py.getitem. fold n.
    rewrite (proj2 (Z.ltb_lt start 0)) by lia.
    destruct (Z.ltb_spec (start + n) 0) as [|_]; [lia|].
    destruct (Z.leb_spec n (start + n)) as [|_]; [lia|]. cbn [orb].
    destruct (lookup_lt_is_Some_2 zs (Z.to_nat (start + n))) as [z Hz];
      [subst n; lia|].
    exists z. split; [done|]. by rewrite Hz.
  - intros Hlow Hn.
    rewrite (proj2 Hlen0) by lia. rewrite (proj2 (Z.ltb_lt _ _)) by lia.
    cbn [negb andb]. unfold Py.getitem. fold n.
    rewrite (proj2 (Z.ltb_lt start 0)) by lia.
    rewrite (proj2 (Z.ltb_lt (start + n) 0)) by lia. cbn [orb]. eauto.
  - intros [Hpast|Hnone].
    + rewrite (proj2 (Z.ltb_ge _ _)) by (fold n; lia).
      by rewrite andb_false_r.
    + assert (E : (length zs =? 0)%nat = true)
        by (apply Nat.eqb_eq; subst n; lia).
      by rewrite E.
Qed.

End PlannedRegion.

Lemma apply_planning_origin_witness :
  let image :=
    Reconstruction.GetImageFromArray
      (DicomLoader.volume Samples.two_slice_study) in
  let plan :=
    {| Reconstruction.plan_z_start_mm := 0;
       Reconstruction.plan_z_end_mm := 1;
       Reconstruction.plan_slice_start := -1;
       Reconstruction.plan_slice_end := 1;
       Reconstruction.plan_fov := None |} in
  let run :=
    @Reconstruction.apply_planning Samples.roots "Head/CT/case_001" image plan
      Samples.world_with_case in
  VolumeCropper.crop_volume (DicomLoader.volume Samples.two_slice_study)
    (-1) 1 None
    = mret (DicomLoader.volume Samples.two_slice_study,
            {| VolumeCropper.num_slices := 2; VolumeCropper.height := 1;
               VolumeCropper.width := 2;
               VolumeCropper.geo_slice_start := -1;
               VolumeCropper.geo_slice_end := 1;
               VolumeCropper.geo_fov := None |}) ∧
  ∃ z, [0; 1]%Q !! 1%nat = Some z ∧
       GetOrigin <$> run.1 = mret (0, 0, z)%Q.
Proof.
  intros image plan run.
  assert (Hcrop :
    VolumeCropper.crop_volume (DicomLoader.volume Samples.two_slice_study)
      (-1) 1 None
    = mret (DicomLoader.volume Samples.two_slice_study,
            {| VolumeCropper.num_slices := 2; VolumeCropper.height := 1;
               VolumeCropper.width := 2;
               VolumeCropper.geo_slice_start := -1;
               VolumeCropper.geo_slice_end := 1;
               VolumeCropper.geo_fov := None |}))
    by (vm_compute; reflexivity).
  split; [exact Hcrop|].
  destruct (apply_planning_origin (config:=Samples.roots)
              "Head/CT/case_001" image plan Samples.world_with_case
              Samples.two_slice_folder
              [Samples.slice_at 1 None; Samples.slice_at 0 None]
              [Samples.slice_at 0 None; Samples.slice_at 1 None]
              [0; 1]%Q _
              ltac:(vm_compute; reflexivity) ltac:(vm_compute; reflexivity)
              ltac:(vm_compute; reflexivity) ltac:(vm_compute; reflexivity)
              Hcrop)
    as (_ & _ & Hneg & _).
  destruct Hneg as (z & Hz & Hrun); [cbn; lia|].
  exists z. split; [exact Hz|]. fold run in Hrun. rewrite Hrun. reflexivity.
Defined.

(** ** Case listings *)

Section ListingFacts.
Import DicomRoutes.

Lemma sorted_by_name_perm (records : list Entry) :
  sorted_by_name records ≡ₚ records.
Proof. apply sorted_with_perm. Qed.

Lemma elem_of_concat {A} (x : A) (ls : list (list A)) :
  x ∈ concat ls ↔ ∃ l, x ∈ l ∧ l ∈ ls.
Proof.
  induction ls as [|l ls IH]; cbn [concat].
  - split; [intros Hin; by apply elem_of_nil in Hin|].
    intros (l & _ & Hin). by apply elem_of_nil in Hin.
  - rewrite elem_of_app, IH. split.
    + intros [Hin|(l' & Hin & Hls)]; [exists l; split; [done|left]|].
      exists l'. split; [done|by right].
    + intros (l' & Hin & Hls).
      apply elem_of_cons in Hls as [->|Hls]; [by left|]. right. eauto.
Qed.

(** The entries [list_cases] makes of the folders of a protocol, before
    they are sorted. *)
Lemma list_cases_entries (body_part protocol : string)
    (case_folders : list (string * CaseNode)) :
  ∃ cases,
    list_cases body_part protocol (Some (ProtocolDir case_folders))
      = mret cases ∧
    cases ≡ₚ
      omap (λ '(item, item_node),
              match dcm_count item_node with
              | Some n =>
                  if (0 <? n)%nat then
                    Some {| name := item; dicom_count := n;
                            case_path := body_part +:+ "/" +:+ protocol
                                           +:+ "/" +:+ item |}
                  else None
              | None => None
              end)
           case_folders.
Proof. eexists. split; [reflexivity|]. apply sorted_by_name_perm. Qed.

Lemma protocol_count_is_sum (body_part protocol : string)
    (case_folders : list (string * CaseNode)) (start : nat) :
  foldl (λ total case_folder,
           match dcm_count case_folder.2 with
           | Some n => total + n
           | None => total
           end)%nat start case_folders
  = (start + sum_list (dicom_count <$>
       omap (λ '(item, item_node),
               match dcm_count item_node with
               | Some n =>
                   if (0 <? n)%nat then
                     Some {| name := item; dicom_count := n;
                             case_path := body_part +:+ "/" +:+ protocol
                                            +:+ "/" +:+ item |}
                   else None
               | None => None
               end)
            case_folders))%nat.
Proof.
  revert start. induction case_folders as [|[item node] rest IH];
    intros start; cbn [foldl]; [cbn; lia|].
  rewrite IH. cbn [omap list_omap snd].
  destruct (dcm_count node) as [n|]; [|done].
  destruct (Nat.ltb_spec 0 n) as [Hpos|Hzero]; cbn; lia.
Qed.

(** X29.  The protocols of a body part and the cases of a protocol.
    [list_protocols] answers with one entry per sub-directory, files
    being passed over, and the [dicom_count] of an entry is the sum of
    the [dicom_count] of the cases that [list_cases] lists for that
    protocol: case folders without a [.dcm] name are left out of the
    cases and add nothing to the count.  Every case listed has at least
    one [.dcm] name and the path [body_part/protocol/name].  A path
    where nothing is there gives an empty list, not an error. *)
Theorem list_protocols_counts_add_up (body_part : string)
    (items : list (string * ProtocolNode)) :
  list_protocols body_part None = mret [] ∧
  (∀ protocol, list_cases body_part protocol None = mret []) ∧
  ∃ records,
    list_protocols body_part (Some (BodyPartDir items)) = mret records ∧
    length records
      = length (omap (λ item : string * ProtocolNode,
                        match item.2 with
                        | ProtocolDir case_folders => Some case_folders
                        | ProtocolFile => None
                        end)
                     items) ∧
    ∀ record, record ∈ records →
      ∃ case_folders cases,
        (name record, ProtocolDir case_folders) ∈ items ∧
        case_path record = body_part +:+ "/" +:+ name record ∧
        list_cases body_part (name record) (Some (ProtocolDir case_folders))
          = mret cases ∧
        dicom_count record = sum_list (dicom_count <$> cases) ∧
        ∀ case, case ∈ cases →
          (0 < dicom_count case)%nat ∧
          case_path case
            = body_part +:+ "/" +:+ name record +:+ "/" +:+ name case ∧
          ∃ names, (name case, CaseDir names) ∈ case_folders ∧
                   dcm_count (CaseDir names) = Some (dicom_count case).
Proof.
  split; [reflexivity|]. split; [reflexivity|].
  eexists. split; [reflexivity|]. split.
  - rewrite (Permutation_length (sorted_by_name_perm _)).
    induction items as [|[item [|folders]] items IH]; [done| |].
    + exact IH.
    + cbn [omap list_omap snd length]. by rewrite <- IH.
  - intros record Hin. rewrite sorted_by_name_perm in Hin.
    apply list_elem_of_omap in Hin as ([item node] & Hin & Hrec).
    destruct node as [|case_folders]; [discriminate Hrec|].
    injection Hrec as <-. cbn [name case_path dicom_count].
    destruct (list_cases_entries body_part item case_folders)
      as (cases & Hcases & Hperm).
    exists case_folders, cases. split; [done|]. split; [done|].
    split; [done|]. split.
    + rewrite Hperm.
      by rewrite (protocol_count_is_sum body_part item case_folders 0).
    + intros case Hcase. rewrite Hperm in Hcase.
      apply list_elem_of_omap in Hcase as ([folder node] & Hfolder & Hcase).
      destruct node as [|names]; [discriminate Hcase|].
      cbn [dcm_count] in Hcase.
      match type of Hcase with
      | (if (0 <? ?n)%nat then _ else _) = _ =>
          destruct (Nat.ltb_spec 0 n) as [Hpos|_]; [|discriminate Hcase]
      end.
      injection Hcase as <-. cbn [name case_path dicom_count].
      split; [done|]. split; [done|]. exists names. by split.
Qed.

(** X30.  The flat list of case ids.  [list_cases_legacy] answers with
    exactly the paths of the cases that [list_cases] lists, taken over
    every protocol directory of every body part directory: an id is in
    the flat list if and only if it is the [case_path] of such a case. *)
Theorem list_cases_legacy_lists_the_cases
    (body_parts : list (string * BodyPartNode)) :
  list_cases_legacy None = mret [] ∧
  ∃ ids,
    list_cases_legacy (Some (RootDir body_parts)) = mret ids ∧
    ∀ id, id ∈ ids ↔
      ∃ body_part protocols protocol case_folders cases case,
        (body_part, BodyPartDir protocols) ∈ body_parts ∧
        (protocol, ProtocolDir case_folders) ∈ protocols ∧
        list_cases body_part protocol (Some (ProtocolDir case_folders))
          = mret cases ∧
        case ∈ cases ∧ id = case_path case.
Proof.
  split; [reflexivity|]. eexists. split; [reflexivity|].
  intros id. rewrite sorted_with_perm. rewrite elem_of_concat. split.
  - intros (ids & Hid & Hids).
    apply list_elem_of_fmap in Hids as ([body_part bp_node] & -> & Hbp).
    destruct bp_node as [|protocols]; [by apply elem_of_nil in Hid|].
    apply elem_of_concat in Hid as (ids & Hid & Hids).
    apply list_elem_of_fmap in Hids as ([protocol p_node] & -> & Hp).
    destruct p_node as [|case_folders]; [by apply elem_of_nil in Hid|].
    apply list_elem_of_omap in Hid as ([folder node] & Hfolder & Hid).
    destruct (dcm_count node) as [n|] eqn:Hcount; [|discriminate Hid].
    destruct (0 <? n)%nat eqn:Hpos; [|discriminate Hid].
    injection Hid as <-.
    destruct (list_cases_entries body_part protocol case_folders)
      as (cases & Hcases & Hperm).
    exists body_part, protocols, protocol, case_folders, cases,
      {| name := folder; dicom_count := n;
         case_path := body_part +:+ "/" +:+ protocol +:+ "/" +:+ folder |}.
    split; [done|]. split; [done|]. split; [done|]. split; [|done].
    rewrite Hperm. apply list_elem_of_omap. exists (folder, node).
    split; [done|]. cbn beta iota. by rewrite Hcount, Hpos.
  - intros (body_part & protocols & protocol & case_folders & cases & case
            & Hbp & Hp & Hcases & Hcase & ->).
    destruct (list_cases_entries body_part protocol case_folders)
      as (cases' & Hcases' & Hperm).
    rewrite Hcases in Hcases'. injection Hcases' as <-.
    rewrite Hperm in Hcase.
    apply list_elem_of_omap in Hcase as ([folder node] & Hfolder & Hcase).
    destruct (dcm_count node) as [n|] eqn:Hcount; [|discriminate Hcase].
    destruct (0 <? n)%nat eqn:Hpos; [|discriminate Hcase].
    injection Hcase as <-. cbn [case_path].
    eexists. split.
    2:{ apply list_elem_of_fmap. exists (body_part, BodyPartDir protocols).
        split; [reflexivity|done]. }
    cbn beta iota. apply elem_of_concat. eexists. split.
    2:{ apply list_elem_of_fmap. exists (protocol, ProtocolDir case_folders).
        split; [reflexivity|done]. }
    cbn beta iota. apply list_elem_of_omap. exists (folder, node).
    split; [done|]. cbn beta iota. by rewrite Hcount, Hpos.
Qed.

End ListingFacts.
